(** * PayLens SDK: the gateway abstraction and the resilient transport

    A shallow embedding of the TypeScript sources
      - [src/errors.ts]                 (module [Errors]),
      - [src/types/common.ts]           (canonical model),
      - [src/utils/http.ts]             ([HttpClient], retry and backoff),
      - [src/gateways/base.ts]          ([PaymentGateway], [BasePaymentGateway]),
      - [src/gateways/peach/types.ts]   (configuration schema, status table),
      - [src/gateways/peach/client.ts]  ([PeachPaymentsGateway]),
      - [src/client.ts]                 ([PayLens], the orchestrator),
    followed by the properties of section 8 of the specification.

    Conventions of the embedding.
      - A JavaScript string is a [string]; an optional field [f?: T] is an
        [option T], [undefined] being [None].
      - String enums ([PaymentMethod], [Currency], [PeachEnvironment]) are kept
        as the strings they are at run time, since the code casts arbitrary
        strings into them ([as any]); [PaymentStatus] is only ever produced by
        the code and is an inductive type.
      - A [number] that counts something (retries, milliseconds, HTTP status)
        is a [Z]: the counts are integers.  A monetary [number] is constrained
        by [AmountSchema] to be a multiple of 0.01; it is represented by its
        number of hundredths, also a [Z].
      - [async] functions are functions in the monad [M]: they thread the state
        of the outside world and a trace of observable events, and either
        return a value or throw. *)

From Stdlib Require Import ZArith String Ascii DecimalString Bool Lia.
From stdpp Require Import gmap strings list.
From Equations Require Import Equations.
From Equations.Prop Require Import Logic.

Open Scope Z_scope.
Set Warnings "-register-all".

(** ** JavaScript values *)

(** Truthiness of a string that may be [undefined]: [undefined] and the empty
    string are falsy. *)
Definition truthy (s : option string) : bool :=
  match s with
  | None => false
  | Some s => negb (String.eqb s "")
  end.

(** [a || b] on strings that may be [undefined]. *)
Definition or_else (a : option string) (b : string) : string :=
  match a with
  | Some s => if String.eqb s "" then b else s
  | None => b
  end.

(** [a || b] on numbers that may be [undefined]: [0] is falsy. *)
Definition or_elseZ (a : option Z) (b : Z) : Z :=
  match a with
  | Some n => if n =? 0 then b else n
  | None => b
  end.

(** [Array.prototype.includes] on an array of strings. *)
Definition includes (l : list string) (x : string) : bool :=
  existsb (String.eqb x) l.

(** [String(n)] for an integer. *)
Definition string_of_Z (n : Z) : string :=
  NilZero.string_of_int (Z.to_int n).

Definition digit_char (d : Z) : ascii :=
  ascii_of_nat (48 + Z.to_nat d).

(** The double nearest to a positive integer, ties going to the even
    significand; an integer below [2 ^ 53] is a double. *)
Definition nearest_double (v : Z) : Z :=
  if v <? 2 ^ 53 then v
  else
    let ulp := 2 ^ (Z.log2 v - 52) in
    let q := v / ulp in
    let r := v mod ulp in
    ulp * (if 2 * r <? ulp then q
           else if ulp <? 2 * r then q + 1
           else if Z.even q then q else q + 1).

(** The significand of [k] digits that denotes the double [x] of [n] digits,
    if there is one, with its decimal exponent: of the two neighbours of
    [x / 10 ^ (n - k)] the nearer one, the even one when they are as near; the
    upper neighbour may be [10 ^ k], which is the digit 1 at the next
    exponent. *)
Definition significand (x n k : Z) : option (Z * Z) :=
  let p := 10 ^ (n - k) in
  let lo := x / p in
  let hi := lo + 1 in
  let denotes s := nearest_double (s * p) =? x in
  let up := if hi <? 10 ^ k then (hi, n - 1) else (1, n) in
  let above := hi * p - x in
  let below := x - lo * p in
  if denotes lo then
    if denotes hi && ((above <? below) || ((above =? below) && Z.even hi))
    then Some up
    else Some (lo, n - 1)
  else if denotes hi then Some up
  else None.

(** The shortest significand that denotes [x], searched from [k] digits on. *)
Fixpoint shortest (fuel : nat) (x n k : Z) : Z * Z :=
  match fuel with
  | O => (x, n - 1)
  | S fuel' =>
      match significand x n k with
      | Some r => r
      | None => shortest fuel' x n (k + 1)
      end
  end.

(** [String(x)] for an integer double [x] of at least [1e21]: the shortest
    significand that denotes [x], a point after its first digit when it has
    several, and the exponent. *)
Definition exponential (x : Z) : string :=
  let n := Z.of_nat (String.length (string_of_Z x)) in
  let (s, e) := shortest (Z.to_nat n) x n 1 in
  match string_of_Z s with
  | EmptyString => EmptyString
  | String d EmptyString => String d ("e+" +:+ string_of_Z e)
  | String d rest => String d ("." +:+ rest +:+ "e+" +:+ string_of_Z e)
  end.

(** [Number.prototype.toFixed(2)] on a number given by its hundredths: below
    [1e21] the number with two decimals; from [1e21] on, where a double is an
    integer, [toFixed] returns [String] of the number, in exponent notation. *)
Definition toFixed2 (c : Z) : string :=
  let a := Z.abs c in
  (if c <? 0 then "-" else "")
    +:+ (if a <? 10 ^ 23
         then string_of_Z (a / 100)
                +:+ "."
                +:+ String (digit_char ((a mod 100) / 10)) (String (digit_char (a mod 10)) "")
         else exponential (a / 100)).

Definition lower_ascii (c : ascii) : ascii :=
  let n := nat_of_ascii c in
  if ((65 <=? n) && (n <=? 90))%nat then ascii_of_nat (n + 32) else c.

(** [String.prototype.toLowerCase] (on ASCII letters). *)
Fixpoint toLowerCase (s : string) : string :=
  match s with
  | EmptyString => EmptyString
  | String c s' => String (lower_ascii c) (toLowerCase s')
  end.

(** ** Errors ([src/errors.ts]) *)

Module Errors.

(** Values that can be thrown.  [JsValue] is a thrown value that is not an
    [Error]; [JsError] is an [Error] that is not a [PayLensError].  The
    [timestamp] and the stack of a [PayLensError] are not modelled. *)
Inductive Thrown : Type :=
| JsValue (v : string)
| JsError (message : string)
| ValidationError (message : string) (field : option string) (cause : option Thrown)
| AuthenticationError (message : string) (cause : option Thrown)
| PaymentError (message : string) (paymentId gatewayCode : option string)
    (cause : option Thrown)
| NetworkError (message : string) (statusCode : option Z) (response : option string)
    (cause : option Thrown)
| ConfigurationError (message : string) (parameter : option string)
    (cause : option Thrown)
| GatewayError (message : string) (gateway : string) (gatewayCode : option string)
    (statusCode : option Z) (cause : option Thrown)
| RefundError (message : string) (paymentId refundId gatewayCode : option string)
    (cause : option Thrown).

(** [error instanceof Error] *)
Definition instanceofError (e : Thrown) : bool :=
  match e with
  | JsValue _ => false
  | _ => true
  end.

Definition instanceofValidationError (e : Thrown) : bool :=
  match e with
  | ValidationError _ _ _ => true
  | _ => false
  end.

Definition instanceofNetworkError (e : Thrown) : bool :=
  match e with
  | NetworkError _ _ _ _ => true
  | _ => false
  end.

Definition instanceofConfigurationError (e : Thrown) : bool :=
  match e with
  | ConfigurationError _ _ _ => true
  | _ => false
  end.

(** [error.message] of an [Error]. *)
Definition message_of (e : Thrown) : string :=
  match e with
  | JsValue _ => ""
  | JsError m
  | ValidationError m _ _
  | AuthenticationError m _
  | PaymentError m _ _ _
  | NetworkError m _ _ _
  | ConfigurationError m _ _
  | GatewayError m _ _ _ _
  | RefundError m _ _ _ _ => m
  end.

(** [error instanceof Error ? error.message : 'Unknown error'] *)
Definition message_or_unknown (e : Thrown) : string :=
  if instanceofError e then message_of e else "Unknown error".

(** [error instanceof Error ? error : undefined] *)
Definition cause_of (e : Thrown) : option Thrown :=
  if instanceofError e then Some e else None.

(** [error.statusCode] of a [NetworkError]. *)
Definition statusCode_of (e : Thrown) : option Z :=
  match e with
  | NetworkError _ sc _ _ => sc
  | _ => None
  end.

End Errors.
Import Errors.

(** ** The canonical model ([src/types/common.ts]) *)

Inductive PaymentStatus : Type :=
| PENDING | PROCESSING | COMPLETED | FAILED | CANCELLED | REFUNDED | PARTIALLY_REFUNDED.

Definition PaymentStatus_eqb (a b : PaymentStatus) : bool :=
  match a, b with
  | PENDING, PENDING | PROCESSING, PROCESSING | COMPLETED, COMPLETED
  | FAILED, FAILED | CANCELLED, CANCELLED | REFUNDED, REFUNDED
  | PARTIALLY_REFUNDED, PARTIALLY_REFUNDED => true
  | _, _ => false
  end.

Module PaymentMethod.
Definition CARD : string := "card".
Definition EFT : string := "eft".
Definition MOBILE_WALLET : string := "mobile_wallet".
Definition BANK_TRANSFER : string := "bank_transfer".
Definition CRYPTOCURRENCY : string := "cryptocurrency".
Definition values : list string :=
  [CARD; EFT; MOBILE_WALLET; BANK_TRANSFER; CRYPTOCURRENCY].
End PaymentMethod.

Module Currency.
Definition ZAR : string := "ZAR".
Definition USD : string := "USD".
Definition EUR : string := "EUR".
Definition GBP : string := "GBP".
Definition values : list string := [ZAR; USD; EUR; GBP].
End Currency.

(** An amount of money; [value] is in hundredths of the currency unit. *)
Module Amount.
Record t : Type := {
  value : Z;
  currency : string;
}.
End Amount.

Module Customer.
Record t : Type := {
  id : option string;
  email : string;
  firstName : option string;
  lastName : option string;
  phone : option string;
}.
End Customer.

Module BillingAddress.
Record t : Type := {
  line1 : string;
  line2 : option string;
  city : string;
  state : option string;
  postalCode : string;
  country : string;
}.
End BillingAddress.

Module CardDetails.
Record t : Type := {
  number : string;
  expiryMonth : string;
  expiryYear : string;
  cvv : string;
  holderName : option string;
}.
End CardDetails.

(** [customer] is declared mandatory and checked for presence by the schema;
    the adapter tests it, so it is optional here.  The opaque [metadata] of a
    request is never read and is left out. *)
Module PaymentRequest.
Record t : Type := {
  amount : Amount.t;
  customer : option Customer.t;
  paymentMethod : string;
  reference : option string;
  description : option string;
  billingAddress : option BillingAddress.t;
  cardDetails : option CardDetails.t;
  returnUrl : option string;
  webhookUrl : option string;
}.
End PaymentRequest.

Module RefundRequest.
Record t : Type := {
  paymentId : string;
  amount : option Amount.t;
  reason : option string;
  reference : option string;
}.
End RefundRequest.

(** [new Date(s)], kept as the string it was built from. *)
Inductive Date : Type := NewDate (s : string).

(** [apiUrl] is a string that is [undefined] when the URL table has no entry. *)
Module PaymentGatewayConfig.
Record t : Type := {
  apiUrl : option string;
  sandbox : bool;
  timeout : option Z;
  retries : option Z;
}.
End PaymentGatewayConfig.

(** ** The Peach wire format and status table ([src/gateways/peach/types.ts]) *)

Module PeachEnvironment.
Definition SANDBOX : string := "sandbox".
Definition PRODUCTION : string := "production".
Definition values : list string := [SANDBOX; PRODUCTION].
End PeachEnvironment.

(** [environment] is declared mandatory, but the legacy shape leaves it out,
    so it is an optional field here. *)
Module PeachPaymentsConfig.
Record t : Type := {
  entityId : string;
  username : string;
  password : string;
  environment : option string;
  timeout : option Z;
  retries : option Z;
  apiUrl : option string;
  sandbox : option bool;
}.
End PeachPaymentsConfig.

(** [PEACH_API_URLS[env]]; [undefined] for a key that is not in the table. *)
Definition PEACH_API_URLS (env : option string) : option string :=
  match env with
  | Some e =>
      if String.eqb e PeachEnvironment.SANDBOX
      then Some "https://testapi-v2.peachpayments.com"
      else if String.eqb e PeachEnvironment.PRODUCTION
      then Some "https://api-v2.peachpayments.com"
      else None
  | None => None
  end.

Module PeachResult.
Record t : Type := {
  code : string;
  description : string;
}.
End PeachResult.

Module PeachCustomer.
Record t : Type := {
  merchantCustomerId : option string;
  givenName : option string;
  surname : option string;
  email : option string;
  phone : option string;
}.
End PeachCustomer.

Module PeachBilling.
Record t : Type := {
  street1 : string;
  city : string;
  state : option string;
  postcode : string;
  country : string;
}.
End PeachBilling.

Module PeachCard.
Record t : Type := {
  number : string;
  holder : string;
  expiryMonth : string;
  expiryYear : string;
  cvv : string;
}.
End PeachCard.

Module PeachPaymentRequest.
Record t : Type := {
  entityId : string;
  amount : string;
  currency : string;
  paymentType : string;
  testMode : option string;
  merchantTransactionId : option string;
  customer : option PeachCustomer.t;
  billing : option PeachBilling.t;
  card : option PeachCard.t;
  shopperResultUrl : option string;
  notificationUrl : option string;
}.
End PeachPaymentRequest.

(** Of the response records, the fields the adapter never reads
    ([descriptor], [resultDetails], [card], [risk], [buildNumber], [ndc]) are
    left out. *)
Module PeachPaymentResponse.
Record t : Type := {
  id : string;
  paymentType : string;
  paymentBrand : option string;
  amount : string;
  currency : string;
  result : PeachResult.t;
  timestamp : string;
  redirectUrl : option string;
}.
End PeachPaymentResponse.

Module PeachRefundRequest.
Record t : Type := {
  entityId : string;
  amount : string;
  currency : string;
  paymentType : string;
  testMode : option string;
}.
End PeachRefundRequest.

Module PeachRefundResponse.
Record t : Type := {
  id : string;
  paymentType : string;
  amount : string;
  currency : string;
  result : PeachResult.t;
  timestamp : string;
}.
End PeachRefundResponse.

Module PeachStatusResponse.
Record t : Type := {
  id : string;
  paymentType : string;
  paymentBrand : option string;
  amount : string;
  currency : string;
  result : PeachResult.t;
  timestamp : string;
}.
End PeachStatusResponse.

(** The [metadata] the adapter attaches to a canonical response. *)
Inductive GatewayResponse : Type :=
| OfPayment (r : PeachPaymentResponse.t)
| OfRefund (r : PeachRefundResponse.t)
| OfStatus (r : PeachStatusResponse.t).

Module Metadata.
Record t : Type := {
  gatewayResponse : GatewayResponse;
  resultCode : string;
  resultDescription : string;
}.
End Metadata.

Module PaymentResponse.
Record t : Type := {
  id : string;
  status : PaymentStatus;
  amount : Amount.t;
  paymentMethod : string;
  reference : option string;
  gatewayReference : option string;
  createdAt : Date;
  metadata : option Metadata.t;
  redirectUrl : option string;
  failureReason : option string;
}.
End PaymentResponse.

Module RefundResponse.
Record t : Type := {
  id : string;
  paymentId : string;
  status : PaymentStatus;
  amount : Amount.t;
  reason : option string;
  reference : option string;
  gatewayReference : option string;
  createdAt : Date;
  metadata : option Metadata.t;
}.
End RefundResponse.

Module PEACH_STATUS_CODES.
Definition SUCCESS_CODES : list string :=
  [ "000.000.000"; "000.000.100"; "000.100.110"; "000.100.111"; "000.100.112" ].
Definition PENDING_CODES : list string :=
  [ "000.200.000"; "800.400.500"; "900.100.300" ].
Definition REJECTED_CODES : list string :=
  [ "000.400.000"; "000.400.010"; "000.400.020"; "000.400.030"; "000.400.040";
    "000.400.050"; "000.400.060"; "000.400.070"; "000.400.080"; "000.400.090";
    "000.400.100" ].
Definition ERROR_CODES : list string :=
  [ "200.300.404"; "800.300.401"; "900.400.500" ].
End PEACH_STATUS_CODES.

(** Two arrays of codes have no element in common. *)
Definition disjoint_codes (l1 l2 : list string) : Prop :=
  forall c, In c l1 -> In c l2 -> False.

(** ** Effects

    An [async] function of the SDK runs against the outside world (the remote
    gateway behind axios, the clock, the random generator) and leaves
    observable events behind.  [M A] threads both and ends in a thrown value or
    in a result. *)

Inductive Event : Type :=
| ConsoleWarn (msg : string)
| AxiosCreate (baseURL : option string) (timeout : Z) (headers : gmap string string)
| HttpRequest (method url : string)
| Sleep (ms : Z).

Record State (W : Type) : Type := mkState {
  world : W;
  trace : list Event;
}.
Arguments mkState {W} _ _.
Arguments world {W} _.
Arguments trace {W} _.

Definition M (W A : Type) : Type := State W -> (Thrown + A) * State W.

Global Instance M_ret {W} : MRet (M W) := fun A a s => (inr a, s).

Global Instance M_bind {W} : MBind (M W) := fun A B f m s =>
  match m s with
  | (inr a, s') => f a s'
  | (inl e, s') => (inl e, s')
  end.

Definition throw {W A} (e : Thrown) : M W A := fun s => (inl e, s).

(** [try { body } catch (error) { handler }] *)
Definition try_catch {W A} (body : M W A) (handler : Thrown -> M W A) : M W A :=
  fun s =>
    match body s with
    | (inr a, s') => (inr a, s')
    | (inl e, s') => handler e s'
    end.

Definition emit {W} (e : Event) : M W unit :=
  fun s => (inr tt, mkState (world s) (trace s ++ [e])).

(** The events of a trace that build a Transport. *)
Definition is_AxiosCreate (e : Event) : bool :=
  match e with AxiosCreate _ _ _ => true | _ => false end.

Definition is_HttpRequest (e : Event) : bool :=
  match e with HttpRequest _ _ => true | _ => false end.

Definition sleeps (t : list Event) : list Z :=
  omap (fun e => match e with Sleep ms => Some ms | _ => None end) t.

(** ** Library functions the SDK calls

    Pure functions of zod and of the JavaScript run time that the SDK uses and
    whose results no property below depends on. *)
Class Platform : Type := {
  (** [z.string().url()] accepts the string *)
  zod_url : string -> bool;
  (** [z.string().email()] accepts the string *)
  zod_email : string -> bool;
  (** [ZodError.message] for issues at the given paths *)
  zod_message : list string -> string;
  (** [parseFloat], in hundredths *)
  parseFloat : string -> Z;
  (** [Buffer.from(s).toString('base64')] *)
  base64 : string -> string;
}.

(** ** axios *)

Record AxiosResponse (T : Type) : Type := {
  data : T;
  status : Z;
}.
Arguments data {T} _.
Arguments status {T} _.

(** [error.response] of an axios error: its status and body. *)
Record AxiosErrorResponse : Type := {
  er_status : Z;
  er_data_message : option string;
  er_data : string;
}.

Record AxiosError : Type := {
  ae_message : string;
  ae_response : option AxiosErrorResponse;
  ae_request : bool;
}.

Inductive AxiosOutcome (T : Type) : Type :=
| Fulfilled (response : AxiosResponse T)
| Rejected (error : AxiosError).
Arguments Fulfilled {T} _.
Arguments Rejected {T} _.

Record AxiosInstance : Type := {
  ax_baseURL : option string;
  ax_timeout : Z;
  ax_headers : gmap string string;
}.

(** The outside world: what the remote gateway answers to the three kinds of
    request the adapter issues, the clock and the random generator. *)
Class Runtime (W : Type) : Type := {
  axios_post_payment :
    AxiosInstance -> string -> PeachPaymentRequest.t -> W ->
    AxiosOutcome PeachPaymentResponse.t * W;
  axios_get_status :
    AxiosInstance -> string -> W -> AxiosOutcome PeachStatusResponse.t * W;
  axios_post_refund :
    AxiosInstance -> string -> PeachRefundRequest.t -> W ->
    AxiosOutcome PeachRefundResponse.t * W;
  (** [Date.now()] *)
  Date_now : W -> Z * W;
  (** [Math.random().toString(36)] *)
  Math_random_toString36 : W -> string * W;
}.

(** ** The transport ([src/utils/http.ts]) *)

Module HttpClient.

Record HttpClientConfig : Type := {
  baseURL : option string;
  cfg_timeout : option Z;
  cfg_retries : option Z;
  cfg_headers : gmap string string;
}.

Record t : Type := {
  client : AxiosInstance;
  retries : Z;
}.

(** The [onRejected] handler of the response interceptor. *)
Definition responseInterceptor (error : AxiosError) : Thrown :=
  match ae_response error with
  | Some r =>
      NetworkError
        ("HTTP " +:+ string_of_Z (er_status r) +:+ ": "
           +:+ or_else (er_data_message r) (ae_message error))
        (Some (er_status r)) (Some (er_data r)) None
  | None =>
      if ae_request error
      then NetworkError "No response received from server" None None
             (Some (JsError (ae_message error)))
      else NetworkError "Request setup failed" None None
             (Some (JsError (ae_message error)))
  end.

(** One request through the axios instance, interceptors included.  The
    request interceptor only logs, and only in development. *)
Definition request {W T} (method url : string)
    (send : W -> AxiosOutcome T * W) : M W (AxiosResponse T) :=
  fun s =>
    let (outcome, w) := send (world s) in
    let s' := mkState w (trace s ++ [HttpRequest method url]) in
    match outcome with
    | Fulfilled response => (inr response, s')
    | Rejected error => (inl (responseInterceptor error), s')
    end.

(** [new HttpClient(config)] *)
Definition new {W} (config : HttpClientConfig) : M W t :=
  let retries := or_elseZ (cfg_retries config) 3 in
  let client :=
    {| ax_baseURL := baseURL config;
       ax_timeout := or_elseZ (cfg_timeout config) 30000;
       ax_headers :=
         cfg_headers config
           ∪ {[ "Content-Type" := "application/json"; "User-Agent" := "@paylens/sdk" ]} |} in
  _ ← emit (AxiosCreate (ax_baseURL client) (ax_timeout client) (ax_headers client));
  mret {| client := client; retries := retries |}.

(** [!error.statusCode || error.statusCode >= 500] for a [NetworkError];
    [!error.statusCode] holds of [undefined] and of [0]. *)
Definition shouldRetry (error : Thrown) : bool :=
  if instanceofNetworkError error then
    match statusCode_of error with
    | None => true
    | Some statusCode => (statusCode =? 0) || (500 <=? statusCode)
    end
  else false.

(** [Math.min(1000 * Math.pow(2, attempt - 1), 10000)]; [attempt] is at least
    1 in every call. *)
Definition calculateRetryDelay (attempt : Z) : Z :=
  Z.min (1000 * 2 ^ (attempt - 1)) 10000.

Definition sleep {W} (ms : Z) : M W unit := emit (Sleep ms).

Equations? executeWithRetry {W T} (retries : Z) (operation : M W (AxiosResponse T))
    (attempt : Z) (s : State W) : (Thrown + T) * State W
    by wf (Z.to_nat (retries - attempt)) lt :=
  executeWithRetry retries operation attempt s with operation s := {
    | (inr response, s1) => (inr (data response), s1)
    | (inl error, s1) with inspect ((attempt <? retries) && shouldRetry error) := {
        | exist _ true Hretry =>
            let delay := calculateRetryDelay attempt in
            executeWithRetry retries operation (attempt + 1) (sleep delay s1).2
        | exist _ false _ => (inl error, s1) } }.
Proof.
  apply andb_prop in Hretry as [Hlt _]. apply Z.ltb_lt in Hlt. lia.
Qed.

(** [get] and [post]; [put], [patch] and [delete] are the same call of
    [executeWithRetry] and are not used by the adapter. *)
Definition get {W T} (this : t) (url : string)
    (send : AxiosInstance -> string -> W -> AxiosOutcome T * W) : M W T :=
  executeWithRetry (retries this) (request "GET" url (send (client this) url)) 1.

Definition post {W T D} (this : t) (url : string) (body : D)
    (send : AxiosInstance -> string -> D -> W -> AxiosOutcome T * W) : M W T :=
  executeWithRetry (retries this) (request "POST" url (send (client this) url body)) 1.

End HttpClient.

(** ** Schemas ([zod])

    A schema is modelled by the list of paths at which [safeParse] reports an
    issue; parsing succeeds when the list is empty. *)

Definition min1 (path s : string) : list string :=
  if String.eqb s "" then [path] else [].

Definition positive_opt (path : string) (n : option Z) : list string :=
  match n with
  | Some n => if 0 <? n then [] else [path]
  | None => []
  end.

Definition is_digit (c : ascii) : bool :=
  let n := nat_of_ascii c in ((48 <=? n) && (n <=? 57))%nat.

Fixpoint all_digits (s : string) : bool :=
  match s with
  | EmptyString => true
  | String c s' => is_digit c && all_digits s'
  end.

(** [/^\d{lo,hi}$/] *)
Definition digits_between (lo hi : nat) (s : string) : bool :=
  all_digits s && ((lo <=? String.length s) && (String.length s <=? hi))%nat.

Section Schemas.
Context `{Platform}.

Definition url_opt (path : string) (u : option string) : list string :=
  match u with
  | Some u => if zod_url u then [] else [path]
  | None => []
  end.

Definition AmountObjectSchema (a : Amount.t) : list string :=
  (if 0 <? Amount.value a then [] else ["value"])
    ++ (if includes Currency.values (Amount.currency a) then [] else ["currency"]).

Definition CustomerSchema (c : Customer.t) : list string :=
  if zod_email (Customer.email c) then [] else ["email"].

Definition BillingAddressSchema (b : BillingAddress.t) : list string :=
  min1 "line1" (BillingAddress.line1 b)
    ++ min1 "city" (BillingAddress.city b)
    ++ min1 "postalCode" (BillingAddress.postalCode b)
    ++ (if (String.length (BillingAddress.country b) =? 2)%nat then [] else ["country"]).

Definition CardDetailsSchema (c : CardDetails.t) : list string :=
  (if digits_between 13 19 (CardDetails.number c) then [] else ["number"])
    ++ (if includes ["01"; "02"; "03"; "04"; "05"; "06"; "07"; "08"; "09"; "10"; "11"; "12"]
             (CardDetails.expiryMonth c) then [] else ["expiryMonth"])
    ++ (if digits_between 2 2 (CardDetails.expiryYear c) then [] else ["expiryYear"])
    ++ (if digits_between 3 4 (CardDetails.cvv c) then [] else ["cvv"]).

Definition PaymentRequestSchema (r : PaymentRequest.t) : list string :=
  AmountObjectSchema (PaymentRequest.amount r)
    ++ match PaymentRequest.customer r with
       | Some c => CustomerSchema c
       | None => ["customer"]
       end
    ++ (if includes PaymentMethod.values (PaymentRequest.paymentMethod r)
        then [] else ["paymentMethod"])
    ++ from_option BillingAddressSchema [] (PaymentRequest.billingAddress r)
    ++ from_option CardDetailsSchema [] (PaymentRequest.cardDetails r)
    ++ url_opt "returnUrl" (PaymentRequest.returnUrl r)
    ++ url_opt "webhookUrl" (PaymentRequest.webhookUrl r).

Definition RefundRequestSchema (r : RefundRequest.t) : list string :=
  min1 "paymentId" (RefundRequest.paymentId r)
    ++ from_option AmountObjectSchema [] (RefundRequest.amount r).

Definition PeachPaymentsConfigSchema (c : PeachPaymentsConfig.t) : list string :=
  min1 "entityId" (PeachPaymentsConfig.entityId c)
    ++ min1 "username" (PeachPaymentsConfig.username c)
    ++ min1 "password" (PeachPaymentsConfig.password c)
    ++ match PeachPaymentsConfig.environment c with
       | Some e => if includes PeachEnvironment.values e then [] else ["environment"]
       | None => ["environment"]
       end
    ++ positive_opt "timeout" (PeachPaymentsConfig.timeout c)
    ++ positive_opt "retries" (PeachPaymentsConfig.retries c)
    ++ url_opt "apiUrl" (PeachPaymentsConfig.apiUrl c).

(** [schema.safeParse(x).success] *)
Definition success (issues : list string) : bool :=
  match issues with [] => true | _ => false end.

End Schemas.

(** ** The gateway contract ([src/gateways/base.ts]) *)

Module PaymentGateway.
Record t (W : Type) : Type := {
  name : string;
  supportedMethods : list string;
  processPayment : PaymentRequest.t -> M W PaymentResponse.t;
  getPaymentStatus : string -> M W PaymentResponse.t;
  processRefund : RefundRequest.t -> M W RefundResponse.t;
  getRefundStatus : string -> M W RefundResponse.t;
  validateConfig : bool;
  supportsPaymentMethod : string -> bool;
}.
Arguments name {W} _.
Arguments supportedMethods {W} _.
Arguments processPayment {W} _ _.
Arguments getPaymentStatus {W} _ _.
Arguments processRefund {W} _ _.
Arguments getRefundStatus {W} _ _.
Arguments validateConfig {W} _.
Arguments supportsPaymentMethod {W} _ _.
End PaymentGateway.

Module BasePaymentGateway.

Definition supportsPaymentMethod (supportedMethods : list string) (method : string) : bool :=
  includes supportedMethods method.

Definition getApiUrl (config : PaymentGatewayConfig.t) : option string :=
  PaymentGatewayConfig.apiUrl config.

Definition isSandbox (config : PaymentGatewayConfig.t) : bool :=
  PaymentGatewayConfig.sandbox config.

Definition getTimeout (config : PaymentGatewayConfig.t) : Z :=
  or_elseZ (PaymentGatewayConfig.timeout config) 30000.

Definition getRetries (config : PaymentGatewayConfig.t) : Z :=
  or_elseZ (PaymentGatewayConfig.retries config) 3.

Definition generateReference {W} `{Runtime W} (name : string) : M W string :=
  fun s =>
    let (timestamp, w1) := Date_now (world s) in
    let (r, w2) := Math_random_toString36 w1 in
    let random := String.substring 2 6 r in
    (inr (toLowerCase name +:+ "-" +:+ string_of_Z timestamp +:+ "-" +:+ random),
     mkState w2 (trace s)).

End BasePaymentGateway.

(** ** The Peach adapter ([src/gateways/peach/client.ts]) *)

(** [String.prototype.includes] *)
Fixpoint str_includes (sub s : string) : bool :=
  String.prefix sub s
  || match s with
     | EmptyString => false
     | String _ s' => str_includes sub s'
     end.

Module PeachPaymentsGateway.

Definition name : string := "PeachPayments".

Definition supportedMethods : list string :=
  [ PaymentMethod.CARD; PaymentMethod.EFT; PaymentMethod.MOBILE_WALLET ].

Record t : Type := {
  config : PaymentGatewayConfig.t;
  peachConfig : PeachPaymentsConfig.t;
  httpClient : HttpClient.t;
}.

Definition mapPaymentStatus (gatewayStatus : string) : PaymentStatus :=
  if includes PEACH_STATUS_CODES.SUCCESS_CODES gatewayStatus then COMPLETED
  else if includes PEACH_STATUS_CODES.PENDING_CODES gatewayStatus then PROCESSING
  else if includes PEACH_STATUS_CODES.REJECTED_CODES gatewayStatus then FAILED
  else if includes PEACH_STATUS_CODES.ERROR_CODES gatewayStatus then FAILED
  else PENDING.

(** The legacy test [config.apiUrl && config.sandbox !== undefined &&
    !config.environment]. *)
Definition is_legacy (config : PeachPaymentsConfig.t) : bool :=
  truthy (PeachPaymentsConfig.apiUrl config)
  && bool_decide (is_Some (PeachPaymentsConfig.sandbox config))
  && negb (truthy (PeachPaymentsConfig.environment config)).

Definition with_environment (config : PeachPaymentsConfig.t) (env : string)
    : PeachPaymentsConfig.t :=
  {| PeachPaymentsConfig.entityId := PeachPaymentsConfig.entityId config;
     PeachPaymentsConfig.username := PeachPaymentsConfig.username config;
     PeachPaymentsConfig.password := PeachPaymentsConfig.password config;
     PeachPaymentsConfig.environment := Some env;
     PeachPaymentsConfig.timeout := PeachPaymentsConfig.timeout config;
     PeachPaymentsConfig.retries := PeachPaymentsConfig.retries config;
     PeachPaymentsConfig.apiUrl := PeachPaymentsConfig.apiUrl config;
     PeachPaymentsConfig.sandbox := PeachPaymentsConfig.sandbox config |}.

Definition normalizeConfig {W} (config : PeachPaymentsConfig.t)
    : M W PeachPaymentsConfig.t :=
  if is_legacy config then
    _ ← emit (ConsoleWarn
          "[PayLens] Using legacy configuration format. Please migrate to environment-based configuration.");
    mret (with_environment config
            (if default false (PeachPaymentsConfig.sandbox config)
             then PeachEnvironment.SANDBOX else PeachEnvironment.PRODUCTION))
  else mret config.

Definition getApiUrlForConfig (config : PeachPaymentsConfig.t) : option string :=
  if truthy (PeachPaymentsConfig.apiUrl config)
  then PeachPaymentsConfig.apiUrl config
  else PEACH_API_URLS (PeachPaymentsConfig.environment config).

Definition getPaymentType (method : string) : string :=
  if String.eqb method PaymentMethod.CARD then "DB"
  else if String.eqb method PaymentMethod.EFT then "DD"
  else if String.eqb method PaymentMethod.MOBILE_WALLET then "DB"
  else "DB".

Definition mapPaymentBrandToMethod (brand : option string) : string :=
  if negb (truthy brand) then PaymentMethod.CARD
  else
    let brandLower := toLowerCase (default "" brand) in
    if str_includes "visa" brandLower || str_includes "mastercard" brandLower
       || str_includes "amex" brandLower || str_includes "diners" brandLower
    then PaymentMethod.CARD
    else if str_includes "eft" brandLower || str_includes "bank" brandLower
    then PaymentMethod.EFT
    else if str_includes "paypal" brandLower || str_includes "wallet" brandLower
    then PaymentMethod.MOBILE_WALLET
    else PaymentMethod.CARD.

(** [this.peachConfig.sandbox ? 'EXTERNAL' : undefined] *)
Definition testMode (this : t) : option string :=
  if default false (PeachPaymentsConfig.sandbox (peachConfig this))
  then Some "EXTERNAL" else None.

Definition mapToPaymentResponse (peachResponse : PeachPaymentResponse.t)
    (originalRequest : PaymentRequest.t) : PaymentResponse.t :=
  let result := PeachPaymentResponse.result peachResponse in
  {| PaymentResponse.id := PeachPaymentResponse.id peachResponse;
     PaymentResponse.status := mapPaymentStatus (PeachResult.code result);
     PaymentResponse.amount := PaymentRequest.amount originalRequest;
     PaymentResponse.paymentMethod := PaymentRequest.paymentMethod originalRequest;
     PaymentResponse.reference := PaymentRequest.reference originalRequest;
     PaymentResponse.gatewayReference := Some (PeachPaymentResponse.id peachResponse);
     PaymentResponse.createdAt := NewDate (PeachPaymentResponse.timestamp peachResponse);
     PaymentResponse.metadata :=
       Some {| Metadata.gatewayResponse := OfPayment peachResponse;
               Metadata.resultCode := PeachResult.code result;
               Metadata.resultDescription := PeachResult.description result |};
     PaymentResponse.redirectUrl := PeachPaymentResponse.redirectUrl peachResponse;
     PaymentResponse.failureReason :=
       if PaymentStatus_eqb (mapPaymentStatus (PeachResult.code result)) FAILED
       then Some (PeachResult.description result)
       else None |}.

Definition mapToRefundRequest (this : t) (request : RefundRequest.t)
    : PeachRefundRequest.t :=
  {| PeachRefundRequest.entityId := PeachPaymentsConfig.entityId (peachConfig this);
     PeachRefundRequest.amount :=
       or_else (a ← RefundRequest.amount request; Some (toFixed2 (Amount.value a))) "0.00";
     PeachRefundRequest.currency :=
       or_else (a ← RefundRequest.amount request; Some (Amount.currency a)) "ZAR";
     PeachRefundRequest.paymentType := "RF";
     PeachRefundRequest.testMode := testMode this |}.

Section WithPlatform.
Context `{Platform}.

Definition createAuthHeader (config : PeachPaymentsConfig.t) : string :=
  let credentials :=
    PeachPaymentsConfig.username config +:+ ":" +:+ PeachPaymentsConfig.password config in
  base64 credentials.

Definition new {W} (config : PeachPaymentsConfig.t) : M W t :=
  normalizedConfig ← normalizeConfig config;
  let validationResult := PeachPaymentsConfigSchema normalizedConfig in
  if negb (success validationResult) then
    throw (ValidationError
             ("Invalid Peach Payments configuration: " +:+ zod_message validationResult)
             None None)
  else
    let apiUrl := getApiUrlForConfig normalizedConfig in
    let isSandbox :=
      bool_decide (PeachPaymentsConfig.environment normalizedConfig
                   = Some PeachEnvironment.SANDBOX) in
    let baseConfig :=
      {| PaymentGatewayConfig.apiUrl := apiUrl;
         PaymentGatewayConfig.sandbox := isSandbox;
         PaymentGatewayConfig.timeout := PeachPaymentsConfig.timeout normalizedConfig;
         PaymentGatewayConfig.retries := PeachPaymentsConfig.retries normalizedConfig |} in
    httpClient ← HttpClient.new
      {| HttpClient.baseURL := apiUrl;
         HttpClient.cfg_timeout := PeachPaymentsConfig.timeout normalizedConfig;
         HttpClient.cfg_retries := PeachPaymentsConfig.retries normalizedConfig;
         HttpClient.cfg_headers :=
           {[ "Authorization" := "Basic " +:+ createAuthHeader normalizedConfig ]} |};
    mret {| config := baseConfig;
            peachConfig := normalizedConfig;
            httpClient := httpClient |}.

Definition validateConfig (this : t) : bool :=
  success (PeachPaymentsConfigSchema (peachConfig this)).

Definition mapStatusToPaymentResponse (peachResponse : PeachStatusResponse.t)
    : PaymentResponse.t :=
  let result := PeachStatusResponse.result peachResponse in
  {| PaymentResponse.id := PeachStatusResponse.id peachResponse;
     PaymentResponse.status := mapPaymentStatus (PeachResult.code result);
     PaymentResponse.amount :=
       {| Amount.value := parseFloat (PeachStatusResponse.amount peachResponse);
          Amount.currency := PeachStatusResponse.currency peachResponse |};
     PaymentResponse.paymentMethod :=
       mapPaymentBrandToMethod (PeachStatusResponse.paymentBrand peachResponse);
     PaymentResponse.reference := None;
     PaymentResponse.gatewayReference := Some (PeachStatusResponse.id peachResponse);
     PaymentResponse.createdAt := NewDate (PeachStatusResponse.timestamp peachResponse);
     PaymentResponse.metadata :=
       Some {| Metadata.gatewayResponse := OfStatus peachResponse;
               Metadata.resultCode := PeachResult.code result;
               Metadata.resultDescription := PeachResult.description result |};
     PaymentResponse.redirectUrl := None;
     PaymentResponse.failureReason :=
       if PaymentStatus_eqb (mapPaymentStatus (PeachResult.code result)) FAILED
       then Some (PeachResult.description result)
       else None |}.

Definition mapToRefundResponse (peachResponse : PeachRefundResponse.t)
    (originalRequest : RefundRequest.t) : RefundResponse.t :=
  let result := PeachRefundResponse.result peachResponse in
  {| RefundResponse.id := PeachRefundResponse.id peachResponse;
     RefundResponse.paymentId := RefundRequest.paymentId originalRequest;
     RefundResponse.status := mapPaymentStatus (PeachResult.code result);
     RefundResponse.amount :=
       {| Amount.value := parseFloat (PeachRefundResponse.amount peachResponse);
          Amount.currency := PeachRefundResponse.currency peachResponse |};
     RefundResponse.reason := RefundRequest.reason originalRequest;
     RefundResponse.reference := RefundRequest.reference originalRequest;
     RefundResponse.gatewayReference := Some (PeachRefundResponse.id peachResponse);
     RefundResponse.createdAt := NewDate (PeachRefundResponse.timestamp peachResponse);
     RefundResponse.metadata :=
       Some {| Metadata.gatewayResponse := OfRefund peachResponse;
               Metadata.resultCode := PeachResult.code result;
               Metadata.resultDescription := PeachResult.description result |} |}.

Definition mapStatusToRefundResponse (peachResponse : PeachStatusResponse.t)
    : RefundResponse.t :=
  let result := PeachStatusResponse.result peachResponse in
  {| RefundResponse.id := PeachStatusResponse.id peachResponse;
     RefundResponse.paymentId := "";
     RefundResponse.status := mapPaymentStatus (PeachResult.code result);
     RefundResponse.amount :=
       {| Amount.value := parseFloat (PeachStatusResponse.amount peachResponse);
          Amount.currency := PeachStatusResponse.currency peachResponse |};
     RefundResponse.reason := None;
     RefundResponse.reference := None;
     RefundResponse.gatewayReference := Some (PeachStatusResponse.id peachResponse);
     RefundResponse.createdAt := NewDate (PeachStatusResponse.timestamp peachResponse);
     RefundResponse.metadata :=
       Some {| Metadata.gatewayResponse := OfStatus peachResponse;
               Metadata.resultCode := PeachResult.code result;
               Metadata.resultDescription := PeachResult.description result |} |}.

Section WithRuntime.
Context {W : Type} `{Runtime W}.

Definition mapToPaymentRequest (this : t) (request : PaymentRequest.t)
    : M W PeachPaymentRequest.t :=
  merchantTransactionId ←
    (if truthy (PaymentRequest.reference request)
     then mret (default "" (PaymentRequest.reference request))
     else BasePaymentGateway.generateReference name);
  mret
    {| PeachPaymentRequest.entityId := PeachPaymentsConfig.entityId (peachConfig this);
       PeachPaymentRequest.amount :=
         toFixed2 (Amount.value (PaymentRequest.amount request));
       PeachPaymentRequest.currency := Amount.currency (PaymentRequest.amount request);
       PeachPaymentRequest.paymentType :=
         getPaymentType (PaymentRequest.paymentMethod request);
       PeachPaymentRequest.testMode := testMode this;
       PeachPaymentRequest.merchantTransactionId := Some merchantTransactionId;
       PeachPaymentRequest.customer :=
         c ← PaymentRequest.customer request;
         Some {| PeachCustomer.merchantCustomerId := Customer.id c;
                 PeachCustomer.givenName := Customer.firstName c;
                 PeachCustomer.surname := Customer.lastName c;
                 PeachCustomer.email := Some (Customer.email c);
                 PeachCustomer.phone := Customer.phone c |};
       PeachPaymentRequest.billing :=
         b ← PaymentRequest.billingAddress request;
         Some {| PeachBilling.street1 := BillingAddress.line1 b;
                 PeachBilling.city := BillingAddress.city b;
                 PeachBilling.state := BillingAddress.state b;
                 PeachBilling.postcode := BillingAddress.postalCode b;
                 PeachBilling.country := BillingAddress.country b |};
       PeachPaymentRequest.card :=
         c ← PaymentRequest.cardDetails request;
         Some {| PeachCard.number := CardDetails.number c;
                 PeachCard.holder := or_else (CardDetails.holderName c) "";
                 PeachCard.expiryMonth := CardDetails.expiryMonth c;
                 PeachCard.expiryYear := CardDetails.expiryYear c;
                 PeachCard.cvv := CardDetails.cvv c |};
       PeachPaymentRequest.shopperResultUrl :=
         if truthy (PaymentRequest.returnUrl request)
         then PaymentRequest.returnUrl request else None;
       PeachPaymentRequest.notificationUrl :=
         if truthy (PaymentRequest.webhookUrl request)
         then PaymentRequest.webhookUrl request else None |}.

Definition processPayment (this : t) (request : PaymentRequest.t)
    : M W PaymentResponse.t :=
  try_catch
    (peachRequest ← mapToPaymentRequest this request;
     response ← HttpClient.post (httpClient this) "/payments" peachRequest
                  axios_post_payment;
     mret (mapToPaymentResponse response request))
    (fun error =>
       if instanceofValidationError error then throw error
       else throw (PaymentError
                     ("Payment processing failed: " +:+ message_or_unknown error)
                     None None (cause_of error))).

Definition getPaymentStatus (this : t) (paymentId : string)
    : M W PaymentResponse.t :=
  try_catch
    (response ← HttpClient.get (httpClient this)
                  ("/payments/" +:+ paymentId +:+ "?entityId="
                     +:+ PeachPaymentsConfig.entityId (peachConfig this))
                  axios_get_status;
     mret (mapStatusToPaymentResponse response))
    (fun error =>
       throw (PaymentError
                ("Failed to get payment status: " +:+ message_or_unknown error)
                (Some paymentId) None (cause_of error))).

Definition processRefund (this : t) (request : RefundRequest.t)
    : M W RefundResponse.t :=
  try_catch
    (let peachRequest := mapToRefundRequest this request in
     response ← HttpClient.post (httpClient this)
                  ("/payments/" +:+ RefundRequest.paymentId request) peachRequest
                  axios_post_refund;
     mret (mapToRefundResponse response request))
    (fun error =>
       throw (RefundError
                ("Refund processing failed: " +:+ message_or_unknown error)
                (Some (RefundRequest.paymentId request)) None None (cause_of error))).

Definition getRefundStatus (this : t) (refundId : string)
    : M W RefundResponse.t :=
  try_catch
    (response ← HttpClient.get (httpClient this)
                  ("/payments/" +:+ refundId +:+ "?entityId="
                     +:+ PeachPaymentsConfig.entityId (peachConfig this))
                  axios_get_status;
     mret (mapStatusToRefundResponse response))
    (fun error =>
       throw (RefundError
                ("Failed to get refund status: " +:+ message_or_unknown error)
                None (Some refundId) None (cause_of error))).

(** The adapter seen through the [PaymentGateway] interface. *)
Definition as_gateway (this : t) : PaymentGateway.t W :=
  {| PaymentGateway.name := name;
     PaymentGateway.supportedMethods := supportedMethods;
     PaymentGateway.processPayment := processPayment this;
     PaymentGateway.getPaymentStatus := getPaymentStatus this;
     PaymentGateway.processRefund := processRefund this;
     PaymentGateway.getRefundStatus := getRefundStatus this;
     PaymentGateway.validateConfig := validateConfig this;
     PaymentGateway.supportsPaymentMethod :=
       BasePaymentGateway.supportsPaymentMethod supportedMethods |}.

End WithRuntime.
End WithPlatform.

End PeachPaymentsGateway.

(** ** The orchestrator ([src/client.ts]) *)

Definition is_space (c : ascii) : bool :=
  let n := nat_of_ascii c in ((n =? 32) || ((9 <=? n) && (n <=? 13)))%nat.

(** [!s?.trim()] for a string [s] of ASCII characters: it is empty or all
    white space. *)
Fixpoint blank (s : string) : bool :=
  match s with
  | EmptyString => true
  | String c s' => is_space c && blank s'
  end.

Module PayLens.

Record PayLensConfig : Type := {
  peachPayments : option PeachPaymentsConfig.t;
}.

Record t (W : Type) : Type := {
  gateways : gmap string (PaymentGateway.t W);
  defaultGateway : option string;
}.
Arguments gateways {W} _.
Arguments defaultGateway {W} _.

Section WithWorld.
Context `{Platform} {W : Type} `{Runtime W}.

(** The keys of the registry (in key order, not in insertion order). *)
Definition getAvailableGateways (this : t W) : list string :=
  (map_to_list (gateways this)).*1.

Definition isGatewayAvailable (this : t W) (gatewayName : string) : bool :=
  bool_decide (is_Some (gateways this !! gatewayName)).

Definition initializeGateways (this : t W) (config : PayLensConfig) : M W (t W) :=
  this ←
    match peachPayments config with
    | Some peachConfig =>
        try_catch
          (peachGateway ← PeachPaymentsGateway.new peachConfig;
           let this :=
             {| gateways :=
                  <["peach" := PeachPaymentsGateway.as_gateway peachGateway]> (gateways this);
                defaultGateway := defaultGateway this |} in
           mret (if negb (truthy (defaultGateway this))
                 then {| gateways := gateways this; defaultGateway := Some "peach" |}
                 else this))
          (fun error =>
             throw (ConfigurationError
                      ("Failed to initialize Peach Payments gateway: "
                         +:+ message_or_unknown error)
                      (Some "peachPayments") (cause_of error)))
    | None => mret this
    end;
  if (size (gateways this) =? 0)%nat then
    throw (ConfigurationError
             "No payment gateways configured. Please provide at least one gateway configuration."
             None None)
  else mret this.

(** [new PayLens(config)] *)
Definition new (config : PayLensConfig) : M W (t W) :=
  initializeGateways {| gateways := ∅; defaultGateway := None |} config.

Definition getGateway (this : t W) (gatewayName : option string)
    : M W (PaymentGateway.t W) :=
  let targetGateway := if truthy gatewayName then gatewayName else defaultGateway this in
  if negb (truthy targetGateway) then
    throw (ConfigurationError "No gateway specified and no default gateway set" None None)
  else
    match gateways this !! default "" targetGateway with
    | Some gateway => mret gateway
    | None =>
        throw (ConfigurationError
                 ("Gateway " +:+ default "" targetGateway
                    +:+ " not found. Available gateways: "
                    +:+ String.concat ", " (getAvailableGateways this))
                 None None)
    end.

Definition processPayment (this : t W) (request : PaymentRequest.t)
    (gatewayName : option string) : M W PaymentResponse.t :=
  let validationResult := PaymentRequestSchema request in
  if negb (success validationResult) then
    throw (ValidationError
             ("Invalid payment request: " +:+ zod_message validationResult) None None)
  else
    gateway ← getGateway this gatewayName;
    if negb (PaymentGateway.supportsPaymentMethod gateway
               (PaymentRequest.paymentMethod request)) then
      throw (ValidationError
               ("Gateway " +:+ PaymentGateway.name gateway
                  +:+ " does not support payment method "
                  +:+ PaymentRequest.paymentMethod request)
               None None)
    else PaymentGateway.processPayment gateway request.

Definition getPaymentStatus (this : t W) (paymentId : string)
    (gatewayName : option string) : M W PaymentResponse.t :=
  if blank paymentId then throw (ValidationError "Payment ID is required" None None)
  else
    gateway ← getGateway this gatewayName;
    PaymentGateway.getPaymentStatus gateway paymentId.

Definition processRefund (this : t W) (request : RefundRequest.t)
    (gatewayName : option string) : M W RefundResponse.t :=
  let validationResult := RefundRequestSchema request in
  if negb (success validationResult) then
    throw (ValidationError
             ("Invalid refund request: " +:+ zod_message validationResult) None None)
  else
    gateway ← getGateway this gatewayName;
    PaymentGateway.processRefund gateway request.

Definition getRefundStatus (this : t W) (refundId : string)
    (gatewayName : option string) : M W RefundResponse.t :=
  if blank refundId then throw (ValidationError "Refund ID is required" None None)
  else
    gateway ← getGateway this gatewayName;
    PaymentGateway.getRefundStatus gateway refundId.

Definition getGatewayInfo (this : t W) (gatewayName : string)
    : M W (string * list string) :=
  match gateways this !! gatewayName with
  | Some gateway =>
      mret (PaymentGateway.name gateway, PaymentGateway.supportedMethods gateway)
  | None =>
      throw (ConfigurationError ("Gateway " +:+ gatewayName +:+ " not found") None None)
  end.

Definition setDefaultGateway (this : t W) (gatewayName : string) : M W (t W) :=
  if negb (isGatewayAvailable this gatewayName) then
    throw (ConfigurationError ("Gateway " +:+ gatewayName +:+ " not found") None None)
  else mret {| gateways := gateways this; defaultGateway := Some gatewayName |}.

End WithWorld.

End PayLens.

(** ** A scripted world

    The remote gateway of the unit tests: it answers each request with the next
    outcome of a script, and drops the connection when the script is over. *)

Module Mock.

Record World : Type := {
  payments : list (AxiosOutcome PeachPaymentResponse.t);
  statuses : list (AxiosOutcome PeachStatusResponse.t);
  refunds : list (AxiosOutcome PeachRefundResponse.t);
  clock : Z;
}.

Definition no_response {T} : AxiosOutcome T :=
  Rejected {| ae_message := "timeout of 30000ms exceeded";
              ae_response := None;
              ae_request := true |}.

(** A rejection carrying an HTTP status. *)
Definition http_error {T} (status : Z) : AxiosOutcome T :=
  Rejected {| ae_message := "Request failed";
              ae_response := Some {| er_status := status;
                                     er_data_message := None;
                                     er_data := "" |};
              ae_request := true |}.

Definition ok {T} (d : T) : AxiosOutcome T :=
  Fulfilled {| data := d; status := 200 |}.

#[global] Instance platform : Platform := {
  zod_url := String.prefix "https://";
  zod_email := str_includes "@";
  zod_message := String.concat ", ";
  parseFloat := fun _ => 0;
  base64 := fun s => s;
}.

#[global] Instance runtime : Runtime World := {
  axios_post_payment := fun _ _ _ w =>
    match payments w with
    | o :: rest =>
        (o, {| payments := rest; statuses := statuses w; refunds := refunds w;
               clock := clock w |})
    | [] => (no_response, w)
    end;
  axios_get_status := fun _ _ w =>
    match statuses w with
    | o :: rest =>
        (o, {| payments := payments w; statuses := rest; refunds := refunds w;
               clock := clock w |})
    | [] => (no_response, w)
    end;
  axios_post_refund := fun _ _ _ w =>
    match refunds w with
    | o :: rest =>
        (o, {| payments := payments w; statuses := statuses w; refunds := rest;
               clock := clock w |})
    | [] => (no_response, w)
    end;
  Date_now := fun w => (clock w, w);
  Math_random_toString36 := fun w => ("0.4fzyo82mvyr", w);
}.

Definition start (w : World) : State World := mkState w [].

Definition validConfig : PeachPaymentsConfig.t :=
  {| PeachPaymentsConfig.entityId := "test-entity-123";
     PeachPaymentsConfig.username := "test-user";
     PeachPaymentsConfig.password := "test-password";
     PeachPaymentsConfig.environment := Some PeachEnvironment.SANDBOX;
     PeachPaymentsConfig.timeout := None;
     PeachPaymentsConfig.retries := None;
     PeachPaymentsConfig.apiUrl := None;
     PeachPaymentsConfig.sandbox := None |}.

Definition legacyConfig : PeachPaymentsConfig.t :=
  {| PeachPaymentsConfig.entityId := "test-entity-123";
     PeachPaymentsConfig.username := "test-user";
     PeachPaymentsConfig.password := "test-password";
     PeachPaymentsConfig.environment := None;
     PeachPaymentsConfig.timeout := None;
     PeachPaymentsConfig.retries := None;
     PeachPaymentsConfig.apiUrl := Some "https://legacy.example.com";
     PeachPaymentsConfig.sandbox := Some false |}.

Definition invalidConfig : PeachPaymentsConfig.t :=
  {| PeachPaymentsConfig.entityId := "";
     PeachPaymentsConfig.username := "test-user";
     PeachPaymentsConfig.password := "test-password";
     PeachPaymentsConfig.environment := Some "invalid";
     PeachPaymentsConfig.timeout := None;
     PeachPaymentsConfig.retries := None;
     PeachPaymentsConfig.apiUrl := None;
     PeachPaymentsConfig.sandbox := None |}.

Definition validPaymentRequest (method : string) : PaymentRequest.t :=
  {| PaymentRequest.amount := {| Amount.value := 10000; Amount.currency := Currency.ZAR |};
     PaymentRequest.customer :=
       Some {| Customer.id := None; Customer.email := "test@example.com";
               Customer.firstName := None; Customer.lastName := None;
               Customer.phone := None |};
     PaymentRequest.paymentMethod := method;
     PaymentRequest.reference := None;
     PaymentRequest.description := None;
     PaymentRequest.billingAddress := None;
     PaymentRequest.cardDetails :=
       Some {| CardDetails.number := "4111111111111111";
               CardDetails.expiryMonth := "12";
               CardDetails.expiryYear := "25";
               CardDetails.cvv := "123";
               CardDetails.holderName := None |};
     PaymentRequest.returnUrl := None;
     PaymentRequest.webhookUrl := None |}.

Definition paymentResponse (code description : string) : PeachPaymentResponse.t :=
  {| PeachPaymentResponse.id := "payment-123";
     PeachPaymentResponse.paymentType := "DB";
     PeachPaymentResponse.paymentBrand := Some "VISA";
     PeachPaymentResponse.amount := "100.00";
     PeachPaymentResponse.currency := "ZAR";
     PeachPaymentResponse.result :=
       {| PeachResult.code := code; PeachResult.description := description |};
     PeachPaymentResponse.timestamp := "2024-01-01 00:00:00+0000";
     PeachPaymentResponse.redirectUrl := None |}.

Definition statusResponse (code description : string) : PeachStatusResponse.t :=
  {| PeachStatusResponse.id := "refund-123";
     PeachStatusResponse.paymentType := "RF";
     PeachStatusResponse.paymentBrand := None;
     PeachStatusResponse.amount := "50.00";
     PeachStatusResponse.currency := "ZAR";
     PeachStatusResponse.result :=
       {| PeachResult.code := code; PeachResult.description := description |};
     PeachStatusResponse.timestamp := "2024-01-01 00:00:00+0000" |}.

Definition empty : World :=
  {| payments := []; statuses := []; refunds := []; clock := 1700000000000 |}.

(** The gateway answers a status request with 500 twice, then with success. *)
Definition flaky : World :=
  {| payments := [];
     statuses := [ http_error 500; http_error 500;
                   ok (statusResponse "000.000.000" "Transaction succeeded") ];
     refunds := [];
     clock := 1700000000000 |}.

(** The gateway answers a status request with 404. *)
Definition missing : World :=
  {| payments := []; statuses := [ http_error 404 ]; refunds := [];
     clock := 1700000000000 |}.

(** The gateway answers a status request with success. *)
Definition steady : World :=
  {| payments := [];
     statuses := [ ok (statusResponse "000.000.000" "Transaction succeeded") ];
     refunds := [];
     clock := 1700000000000 |}.

Definition refundRequest (amount : option Amount.t) : RefundRequest.t :=
  {| RefundRequest.paymentId := "payment-123";
     RefundRequest.amount := amount;
     RefundRequest.reason := Some "Customer request";
     RefundRequest.reference := None |}.

(** The adapter that [new PeachPaymentsGateway(validConfig)] builds. *)
Definition gateway : PeachPaymentsGateway.t :=
  {| PeachPaymentsGateway.config :=
       {| PaymentGatewayConfig.apiUrl := Some "https://testapi-v2.peachpayments.com";
          PaymentGatewayConfig.sandbox := true;
          PaymentGatewayConfig.timeout := None;
          PaymentGatewayConfig.retries := None |};
     PeachPaymentsGateway.peachConfig := validConfig;
     PeachPaymentsGateway.httpClient :=
       {| HttpClient.client :=
            {| ax_baseURL := Some "https://testapi-v2.peachpayments.com";
               ax_timeout := 30000;
               ax_headers :=
                 {[ "Authorization" := "Basic test-user:test-password" ]}
                   ∪ {[ "Content-Type" := "application/json";
                        "User-Agent" := "@paylens/sdk" ]} |};
          HttpClient.retries := 3 |} |}.

(** The orchestrator that [new PayLens({ peachPayments: validConfig })]
    builds. *)
Definition payLens : PayLens.t World :=
  {| PayLens.gateways := {[ "peach" := PeachPaymentsGateway.as_gateway gateway ]};
     PayLens.defaultGateway := Some "peach" |}.

End Mock.

(** ** Vocabulary of the properties *)

(** A string is an amount with exactly two decimals: an optional sign, at least
    one digit, a point and two digits. *)
Definition two_decimals (s : string) : Prop :=
  exists (sign int : string) (d1 d2 : ascii),
    s = sign +:+ int +:+ "." +:+ String d1 (String d2 "")
    /\ (sign = "" \/ sign = "-")
    /\ int <> "" /\ all_digits int = true
    /\ is_digit d1 = true /\ is_digit d2 = true.

Definition legacy_warning : Event :=
  ConsoleWarn
    "[PayLens] Using legacy configuration format. Please migrate to environment-based configuration.".

(** The events a computation added to the trace build no Transport. *)
Definition no_transport_built {W} (s s' : State W) : Prop :=
  exists t, trace s' = trace s ++ t /\ Forall (fun e => is_AxiosCreate e = false) t.

Definition no_gateways_message : string :=
  "No payment gateways configured. Please provide at least one gateway configuration.".

(** The retry policy in the words of the specification: a failure is retryable
    when no HTTP status was obtained or when the status is at least 500. *)
Definition retryable (failure : Thrown) : Prop :=
  statusCode_of failure = None
  \/ exists statusCode, statusCode_of failure = Some statusCode /\ 500 <= statusCode.

(** The backoff in the words of the specification. *)
Definition backoff (n : Z) : Z := Z.min (1000 * 2 ^ (n - 1)) 10000.

(** After the trace [before], a request was sent and then the call slept for
    [delay] milliseconds. *)
Definition slept_after_request {W} (before : list Event) (method url : string)
    (delay : Z) (final : State W) : Prop :=
  exists rest,
    trace final = before ++ [HttpRequest method url; Sleep delay] ++ rest.

(** The HTTP status of an axios rejection, when a response came back. *)
Definition status_of (error : AxiosError) : option Z :=
  er_status <$> ae_response error.

(** The state after the request of an attempt. *)
Definition requested {W} (method url : string) (s : State W) (w' : W) : State W :=
  mkState w' (trace s ++ [HttpRequest method url]).

(** The state after the sleep that follows attempt [n]. *)
Definition slept {W} (method url : string) (n : Z) (s : State W) (w' : W) : State W :=
  mkState w' (trace s ++ [HttpRequest method url; Sleep (backoff n)]).

(** The events of [k] failed attempts, the first of them numbered [n]: each a
    request followed by the sleep of its number. *)
Fixpoint retry_events (method url : string) (n : Z) (k : nat) : list Event :=
  match k with
  | O => []
  | S k' =>
      HttpRequest method url :: Sleep (backoff n) :: retry_events method url (n + 1) k'
  end.

(** The world after [k] requests, each sent in the world the one before it
    left. *)
Fixpoint after_requests {W T} (send : W -> AxiosOutcome T * W) (k : nat) (w : W) : W :=
  match k with
  | O => w
  | S k' => after_requests send k' (send w).2
  end.

(** The statuses the adapter ever reports. *)
Definition adapter_statuses : list PaymentStatus :=
  [PENDING; PROCESSING; COMPLETED; FAILED].

(** Every character of the string is an ASCII character. *)
Fixpoint ascii_only (s : string) : bool :=
  match s with
  | EmptyString => true
  | String c s' => (nat_of_ascii c <? 128)%nat && ascii_only s'
  end.

(** From [s] to [s'], nothing happened but requests of one method to one URL,
    at most [max 1 budget] of them for the integer [budget], with the sleeps of
    a retried call between them. *)
Definition sent_only {W} (method url : string) (budget : Z) (s s' : State W) : Prop :=
  exists k : nat,
    Z.of_nat (S k) <= Z.max 1 budget
    /\ trace s' = trace s ++ retry_events method url 1 k ++ [HttpRequest method url].

(** The names that reach the one gateway of a constructed orchestrator. *)
Definition routes_to_peach (gatewayName : option string) : Prop :=
  gatewayName = None \/ gatewayName = Some "" \/ gatewayName = Some "peach".

(** * Properties *)

(** ** Running the monad *)

Ltac run :=
  unfold mbind, M_bind, mret, M_ret, throw, try_catch, emit in *; simpl in *.

(** A conjunction with a false member is false. *)
Ltac falsify :=
  cbn [success negb String.eqb];
  repeat first [rewrite andb_false_l | rewrite andb_false_r];
  reflexivity.

(** ** Arrays of strings *)

(** Membership of a literal in a literal array. *)
Ltac in_list := simpl; repeat (first [left; reflexivity | right]).

Lemma includes_In l x : includes l x = true <-> In x l.
Proof.
  unfold includes. rewrite existsb_exists. split.
  - intros [y [Hy Heq]]. apply String.eqb_eq in Heq. now subst.
  - intros Hin. exists x. split; [exact Hin | apply String.eqb_refl].
Qed.

Lemma includes_not_In l x : includes l x = false <-> ~ In x l.
Proof.
  rewrite <- includes_In. destruct (includes l x); split; congruence.
Qed.

(** Disjointness of two arrays is decided by running [includes]. *)
Lemma disjoint_codes_check l1 l2 :
  forallb (fun c => negb (includes l2 c)) l1 = true -> disjoint_codes l1 l2.
Proof.
  intros Hall c H1 H2. rewrite forallb_forall in Hall.
  specialize (Hall c H1). apply includes_In in H2. rewrite H2 in Hall. discriminate.
Qed.

(** ** The status table *)

Import PEACH_STATUS_CODES.

Lemma mapPaymentStatus_success code :
  In code SUCCESS_CODES -> PeachPaymentsGateway.mapPaymentStatus code = COMPLETED.
Proof.
  intros Hin. apply includes_In in Hin.
  unfold PeachPaymentsGateway.mapPaymentStatus. now rewrite Hin.
Qed.

Lemma mapPaymentStatus_pending code :
  In code PENDING_CODES -> PeachPaymentsGateway.mapPaymentStatus code = PROCESSING.
Proof.
  intros Hin. simpl in Hin.
  repeat (destruct Hin as [<- | Hin]; [reflexivity |]). contradiction.
Qed.

Lemma mapPaymentStatus_rejected code :
  In code REJECTED_CODES -> PeachPaymentsGateway.mapPaymentStatus code = FAILED.
Proof.
  intros Hin. simpl in Hin.
  repeat (destruct Hin as [<- | Hin]; [reflexivity |]). contradiction.
Qed.

Lemma mapPaymentStatus_error code :
  In code ERROR_CODES -> PeachPaymentsGateway.mapPaymentStatus code = FAILED.
Proof.
  intros Hin. simpl in Hin.
  repeat (destruct Hin as [<- | Hin]; [reflexivity |]). contradiction.
Qed.

Lemma mapPaymentStatus_unknown code :
  ~ In code SUCCESS_CODES -> ~ In code PENDING_CODES ->
  ~ In code REJECTED_CODES -> ~ In code ERROR_CODES ->
  PeachPaymentsGateway.mapPaymentStatus code = PENDING.
Proof.
  intros H1 H2 H3 H4.
  apply includes_not_In in H1. apply includes_not_In in H2.
  apply includes_not_In in H3. apply includes_not_In in H4.
  unfold PeachPaymentsGateway.mapPaymentStatus. now rewrite H1, H2, H3, H4.
Qed.

(** The status is [FAILED] exactly for the rejected and the error codes. *)
Lemma mapPaymentStatus_failed_iff code :
  PeachPaymentsGateway.mapPaymentStatus code = FAILED
  <-> In code REJECTED_CODES \/ In code ERROR_CODES.
Proof.
  split.
  - unfold PeachPaymentsGateway.mapPaymentStatus.
    destruct (includes SUCCESS_CODES code); [discriminate |].
    destruct (includes PENDING_CODES code); [discriminate |].
    destruct (includes REJECTED_CODES code) eqn:Hr; [left; now apply includes_In |].
    destruct (includes ERROR_CODES code) eqn:He; [right; now apply includes_In |].
    discriminate.
  - intros [Hin | Hin]; [now apply mapPaymentStatus_rejected | now apply mapPaymentStatus_error].
Qed.

(** C1.  Every code of the success bucket is classified [COMPLETED], every code
    of the pending bucket [PROCESSING], every code of the rejected bucket and of
    the error bucket [FAILED], and every code in none of the four buckets
    [PENDING]; the four buckets are pairwise disjoint. *)
Theorem mapPaymentStatus_classifies :
  (forall code,
     (In code SUCCESS_CODES -> PeachPaymentsGateway.mapPaymentStatus code = COMPLETED)
     /\ (In code PENDING_CODES -> PeachPaymentsGateway.mapPaymentStatus code = PROCESSING)
     /\ (In code REJECTED_CODES -> PeachPaymentsGateway.mapPaymentStatus code = FAILED)
     /\ (In code ERROR_CODES -> PeachPaymentsGateway.mapPaymentStatus code = FAILED)
     /\ (~ In code SUCCESS_CODES -> ~ In code PENDING_CODES ->
         ~ In code REJECTED_CODES -> ~ In code ERROR_CODES ->
         PeachPaymentsGateway.mapPaymentStatus code = PENDING))
  /\ disjoint_codes SUCCESS_CODES PENDING_CODES
  /\ disjoint_codes SUCCESS_CODES REJECTED_CODES
  /\ disjoint_codes SUCCESS_CODES ERROR_CODES
  /\ disjoint_codes PENDING_CODES REJECTED_CODES
  /\ disjoint_codes PENDING_CODES ERROR_CODES
  /\ disjoint_codes REJECTED_CODES ERROR_CODES.
Proof.
  split.
  - intros code. repeat split.
    + apply mapPaymentStatus_success.
    + apply mapPaymentStatus_pending.
    + apply mapPaymentStatus_rejected.
    + apply mapPaymentStatus_error.
    + apply mapPaymentStatus_unknown.
  - repeat split; apply disjoint_codes_check; reflexivity.
Qed.

(** The codes of the unit tests, through the theorem. *)
Lemma mapPaymentStatus_classifies_witness :
  PeachPaymentsGateway.mapPaymentStatus "000.100.110" = COMPLETED
  /\ PeachPaymentsGateway.mapPaymentStatus "800.400.500" = PROCESSING
  /\ PeachPaymentsGateway.mapPaymentStatus "000.400.010" = FAILED
  /\ PeachPaymentsGateway.mapPaymentStatus "200.300.404" = FAILED
  /\ PeachPaymentsGateway.mapPaymentStatus "999.999.999" = PENDING.
Proof.
  pose proof (proj1 mapPaymentStatus_classifies) as Hall.
  refine (conj _ (conj _ (conj _ (conj _ _)))).
  - destruct (Hall "000.100.110") as (Hs & _). apply Hs. in_list.
  - destruct (Hall "800.400.500") as (_ & Hp & _). apply Hp. in_list.
  - destruct (Hall "000.400.010") as (_ & _ & Hr & _). apply Hr. in_list.
  - destruct (Hall "200.300.404") as (_ & _ & _ & He & _). apply He. in_list.
  - destruct (Hall "999.999.999") as (_ & _ & _ & _ & Hu).
    apply Hu; apply includes_not_In; reflexivity.
Defined.

(** ** Failure reason *)

Lemma PaymentStatus_eqb_eq a b : PaymentStatus_eqb a b = true <-> a = b.
Proof. destruct a, b; simpl; split; congruence. Qed.

Lemma failureReason_cases (st : PaymentStatus) (description : string) :
  let reason := if PaymentStatus_eqb st FAILED then Some description else None in
  (reason = Some description <-> st = FAILED) /\ (reason = None <-> st <> FAILED).
Proof.
  destruct st; simpl; repeat split; congruence.
Qed.

(** C6.  In both mappings to a canonical payment response, [failureReason]
    is the gateway's result description exactly when the classified status is
    [FAILED], and is undefined exactly when the status is anything else. *)
Theorem failureReason_iff_failed `{Platform} :
  (forall (peachResponse : PeachPaymentResponse.t) (originalRequest : PaymentRequest.t),
     let response := PeachPaymentsGateway.mapToPaymentResponse peachResponse originalRequest in
     let result := PeachPaymentResponse.result peachResponse in
     PaymentResponse.status response
       = PeachPaymentsGateway.mapPaymentStatus (PeachResult.code result)
     /\ (PaymentResponse.failureReason response = Some (PeachResult.description result)
         <-> PaymentResponse.status response = FAILED)
     /\ (PaymentResponse.failureReason response = None
         <-> PaymentResponse.status response <> FAILED))
  /\ (forall peachResponse : PeachStatusResponse.t,
        let response := PeachPaymentsGateway.mapStatusToPaymentResponse peachResponse in
        let result := PeachStatusResponse.result peachResponse in
        PaymentResponse.status response
          = PeachPaymentsGateway.mapPaymentStatus (PeachResult.code result)
        /\ (PaymentResponse.failureReason response = Some (PeachResult.description result)
            <-> PaymentResponse.status response = FAILED)
        /\ (PaymentResponse.failureReason response = None
            <-> PaymentResponse.status response <> FAILED)).
Proof.
  split; intros; simpl; (split; [reflexivity | apply failureReason_cases]).
Qed.

(** ** Refund status *)

(** C9.  The response of a refund-status lookup carries an empty
    [paymentId], whatever the gateway answered: the mapping sets it so, a
    lookup whose request the transport answers returns the mapping of the
    answer, and every lookup that returns, returns such a mapping. *)
Theorem getRefundStatus_paymentId_empty `{Platform} {W} `{Runtime W} :
  (forall peachResponse : PeachStatusResponse.t,
     RefundResponse.paymentId (PeachPaymentsGateway.mapStatusToRefundResponse peachResponse)
     = "")
  /\ (forall (this : PeachPaymentsGateway.t) (refundId : string) (s s' : State W)
             (peachResponse : PeachStatusResponse.t),
        HttpClient.get (PeachPaymentsGateway.httpClient this)
          ("/payments/" +:+ refundId +:+ "?entityId="
             +:+ PeachPaymentsConfig.entityId (PeachPaymentsGateway.peachConfig this))
          axios_get_status s
        = (inr peachResponse, s') ->
        PeachPaymentsGateway.getRefundStatus this refundId s
        = (inr (PeachPaymentsGateway.mapStatusToRefundResponse peachResponse), s'))
  /\ (forall (this : PeachPaymentsGateway.t) (refundId : string) (s s' : State W)
             (response : RefundResponse.t),
        PeachPaymentsGateway.getRefundStatus this refundId s = (inr response, s') ->
        RefundResponse.paymentId response = ""
        /\ exists peachResponse,
             response = PeachPaymentsGateway.mapStatusToRefundResponse peachResponse).
Proof.
  split; [reflexivity |]. split.
  - intros this refundId s s' peachResponse Hget.
    unfold PeachPaymentsGateway.getRefundStatus. run. now rewrite Hget.
  - intros this refundId s s' response.
    unfold PeachPaymentsGateway.getRefundStatus. run.
    destruct (HttpClient.get _ _ _ s) as [[e | peachResponse] s1]; [discriminate |].
    intros [= <- <-]. split; [reflexivity | now exists peachResponse].
Qed.

(** ** Amounts on the wire *)

Lemma all_digits_string_of_uint d :
  all_digits (NilEmpty.string_of_uint d) = true.
Proof. induction d; simpl; auto. Qed.

Lemma all_digits_string_of_Z n : 0 <= n -> all_digits (string_of_Z n) = true.
Proof.
  intros Hn. unfold string_of_Z, NilZero.string_of_int.
  destruct n as [| p | p]; [reflexivity | | lia].
  simpl. unfold NilZero.string_of_uint.
  destruct (Pos.to_uint p); try reflexivity; apply all_digits_string_of_uint.
Qed.

Lemma string_of_Z_nonempty n : 0 <= n -> string_of_Z n <> "".
Proof.
  intros Hn. unfold string_of_Z, NilZero.string_of_int.
  destruct n as [| p | p]; [discriminate | | lia].
  simpl. unfold NilZero.string_of_uint.
  destruct (Pos.to_uint p); discriminate.
Qed.

Lemma is_digit_digit_char d : 0 <= d <= 9 -> is_digit (digit_char d) = true.
Proof.
  intros Hd.
  assert (Hcases : d = 0 \/ d = 1 \/ d = 2 \/ d = 3 \/ d = 4
                   \/ d = 5 \/ d = 6 \/ d = 7 \/ d = 8 \/ d = 9) by lia.
  repeat (destruct Hcases as [-> | Hcases]; [reflexivity |]). now subst.
Qed.

Lemma string_of_Z_not_empty n : string_of_Z n <> "".
Proof.
  unfold string_of_Z, NilZero.string_of_int.
  destruct n as [| p | p]; [discriminate | | discriminate].
  simpl. unfold NilZero.string_of_uint.
  destruct (Pos.to_uint p); discriminate.
Qed.

Lemma exponential_nonempty x : exponential x <> "".
Proof.
  unfold exponential.
  destruct (shortest _ x _ 1) as [s e].
  pose proof (string_of_Z_not_empty s) as Hs.
  destruct (string_of_Z s) as [| d [| d' rest]];
    [contradiction | discriminate | discriminate].
Qed.

(** Below [1e21], [toFixed(2)] prints exactly two decimals. *)
Lemma toFixed2_two_decimals c : Z.abs c < 10 ^ 23 -> two_decimals (toFixed2 c).
Proof.
  intros Hc. unfold two_decimals, toFixed2. cbv zeta.
  apply Z.ltb_lt in Hc. rewrite Hc.
  set (a := Z.abs c).
  assert (Ha : 0 <= a) by apply Z.abs_nonneg.
  exists (if c <? 0 then "-" else ""), (string_of_Z (a / 100)),
    (digit_char ((a mod 100) / 10)), (digit_char (a mod 10)).
  split; [reflexivity |]. split; [destruct (c <? 0); auto |].
  assert (0 <= a / 100) by (apply Z.div_pos; lia).
  split; [now apply string_of_Z_nonempty |].
  split; [now apply all_digits_string_of_Z |].
  split; apply is_digit_digit_char.
  - pose proof (Z.mod_pos_bound a 100 ltac:(lia)) as Hm.
    assert (0 <= a mod 100 / 10) by (apply Z.div_pos; lia).
    assert (a mod 100 / 10 < 10) by (apply Z.div_lt_upper_bound; lia).
    lia.
  - pose proof (Z.mod_pos_bound a 10 ltac:(lia)). lia.
Qed.

(** Whatever the number, [toFixed(2)] is not the empty string. *)
Lemma toFixed2_nonempty c : toFixed2 c <> "".
Proof.
  unfold toFixed2. cbv zeta.
  destruct (c <? 0); [discriminate |].
  change ("" +:+ ?s) with s.
  destruct (Z.abs c <? 10 ^ 23); [| apply exponential_nonempty].
  pose proof (string_of_Z_not_empty (Z.abs c / 100)) as Hs.
  destruct (string_of_Z (Z.abs c / 100)); [contradiction | discriminate].
Qed.

(** C10.  A refund request without an amount goes on the wire with the
    literal amount ["0.00"] and the currency ["ZAR"]; with an amount, the wire
    amount is [toFixed(2)] of its value and the currency is forwarded
    unchanged, and the wire amount has exactly two decimals when the value is
    below [1e21] (below [10 ^ 23] hundredths). *)
Theorem mapToRefundRequest_amount (this : PeachPaymentsGateway.t)
    (request : RefundRequest.t) :
  let wire := PeachPaymentsGateway.mapToRefundRequest this request in
  (RefundRequest.amount request = None ->
   PeachRefundRequest.amount wire = "0.00" /\ PeachRefundRequest.currency wire = "ZAR")
  /\ (forall a : Amount.t,
        RefundRequest.amount request = Some a ->
        Amount.currency a <> "" ->
        PeachRefundRequest.amount wire = toFixed2 (Amount.value a)
        /\ PeachRefundRequest.currency wire = Amount.currency a
        /\ (Z.abs (Amount.value a) < 10 ^ 23 ->
            two_decimals (PeachRefundRequest.amount wire))).
Proof.
  cbv zeta. split.
  - intros Hnone. unfold PeachPaymentsGateway.mapToRefundRequest.
    cbn [PeachRefundRequest.amount PeachRefundRequest.currency].
    rewrite Hnone. split; reflexivity.
  - intros a Hsome Hcur.
    unfold PeachPaymentsGateway.mapToRefundRequest.
    cbn [PeachRefundRequest.amount PeachRefundRequest.currency].
    rewrite Hsome. cbn [mbind option_bind or_else].
    destruct (String.eqb_spec (toFixed2 (Amount.value a)) "") as [Hempty | _];
      [now apply toFixed2_nonempty in Hempty |].
    destruct (String.eqb_spec (Amount.currency a) "") as [Hempty | _];
      [contradiction |].
    split; [reflexivity |]. split; [reflexivity |]. apply toFixed2_two_decimals.
Qed.

(** An amount of [1e21] passes the schema of refund requests (a positive
    multiple of 0.01 in a known currency), and goes on the wire in exponent
    notation, without decimals. *)
Lemma mapToRefundRequest_amount_counterexample :
  let a := {| Amount.value := 10 ^ 23; Amount.currency := Currency.ZAR |} in
  let request := Mock.refundRequest (Some a) in
  let wire := PeachPaymentsGateway.mapToRefundRequest Mock.gateway request in
  success (RefundRequestSchema request) = true
  /\ RefundRequest.amount request = Some a
  /\ PeachRefundRequest.amount wire = "1e+21"
  /\ ~ two_decimals (PeachRefundRequest.amount wire).
Proof.
  cbv zeta.
  assert (Hwire : PeachRefundRequest.amount
                    (PeachPaymentsGateway.mapToRefundRequest Mock.gateway
                       (Mock.refundRequest
                          (Some {| Amount.value := 10 ^ 23;
                                   Amount.currency := Currency.ZAR |})))
                  = "1e+21") by (vm_compute; reflexivity).
  split; [vm_compute; reflexivity |]. split; [reflexivity |].
  split; [exact Hwire |]. rewrite Hwire.
  intros (sign & int & d1 & d2 & Hshape & Hsign & Hint & Hdigits & _).
  destruct Hsign as [-> | ->]; [| discriminate].
  destruct int as [| c1 [| c2 int]]; [contradiction | discriminate |].
  injection Hshape as <- <- _. discriminate.
Qed.

(** ** Round trip *)

Lemma mapToPaymentRequest_returns `{Platform} {W} `{Runtime W}
    (this : PeachPaymentsGateway.t) (request : PaymentRequest.t) (s : State W) :
  exists wire s',
    PeachPaymentsGateway.mapToPaymentRequest this request s = (inr wire, s')
    /\ PeachPaymentRequest.amount wire
       = toFixed2 (Amount.value (PaymentRequest.amount request))
    /\ PeachPaymentRequest.currency wire = Amount.currency (PaymentRequest.amount request)
    /\ PeachPaymentRequest.paymentType wire
       = PeachPaymentsGateway.getPaymentType (PaymentRequest.paymentMethod request)
    /\ trace s' = trace s.
Proof.
  unfold PeachPaymentsGateway.mapToPaymentRequest. run.
  destruct (truthy (PaymentRequest.reference request)).
  - eexists _, _. split; [reflexivity |]. simpl. auto.
  - unfold BasePaymentGateway.generateReference.
    destruct (Date_now (world s)) as [timestamp w1].
    destruct (Math_random_toString36 w1) as [r w2].
    eexists _, _. split; [reflexivity |]. simpl. auto.
Qed.

(** C7.  Every canonical request is mapped to a wire request, and mapping
    any gateway response with a success code back yields a canonical response
    with the amount and the payment method of the request and the status
    [COMPLETED]. *)
Theorem roundtrip_success `{Platform} {W} `{Runtime W}
    (this : PeachPaymentsGateway.t) (request : PaymentRequest.t) (s : State W) :
  exists (wire : PeachPaymentRequest.t) (s' : State W),
    PeachPaymentsGateway.mapToPaymentRequest this request s = (inr wire, s')
    /\ forall peachResponse : PeachPaymentResponse.t,
         In (PeachResult.code (PeachPaymentResponse.result peachResponse)) SUCCESS_CODES ->
         let response := PeachPaymentsGateway.mapToPaymentResponse peachResponse request in
         PaymentResponse.amount response = PaymentRequest.amount request
         /\ PaymentResponse.paymentMethod response = PaymentRequest.paymentMethod request
         /\ PaymentResponse.status response = COMPLETED.
Proof.
  destruct (mapToPaymentRequest_returns this request s) as (wire & s' & Hwire & _).
  exists wire, s'. split; [exact Hwire |].
  intros peachResponse Hcode. simpl.
  split; [reflexivity |]. split; [reflexivity |].
  now apply mapPaymentStatus_success.
Qed.

(** ** Construction of the adapter *)

Lemma success_app l1 l2 : success (l1 ++ l2) = success l1 && success l2.
Proof. destruct l1; reflexivity. Qed.

Lemma success_min1 path s : success (min1 path s) = negb (String.eqb s "").
Proof. unfold min1. destruct (String.eqb s ""); reflexivity. Qed.

Lemma normalizeConfig_legacy {W} (config : PeachPaymentsConfig.t) (s : State W) :
  PeachPaymentsGateway.is_legacy config = true ->
  PeachPaymentsGateway.normalizeConfig config s
  = (inr (PeachPaymentsGateway.with_environment config
            (if default false (PeachPaymentsConfig.sandbox config)
             then PeachEnvironment.SANDBOX else PeachEnvironment.PRODUCTION)),
     mkState (world s) (trace s ++ [legacy_warning])).
Proof.
  intros Hlegacy. unfold PeachPaymentsGateway.normalizeConfig. now rewrite Hlegacy.
Qed.

Lemma normalizeConfig_modern {W} (config : PeachPaymentsConfig.t) (s : State W) :
  PeachPaymentsGateway.is_legacy config = false ->
  PeachPaymentsGateway.normalizeConfig config s = (inr config, s).
Proof.
  intros Hlegacy. unfold PeachPaymentsGateway.normalizeConfig. now rewrite Hlegacy.
Qed.

(** Normalization always returns; it keeps the credentials and the URL,
    leaves the world alone and builds no Transport. *)
Lemma normalizeConfig_returns {W} (config : PeachPaymentsConfig.t) (s : State W) :
  exists normalized s1,
    PeachPaymentsGateway.normalizeConfig config s = (inr normalized, s1)
    /\ PeachPaymentsConfig.entityId normalized = PeachPaymentsConfig.entityId config
    /\ PeachPaymentsConfig.username normalized = PeachPaymentsConfig.username config
    /\ PeachPaymentsConfig.password normalized = PeachPaymentsConfig.password config
    /\ PeachPaymentsConfig.apiUrl normalized = PeachPaymentsConfig.apiUrl config
    /\ world s1 = world s
    /\ no_transport_built s s1.
Proof.
  destruct (PeachPaymentsGateway.is_legacy config) eqn:Hlegacy.
  - eexists _, _. split; [now apply normalizeConfig_legacy |].
    repeat (split; [reflexivity |]).
    exists [legacy_warning]. split; [reflexivity |]. repeat constructor.
  - eexists _, _. split; [now apply normalizeConfig_modern |].
    repeat (split; [reflexivity |]).
    exists []. split; [now rewrite app_nil_r | constructor].
Qed.

Lemma new_invalid `{Platform} {W} (config normalized : PeachPaymentsConfig.t)
    (s s1 : State W) :
  PeachPaymentsGateway.normalizeConfig config s = (inr normalized, s1) ->
  success (PeachPaymentsConfigSchema normalized) = false ->
  PeachPaymentsGateway.new config s
  = (inl (ValidationError
            ("Invalid Peach Payments configuration: "
               +:+ zod_message (PeachPaymentsConfigSchema normalized))
            None None),
     s1).
Proof.
  intros Hnorm Hschema. unfold PeachPaymentsGateway.new.
  unfold mbind at 1. unfold M_bind. rewrite Hnorm, Hschema. reflexivity.
Qed.

Lemma new_valid `{Platform} {W} (config normalized : PeachPaymentsConfig.t)
    (s s1 : State W) :
  PeachPaymentsGateway.normalizeConfig config s = (inr normalized, s1) ->
  success (PeachPaymentsConfigSchema normalized) = true ->
  exists (gateway : PeachPaymentsGateway.t) (s2 : State W),
    PeachPaymentsGateway.new config s = (inr gateway, s2)
    /\ PeachPaymentsGateway.peachConfig gateway = normalized
    /\ ax_baseURL (HttpClient.client (PeachPaymentsGateway.httpClient gateway))
       = PeachPaymentsGateway.getApiUrlForConfig normalized
    /\ PaymentGatewayConfig.apiUrl (PeachPaymentsGateway.config gateway)
       = PeachPaymentsGateway.getApiUrlForConfig normalized
    /\ HttpClient.retries (PeachPaymentsGateway.httpClient gateway)
       = or_elseZ (PeachPaymentsConfig.retries normalized) 3
    /\ world s2 = world s1.
Proof.
  intros Hnorm Hschema. unfold PeachPaymentsGateway.new.
  unfold mbind at 1. unfold M_bind. rewrite Hnorm, Hschema. simpl.
  eexists _, _. split; [reflexivity |]. simpl. auto 10.
Qed.

(** C8.  A configuration with an empty [entityId], [username] or [password],
    or whose environment after legacy normalization is not a member of the
    enum, makes the constructor throw a [ValidationError]; up to the throw no
    Transport has been built and the world is untouched. *)
Theorem malformed_config_rejected `{Platform} {W}
    (config normalized : PeachPaymentsConfig.t) (s s1 : State W) :
  PeachPaymentsGateway.normalizeConfig config s = (inr normalized, s1) ->
  (PeachPaymentsConfig.entityId config = ""
   \/ PeachPaymentsConfig.username config = ""
   \/ PeachPaymentsConfig.password config = ""
   \/ ~ (exists e, PeachPaymentsConfig.environment normalized = Some e
                   /\ In e PeachEnvironment.values)) ->
  exists message : string,
    PeachPaymentsGateway.new config s = (inl (ValidationError message None None), s1)
    /\ world s1 = world s
    /\ no_transport_built s s1.
Proof.
  intros Hnorm Hbad.
  destruct (normalizeConfig_returns config s)
    as (n & s1' & Hnorm' & Hid & Huser & Hpass & _ & Hworld & Htrace).
  rewrite Hnorm in Hnorm'. injection Hnorm' as <- <-.
  eexists. split; [| split; [exact Hworld | exact Htrace]].
  apply new_invalid; [exact Hnorm |].
  unfold PeachPaymentsConfigSchema. rewrite !success_app, !success_min1.
  rewrite Hid, Huser, Hpass.
  destruct Hbad as [-> | [-> | [-> | Henv]]]; [falsify | falsify | falsify |].
  destruct (PeachPaymentsConfig.environment normalized) as [e |] eqn:He.
  - destruct (includes PeachEnvironment.values e) eqn:Hin; [| falsify].
    exfalso. apply Henv. exists e. split; [reflexivity | now apply includes_In].
  - falsify.
Qed.

(** The malformed configuration of the unit tests. *)
Lemma malformed_config_rejected_witness :
  exists message : string,
    PeachPaymentsGateway.new Mock.invalidConfig (Mock.start Mock.empty)
    = (inl (ValidationError message None None), Mock.start Mock.empty)
    /\ world (Mock.start Mock.empty) = world (Mock.start Mock.empty)
    /\ no_transport_built (Mock.start Mock.empty) (Mock.start Mock.empty).
Proof.
  apply (malformed_config_rejected Mock.invalidConfig Mock.invalidConfig).
  - reflexivity.
  - left. reflexivity.
Defined.

(** C3.  A legacy configuration ([apiUrl] and [sandbox], no [environment])
    is normalized to the environment the [sandbox] flag selects, and the
    endpoint of the adapter and of its Transport is the given [apiUrl]; a
    given [apiUrl] is the endpoint whatever the environment. *)
Theorem legacy_config_endpoint `{Platform} {W}
    (config : PeachPaymentsConfig.t) (url : string) (flag : bool) (s : State W) :
  PeachPaymentsConfig.apiUrl config = Some url ->
  url <> "" ->
  PeachPaymentsConfig.sandbox config = Some flag ->
  PeachPaymentsConfig.environment config = None ->
  let env := if flag then PeachEnvironment.SANDBOX else PeachEnvironment.PRODUCTION in
  let normalized := PeachPaymentsGateway.with_environment config env in
  let s1 := mkState (world s) (trace s ++ [legacy_warning]) in
  PeachPaymentsGateway.normalizeConfig config s = (inr normalized, s1)
  /\ PeachPaymentsConfig.environment normalized = Some env
  /\ PeachPaymentsGateway.getApiUrlForConfig normalized = Some url
  /\ (success (PeachPaymentsConfigSchema normalized) = true ->
      exists (gateway : PeachPaymentsGateway.t) (s2 : State W),
        PeachPaymentsGateway.new config s = (inr gateway, s2)
        /\ PeachPaymentsConfig.environment (PeachPaymentsGateway.peachConfig gateway)
           = Some env
        /\ ax_baseURL (HttpClient.client (PeachPaymentsGateway.httpClient gateway))
           = Some url
        /\ PaymentGatewayConfig.apiUrl (PeachPaymentsGateway.config gateway) = Some url)
  /\ (forall config' : PeachPaymentsConfig.t,
        PeachPaymentsConfig.apiUrl config' = Some url ->
        PeachPaymentsGateway.getApiUrlForConfig config' = Some url).
Proof.
  intros Hurl Hne Hflag Henv env normalized s1.
  assert (Htruthy : truthy (Some url) = true).
  { simpl. apply String.eqb_neq in Hne. now rewrite Hne. }
  assert (Hany : forall config' : PeachPaymentsConfig.t,
             PeachPaymentsConfig.apiUrl config' = Some url ->
             PeachPaymentsGateway.getApiUrlForConfig config' = Some url).
  { intros config' Hurl'. unfold PeachPaymentsGateway.getApiUrlForConfig.
    now rewrite Hurl', Htruthy. }
  assert (Hlegacy : PeachPaymentsGateway.is_legacy config = true).
  { unfold PeachPaymentsGateway.is_legacy. rewrite Hurl, Hflag, Henv, Htruthy.
    reflexivity. }
  assert (Hnorm : PeachPaymentsGateway.normalizeConfig config s = (inr normalized, s1)).
  { rewrite (normalizeConfig_legacy config s Hlegacy), Hflag. reflexivity. }
  split; [exact Hnorm |]. split; [reflexivity |].
  split; [now apply Hany |]. split; [| exact Hany].
  intros Hschema.
  destruct (new_valid config normalized s s1 Hnorm Hschema)
    as (gateway & s2 & Hnew & Hcfg & Hbase & Hapi & _).
  exists gateway, s2. split; [exact Hnew |].
  rewrite Hcfg, Hbase, Hapi. split; [reflexivity |].
  split; now apply Hany.
Qed.

(** The legacy configuration of the examples: its endpoint is the given URL,
    which is not in the URL table. *)
Lemma legacy_config_endpoint_witness :
  exists (gateway : PeachPaymentsGateway.t) (s2 : State Mock.World),
    PeachPaymentsGateway.new Mock.legacyConfig (Mock.start Mock.empty) = (inr gateway, s2)
    /\ PeachPaymentsConfig.environment (PeachPaymentsGateway.peachConfig gateway)
       = Some PeachEnvironment.PRODUCTION
    /\ ax_baseURL (HttpClient.client (PeachPaymentsGateway.httpClient gateway))
       = Some "https://legacy.example.com"
    /\ PaymentGatewayConfig.apiUrl (PeachPaymentsGateway.config gateway)
       = Some "https://legacy.example.com".
Proof.
  destruct (legacy_config_endpoint Mock.legacyConfig "https://legacy.example.com" false
              (Mock.start Mock.empty))
    as (_ & _ & _ & Hnew & _);
    [reflexivity | discriminate | reflexivity | reflexivity |].
  apply Hnew. reflexivity.
Defined.

(** ** Construction of the orchestrator *)

Lemma new_without_config `{Platform} {W} `{Runtime W}
    (config : PayLens.PayLensConfig) (s : State W) :
  PayLens.peachPayments config = None ->
  PayLens.new config s = (inl (ConfigurationError no_gateways_message None None), s).
Proof.
  intros Hnone. unfold PayLens.new, PayLens.initializeGateways.
  rewrite Hnone. reflexivity.
Qed.

Lemma new_adapter_failure `{Platform} {W} `{Runtime W}
    (config : PayLens.PayLensConfig) (peachConfig : PeachPaymentsConfig.t)
    (error : Thrown) (s s1 : State W) :
  PayLens.peachPayments config = Some peachConfig ->
  PeachPaymentsGateway.new peachConfig s = (inl error, s1) ->
  PayLens.new config s
  = (inl (ConfigurationError
            ("Failed to initialize Peach Payments gateway: " +:+ message_or_unknown error)
            (Some "peachPayments") (cause_of error)),
     s1).
Proof.
  intros Hsome Hnew. unfold PayLens.new, PayLens.initializeGateways.
  rewrite Hsome. run. rewrite Hnew. reflexivity.
Qed.

Lemma new_single_gateway `{Platform} {W} `{Runtime W}
    (config : PayLens.PayLensConfig) (peachConfig : PeachPaymentsConfig.t)
    (gateway : PeachPaymentsGateway.t) (s s1 : State W) :
  PayLens.peachPayments config = Some peachConfig ->
  PeachPaymentsGateway.new peachConfig s = (inr gateway, s1) ->
  PayLens.new config s
  = (inr {| PayLens.gateways := {[ "peach" := PeachPaymentsGateway.as_gateway gateway ]};
            PayLens.defaultGateway := Some "peach" |},
     s1).
Proof.
  intros Hsome Hnew. unfold PayLens.new, PayLens.initializeGateways.
  rewrite Hsome. run. rewrite Hnew. simpl.
  rewrite insert_empty, map_size_singleton. reflexivity.
Qed.

Lemma isGatewayAvailable_spec `{Platform} {W} `{Runtime W}
    (this : PayLens.t W) (gatewayName : string) :
  PayLens.isGatewayAvailable this gatewayName = true
  <-> is_Some (PayLens.gateways this !! gatewayName).
Proof. unfold PayLens.isGatewayAvailable. apply bool_decide_eq_true. Qed.

(** C4.  Without a gateway configuration the constructor of the
    orchestrator throws a [ConfigurationError].  With the one configuration,
    when the adapter is built, it is registered under the name ["peach"], which
    becomes the default; [isGatewayAvailable] is true for that name and false
    for every other; when the adapter's constructor throws, the orchestrator
    throws a [ConfigurationError] that names the slot [peachPayments] and
    carries the cause. *)
Theorem orchestrator_construction `{Platform} {W} `{Runtime W}
    (config : PayLens.PayLensConfig) (s : State W) :
  (PayLens.peachPayments config = None ->
   exists message,
     PayLens.new config s = (inl (ConfigurationError message None None), s))
  /\ (forall (peachConfig : PeachPaymentsConfig.t) (gateway : PeachPaymentsGateway.t)
             (s1 : State W),
        PayLens.peachPayments config = Some peachConfig ->
        PeachPaymentsGateway.new peachConfig s = (inr gateway, s1) ->
        exists this : PayLens.t W,
          PayLens.new config s = (inr this, s1)
          /\ PayLens.gateways this !! "peach"
             = Some (PeachPaymentsGateway.as_gateway gateway)
          /\ PayLens.getAvailableGateways this = ["peach"]
          /\ PayLens.defaultGateway this = Some "peach"
          /\ PayLens.isGatewayAvailable this "peach" = true
          /\ forall other : string,
               other <> "peach" -> PayLens.isGatewayAvailable this other = false)
  /\ (forall (peachConfig : PeachPaymentsConfig.t) (error : Thrown) (s1 : State W),
        PayLens.peachPayments config = Some peachConfig ->
        PeachPaymentsGateway.new peachConfig s = (inl error, s1) ->
        PayLens.new config s
        = (inl (ConfigurationError
                  ("Failed to initialize Peach Payments gateway: "
                     +:+ message_or_unknown error)
                  (Some "peachPayments") (cause_of error)),
           s1)).
Proof.
  split; [| split].
  - intros Hnone. eexists. now apply new_without_config.
  - intros peachConfig gateway s1 Hsome Hnew.
    eexists. split; [exact (new_single_gateway config peachConfig _ s s1 Hsome Hnew) |].
    simpl. split; [apply lookup_singleton_eq |].
    split; [unfold PayLens.getAvailableGateways; simpl;
            now rewrite map_to_list_singleton |].
    split; [reflexivity |]. split.
    + apply isGatewayAvailable_spec. simpl. rewrite lookup_singleton_eq. eauto.
    + intros other Hother. unfold PayLens.isGatewayAvailable. simpl.
      apply bool_decide_eq_false. rewrite lookup_singleton_ne by congruence.
      apply is_Some_None.
  - intros peachConfig error s1 Hsome Hnew.
    now apply (new_adapter_failure config peachConfig).
Qed.

(** The three constructions of the unit tests: no configuration, the valid
    one, the malformed one. *)
Lemma orchestrator_construction_witness :
  (exists message,
     PayLens.new {| PayLens.peachPayments := None |} (Mock.start Mock.empty)
     = (inl (ConfigurationError message None None), Mock.start Mock.empty))
  /\ (exists (this : PayLens.t Mock.World) (s1 : State Mock.World),
        PayLens.new {| PayLens.peachPayments := Some Mock.validConfig |}
          (Mock.start Mock.empty) = (inr this, s1)
        /\ PayLens.defaultGateway this = Some "peach"
        /\ PayLens.isGatewayAvailable this "peach" = true
        /\ PayLens.isGatewayAvailable this "PeachPayments" = false)
  /\ (exists message cause,
        PayLens.new {| PayLens.peachPayments := Some Mock.invalidConfig |}
          (Mock.start Mock.empty)
        = (inl (ConfigurationError message (Some "peachPayments") cause),
           Mock.start Mock.empty)).
Proof.
  split; [| split].
  - apply (orchestrator_construction {| PayLens.peachPayments := None |}). reflexivity.
  - destruct (orchestrator_construction
                {| PayLens.peachPayments := Some Mock.validConfig |} (Mock.start Mock.empty))
      as (_ & Hone & _).
    edestruct (Hone Mock.validConfig) as (this & Hnew & _ & _ & Hdefault & Hpeach & Hother);
      [reflexivity | cbv; reflexivity |].
    exists this. eexists. split; [exact Hnew |].
    split; [exact Hdefault |]. split; [exact Hpeach |].
    apply Hother. discriminate.
  - destruct (orchestrator_construction
                {| PayLens.peachPayments := Some Mock.invalidConfig |} (Mock.start Mock.empty))
      as (_ & _ & Hfail).
    eexists _, _. apply (Hfail Mock.invalidConfig); reflexivity.
Defined.

(** ** Capability check *)

Lemma supportsPaymentMethod_In (supportedMethods : list string) (method : string) :
  BasePaymentGateway.supportsPaymentMethod supportedMethods method = true
  <-> In method supportedMethods.
Proof. apply includes_In. Qed.

(** Resolving a gateway has no effect. *)
Lemma getGateway_pure `{Platform} {W} `{Runtime W}
    (this : PayLens.t W) (gatewayName : option string) (s : State W) :
  (PayLens.getGateway this gatewayName s).2 = s.
Proof.
  unfold PayLens.getGateway.
  destruct (negb _); [reflexivity |].
  destruct (PayLens.gateways this !! _); reflexivity.
Qed.

(** A resolved gateway is one of the registry. *)
Lemma getGateway_registered `{Platform} {W} `{Runtime W}
    (this : PayLens.t W) (gatewayName : option string) (gateway : PaymentGateway.t W)
    (s s' : State W) :
  PayLens.getGateway this gatewayName s = (inr gateway, s') ->
  exists key, PayLens.gateways this !! key = Some gateway.
Proof.
  unfold PayLens.getGateway.
  destruct (negb _); [discriminate |].
  destruct (PayLens.gateways this !! _) as [g |] eqn:Hlookup; [| discriminate].
  intros [= <- _]. eauto.
Qed.

(** Every gateway the constructor registers answers [supportsPaymentMethod] by
    the method it inherits from [BasePaymentGateway]. *)
Lemma registered_extends_base `{Platform} {W} `{Runtime W}
    (config : PayLens.PayLensConfig) (this : PayLens.t W) (s s1 : State W)
    (key : string) (gateway : PaymentGateway.t W) :
  PayLens.new config s = (inr this, s1) ->
  PayLens.gateways this !! key = Some gateway ->
  PaymentGateway.supportsPaymentMethod gateway
  = BasePaymentGateway.supportsPaymentMethod (PaymentGateway.supportedMethods gateway).
Proof.
  intros Hnew Hlookup.
  destruct (PayLens.peachPayments config) as [peachConfig |] eqn:Hcfg.
  - destruct (PeachPaymentsGateway.new peachConfig s) as [[error | adapter] s2] eqn:Hadapter.
    + rewrite (new_adapter_failure config peachConfig error s s2 Hcfg Hadapter) in Hnew.
      discriminate.
    + rewrite (new_single_gateway config peachConfig adapter s s2 Hcfg Hadapter) in Hnew.
      injection Hnew as <- <-. simpl in Hlookup.
      apply lookup_singleton_Some in Hlookup as [_ <-]. reflexivity.
  - rewrite (new_without_config config s Hcfg) in Hnew. discriminate.
Qed.

(** C5.  When a valid request asks for a payment method that is not among
    the [supportedMethods] of the resolved gateway, [processPayment] of the
    orchestrator throws a [ValidationError] naming the gateway and the method
    and leaves the state as it found it: the adapter was not invoked and no
    request was sent.  This holds of every gateway that inherits
    [supportsPaymentMethod], which is membership in [supportedMethods], and so
    of every gateway of an orchestrator its constructor built. *)
Theorem unsupported_method_rejected `{Platform} {W} `{Runtime W} :
  (forall (supportedMethods : list string) (method : string),
     BasePaymentGateway.supportsPaymentMethod supportedMethods method = true
     <-> In method supportedMethods)
  /\ (forall (this : PayLens.t W) (request : PaymentRequest.t)
             (gatewayName : option string) (gateway : PaymentGateway.t W)
             (s s' : State W),
        success (PaymentRequestSchema request) = true ->
        PayLens.getGateway this gatewayName s = (inr gateway, s') ->
        PaymentGateway.supportsPaymentMethod gateway
        = BasePaymentGateway.supportsPaymentMethod
            (PaymentGateway.supportedMethods gateway) ->
        ~ In (PaymentRequest.paymentMethod request)
             (PaymentGateway.supportedMethods gateway) ->
        PayLens.processPayment this request gatewayName s
        = (inl (ValidationError
                  ("Gateway " +:+ PaymentGateway.name gateway
                     +:+ " does not support payment method "
                     +:+ PaymentRequest.paymentMethod request)
                  None None),
           s))
  /\ (forall (config : PayLens.PayLensConfig) (s0 s1 : State W)
             (this : PayLens.t W) (request : PaymentRequest.t)
             (gatewayName : option string) (gateway : PaymentGateway.t W)
             (s s' : State W),
        PayLens.new config s0 = (inr this, s1) ->
        success (PaymentRequestSchema request) = true ->
        PayLens.getGateway this gatewayName s = (inr gateway, s') ->
        ~ In (PaymentRequest.paymentMethod request)
             (PaymentGateway.supportedMethods gateway) ->
        PayLens.processPayment this request gatewayName s
        = (inl (ValidationError
                  ("Gateway " +:+ PaymentGateway.name gateway
                     +:+ " does not support payment method "
                     +:+ PaymentRequest.paymentMethod request)
                  None None),
           s)).
Proof.
  assert (Hgeneral :
    forall (this : PayLens.t W) (request : PaymentRequest.t)
           (gatewayName : option string) (gateway : PaymentGateway.t W)
           (s s' : State W),
      success (PaymentRequestSchema request) = true ->
      PayLens.getGateway this gatewayName s = (inr gateway, s') ->
      PaymentGateway.supportsPaymentMethod gateway
      = BasePaymentGateway.supportsPaymentMethod
          (PaymentGateway.supportedMethods gateway) ->
      ~ In (PaymentRequest.paymentMethod request)
           (PaymentGateway.supportedMethods gateway) ->
      PayLens.processPayment this request gatewayName s
      = (inl (ValidationError
                ("Gateway " +:+ PaymentGateway.name gateway
                   +:+ " does not support payment method "
                   +:+ PaymentRequest.paymentMethod request)
                None None),
         s)).
  { intros this request gatewayName gateway s s' Hvalid Hresolve Hbase Hmethod.
    pose proof (getGateway_pure this gatewayName s) as Hpure.
    rewrite Hresolve in Hpure. simpl in Hpure. subst s'.
    unfold PayLens.processPayment. rewrite Hvalid. run.
    rewrite Hresolve, Hbase.
    apply includes_not_In in Hmethod.
    unfold BasePaymentGateway.supportsPaymentMethod. rewrite Hmethod. reflexivity. }
  split; [apply supportsPaymentMethod_In |]. split; [exact Hgeneral |].
  intros config s0 s1 this request gatewayName gateway s s' Hnew Hvalid Hresolve Hmethod.
  destruct (getGateway_registered this gatewayName gateway s s' Hresolve) as [key Hkey].
  apply (Hgeneral this request gatewayName gateway s s' Hvalid Hresolve); [| exact Hmethod].
  exact (registered_extends_base config this s0 s1 key gateway Hnew Hkey).
Qed.

(** A valid request for a cryptocurrency payment, against the orchestrator
    built from the valid configuration. *)
Lemma unsupported_method_rejected_witness :
  let config := {| PayLens.peachPayments := Some Mock.validConfig |} in
  let thrown :=
    ValidationError "Gateway PeachPayments does not support payment method cryptocurrency"
      None None in
  let request := Mock.validPaymentRequest PaymentMethod.CRYPTOCURRENCY in
  PayLens.processPayment Mock.payLens request None (Mock.start Mock.empty)
  = (inl thrown, Mock.start Mock.empty)
  /\ PayLens.processPayment Mock.payLens request (Some "peach")
       (PayLens.new config (Mock.start Mock.empty)).2
     = (inl thrown, (PayLens.new config (Mock.start Mock.empty)).2).
Proof.
  intros config thrown request. split.
  - apply (proj1 (proj2 unsupported_method_rejected) Mock.payLens request None
             (PeachPaymentsGateway.as_gateway Mock.gateway)
             (Mock.start Mock.empty) (Mock.start Mock.empty)).
    + reflexivity.
    + reflexivity.
    + reflexivity.
    + apply includes_not_In. reflexivity.
  - apply (proj2 (proj2 unsupported_method_rejected) config (Mock.start Mock.empty)
             (PayLens.new config (Mock.start Mock.empty)).2
             Mock.payLens request (Some "peach")
             (PeachPaymentsGateway.as_gateway Mock.gateway)
             (PayLens.new config (Mock.start Mock.empty)).2
             (PayLens.new config (Mock.start Mock.empty)).2).
    + reflexivity.
    + reflexivity.
    + reflexivity.
    + apply includes_not_In. reflexivity.
Defined.

(** The scripted adapter and orchestrator are the ones the constructors
    build. *)
Example Mock_new_gateway :
  (PeachPaymentsGateway.new Mock.validConfig (Mock.start Mock.empty)).1
  = inr Mock.gateway.
Proof. reflexivity. Qed.

Example Mock_new_payLens :
  (PayLens.new {| PayLens.peachPayments := Some Mock.validConfig |}
     (Mock.start Mock.empty)).1
  = inr Mock.payLens.
Proof. reflexivity. Qed.

(** ** Retry and backoff *)

Lemma executeWithRetry_unfold {W T} (retries : Z) (operation : M W (AxiosResponse T))
    (attempt : Z) (s : State W) :
  HttpClient.executeWithRetry retries operation attempt s
  = match operation s with
    | (inr response, s1) => (inr (data response), s1)
    | (inl error, s1) =>
        if (attempt <? retries) && HttpClient.shouldRetry error
        then HttpClient.executeWithRetry retries operation (attempt + 1)
               (HttpClient.sleep (HttpClient.calculateRetryDelay attempt) s1).2
        else (inl error, s1)
    end.
Proof.
  simp executeWithRetry.
  destruct (operation s) as [[error | response] s1]; simpl; [| reflexivity].
  destruct ((attempt <? retries) && HttpClient.shouldRetry error); reflexivity.
Qed.

Lemma calculateRetryDelay_backoff n : HttpClient.calculateRetryDelay n = backoff n.
Proof. reflexivity. Qed.

Lemma responseInterceptor_statusCode (error : AxiosError) :
  statusCode_of (HttpClient.responseInterceptor error) = status_of error
  /\ instanceofNetworkError (HttpClient.responseInterceptor error) = true.
Proof.
  unfold HttpClient.responseInterceptor, status_of.
  destruct (ae_response error); simpl; [auto |].
  destruct (ae_request error); auto.
Qed.

(** On a failure of the transport whose status, if any, is not 0, the code's
    test is the specification's. *)
Lemma shouldRetry_retryable (failure : Thrown) :
  instanceofNetworkError failure = true ->
  statusCode_of failure <> Some 0 ->
  HttpClient.shouldRetry failure = true <-> retryable failure.
Proof.
  intros Hnet Hzero. unfold HttpClient.shouldRetry, retryable. rewrite Hnet.
  destruct (statusCode_of failure) as [sc |].
  - assert (Hsc : sc <> 0) by congruence.
    apply Z.eqb_neq in Hsc. rewrite Hsc. simpl. rewrite Z.leb_le. split.
    + intros Hle. right. eauto.
    + intros [Hnone | (sc' & [= <-] & Hle)]; [discriminate | exact Hle].
  - split; auto.
Qed.

(** The code's test also holds of a status of 0, which no HTTP response
    carries. *)
Example shouldRetry_status_zero :
  HttpClient.shouldRetry (NetworkError "HTTP 0: " (Some 0) None None) = true.
Proof. reflexivity. Qed.

Section Transport.
Context {W T : Type}.
Variables (maxRetries : Z) (method url : string) (send : W -> AxiosOutcome T * W).

Let operation : M W (AxiosResponse T) := HttpClient.request method url send.
Let call : Z -> M W T := HttpClient.executeWithRetry maxRetries operation.

Lemma attempt_fulfilled n s response w' :
  send (world s) = (Fulfilled response, w') ->
  call n s = (inr (data response), requested method url s w').
Proof.
  intros Hsend. unfold call. rewrite executeWithRetry_unfold.
  unfold operation, HttpClient.request. rewrite Hsend. reflexivity.
Qed.

Lemma attempt_rejected n s error w' :
  send (world s) = (Rejected error, w') ->
  call n s
  = if (n <? maxRetries) && HttpClient.shouldRetry (HttpClient.responseInterceptor error)
    then call (n + 1) (slept method url n s w')
    else (inl (HttpClient.responseInterceptor error), requested method url s w').
Proof.
  intros Hsend. unfold call at 1. rewrite executeWithRetry_unfold.
  unfold operation, HttpClient.request. rewrite Hsend.
  destruct (_ && _); [| reflexivity].
  unfold call, operation, slept, HttpClient.sleep, emit. simpl.
  rewrite <- app_assoc. reflexivity.
Qed.

(** A call only adds to the trace, and first of all its request. *)
Lemma call_trace n s :
  exists rest, trace (call n s).2 = trace s ++ [HttpRequest method url] ++ rest.
Proof.
  remember (Z.to_nat (maxRetries - n)) as k eqn:Hk.
  revert n s Hk. induction k as [| k IH]; intros n s Hk;
    destruct (send (world s)) as [[response | error] w'] eqn:Hsend.
  - rewrite (attempt_fulfilled n s response w' Hsend). exists []. reflexivity.
  - rewrite (attempt_rejected n s error w' Hsend).
    assert (Hlt : (n <? maxRetries) = false) by (apply Z.ltb_ge; lia).
    rewrite Hlt. exists []. reflexivity.
  - rewrite (attempt_fulfilled n s response w' Hsend). exists []. reflexivity.
  - rewrite (attempt_rejected n s error w' Hsend).
    destruct (_ && _) eqn:Hretry; [| exists []; reflexivity].
    apply andb_prop in Hretry as [Hlt _]. apply Z.ltb_lt in Hlt.
    destruct (IH (n + 1) (slept method url n s w') ltac:(lia)) as [rest Hrest].
    rewrite Hrest. simpl. rewrite <- app_assoc. simpl. eauto.
Qed.

Lemma attempt_policy n s error w' :
  send (world s) = (Rejected error, w') ->
  status_of error <> Some 0 ->
  let failure := HttpClient.responseInterceptor error in
  (n < maxRetries /\ retryable failure -> call n s = call (n + 1) (slept method url n s w'))
  /\ (~ (n < maxRetries /\ retryable failure) ->
      call n s = (inl failure, requested method url s w'))
  /\ (slept_after_request (trace s) method url (backoff n) (call n s).2
      <-> n < maxRetries /\ retryable failure).
Proof.
  intros Hsend Hstatus failure.
  destruct (responseInterceptor_statusCode error) as [Hsc Hnet].
  fold failure in Hsc, Hnet.
  assert (Hspec : HttpClient.shouldRetry failure = true <-> retryable failure).
  { apply shouldRetry_retryable; [exact Hnet | now rewrite Hsc]. }
  pose proof (attempt_rejected n s error w' Hsend) as Hstep. fold failure in Hstep.
  assert (Hretry : n < maxRetries /\ retryable failure -> call n s = call (n + 1) (slept method url n s w')).
  { intros [Hlt Hr]. rewrite Hstep.
    apply Z.ltb_lt in Hlt. apply Hspec in Hr. now rewrite Hlt, Hr. }
  assert (Hstop : ~ (n < maxRetries /\ retryable failure) ->
                  call n s = (inl failure, requested method url s w')).
  { intros Hnot. rewrite Hstep.
    destruct (n <? maxRetries) eqn:Hlt; [| reflexivity].
    destruct (HttpClient.shouldRetry failure) eqn:Hr; [| reflexivity].
    exfalso. apply Hnot. split; [now apply Z.ltb_lt | now apply Hspec]. }
  split; [exact Hretry |]. split; [exact Hstop |]. split.
  - intros [rest Hrest].
    destruct (Z_lt_dec n maxRetries) as [Hlt | Hge].
    + destruct (HttpClient.shouldRetry failure) eqn:Hr; [split; [exact Hlt | now apply Hspec] |].
      exfalso. rewrite Hstop in Hrest.
      * simpl in Hrest. apply app_inv_head in Hrest. discriminate.
      * intros [_ Hr']. apply Hspec in Hr'. congruence.
    + exfalso. rewrite Hstop in Hrest by tauto.
      simpl in Hrest. apply app_inv_head in Hrest. discriminate.
  - intros Hcond. rewrite (Hretry Hcond).
    destruct (call_trace (n + 1) (slept method url n s w')) as [rest Hrest].
    exists ([HttpRequest method url] ++ rest). rewrite Hrest. simpl.
    rewrite <- app_assoc. reflexivity.
Qed.

End Transport.

Lemma shouldRetry_responseInterceptor (error : AxiosError) :
  HttpClient.shouldRetry (HttpClient.responseInterceptor error)
  = match status_of error with
    | None => true
    | Some statusCode => (statusCode =? 0) || (500 <=? statusCode)
    end.
Proof.
  unfold HttpClient.shouldRetry.
  destruct (responseInterceptor_statusCode error) as [-> ->]. reflexivity.
Qed.

(** C2.  Through the transport, with retry budget [maxRetries]: a fulfilled
    attempt returns its data at once; a failed attempt [n] is retried, after a
    sleep of [min (1000 * 2^(n-1)) 10000] milliseconds, exactly when
    [n < maxRetries] and the failure carries no HTTP status or a status of at
    least 500, and is thrown at once otherwise.  A call that meets status 500
    twice and then succeeds returns the success after sleeps of 1000 and 2000
    milliseconds; a call that meets status 404 throws after its one request. *)
Theorem retry_policy {W T} (maxRetries : Z) (method url : string)
    (send : W -> AxiosOutcome T * W) :
  let call := HttpClient.executeWithRetry maxRetries (HttpClient.request method url send) in
  (forall (n : Z) (s : State W) (response : AxiosResponse T) (w' : W),
     send (world s) = (Fulfilled response, w') ->
     call n s = (inr (data response), requested method url s w'))
  /\ (forall (n : Z) (s : State W) (error : AxiosError) (w' : W),
        send (world s) = (Rejected error, w') ->
        status_of error <> Some 0 ->
        let failure := HttpClient.responseInterceptor error in
        (n < maxRetries /\ retryable failure ->
         call n s = call (n + 1) (slept method url n s w'))
        /\ (~ (n < maxRetries /\ retryable failure) ->
            call n s = (inl failure, requested method url s w'))
        /\ (slept_after_request (trace s) method url (backoff n) (call n s).2
            <-> n < maxRetries /\ retryable failure))
  /\ (forall n : Z,
        HttpClient.calculateRetryDelay n = Z.min (1000 * 2 ^ (n - 1)) 10000)
  /\ (forall (w0 w1 w2 w3 : W) (e1 e2 : AxiosError) (response : AxiosResponse T)
             (t : list Event),
        3 <= maxRetries ->
        send w0 = (Rejected e1, w1) -> status_of e1 = Some 500 ->
        send w1 = (Rejected e2, w2) -> status_of e2 = Some 500 ->
        send w2 = (Fulfilled response, w3) ->
        call 1 (mkState w0 t)
        = (inr (data response),
           mkState w3
             (t ++ [ HttpRequest method url; Sleep 1000;
                     HttpRequest method url; Sleep 2000;
                     HttpRequest method url ])))
  /\ (forall (w0 w1 : W) (error : AxiosError) (t : list Event),
        send w0 = (Rejected error, w1) -> status_of error = Some 404 ->
        call 1 (mkState w0 t)
        = (inl (HttpClient.responseInterceptor error),
           mkState w1 (t ++ [HttpRequest method url]))).
Proof.
  intros call. split; [| split; [| split; [| split]]].
  - intros n s response w' Hsend. now apply attempt_fulfilled.
  - intros n s error w' Hsend Hstatus. now apply attempt_policy.
  - reflexivity.
  - intros w0 w1 w2 w3 e1 e2 response t Hbudget H1 Hs1 H2 Hs2 H3. unfold call.
    rewrite (attempt_rejected maxRetries method url send 1 (mkState w0 t) e1 w1 H1).
    rewrite shouldRetry_responseInterceptor, Hs1.
    replace (1 <? maxRetries) with true by (symmetry; apply Z.ltb_lt; lia).
    cbn [andb orb Z.eqb Z.leb Z.compare Pos.compare Pos.compare_cont].
    rewrite (attempt_rejected maxRetries method url send (1 + 1)
               (slept method url 1 (mkState w0 t) w1) e2 w2 H2).
    rewrite shouldRetry_responseInterceptor, Hs2.
    replace (1 + 1 <? maxRetries) with true by (symmetry; apply Z.ltb_lt; lia).
    cbn [andb orb Z.eqb Z.leb Z.compare Pos.compare Pos.compare_cont].
    rewrite (attempt_fulfilled maxRetries method url send (1 + 1 + 1)
               (slept method url (1 + 1) (slept method url 1 (mkState w0 t) w1) w2)
               response w3 H3).
    unfold requested, slept. simpl. rewrite <- !app_assoc. reflexivity.
  - intros w0 w1 error t Hsend Hstatus. unfold call.
    rewrite (attempt_rejected maxRetries method url send 1 (mkState w0 t) error w1 Hsend).
    rewrite shouldRetry_responseInterceptor, Hstatus.
    cbn [andb orb Z.eqb Z.leb Z.compare Pos.compare Pos.compare_cont].
    rewrite andb_false_r. reflexivity.
Qed.

(** The transport of the scripted adapter (budget 3) against the scripted
    gateways: 500, 500, success; 404; and the first failed attempt on its
    own. *)
Lemma retry_policy_witness :
  let this := PeachPaymentsGateway.httpClient Mock.gateway in
  let url := "/payments/refund-123?entityId=test-entity-123" in
  HttpClient.get this url axios_get_status (Mock.start Mock.flaky)
  = (inr (Mock.statusResponse "000.000.000" "Transaction succeeded"),
     mkState Mock.empty
       [ HttpRequest "GET" url; Sleep 1000; HttpRequest "GET" url; Sleep 2000;
         HttpRequest "GET" url ])
  /\ HttpClient.get this url axios_get_status (Mock.start Mock.missing)
     = (inl (NetworkError "HTTP 404: Request failed" (Some 404) (Some "") None),
        mkState Mock.empty [ HttpRequest "GET" url ])
  /\ HttpClient.get this url axios_get_status (Mock.start Mock.steady)
     = (inr (Mock.statusResponse "000.000.000" "Transaction succeeded"),
        mkState Mock.empty [ HttpRequest "GET" url ])
  /\ slept_after_request [] "GET" url 1000
       (HttpClient.get this url axios_get_status (Mock.start Mock.flaky)).2.
Proof.
  intros this url.
  pose proof (retry_policy 3 "GET" url (axios_get_status (HttpClient.client this) url))
    as (Hok & Hstep & _ & Hflaky & Hmissing).
  refine (conj _ (conj _ (conj _ _))).
  - refine (Hflaky Mock.flaky _ _ Mock.empty _ _
              {| data := Mock.statusResponse "000.000.000" "Transaction succeeded";
                 status := 200 |} [] _ _ _ _ _ _);
      [lia | reflexivity | reflexivity | reflexivity | reflexivity | reflexivity].
  - refine (Hmissing Mock.missing Mock.empty
              {| ae_message := "Request failed";
                 ae_response := Some {| er_status := 404; er_data_message := None;
                                        er_data := "" |};
                 ae_request := true |} [] _ _); reflexivity.
  - refine (Hok 1 (Mock.start Mock.steady)
              {| data := Mock.statusResponse "000.000.000" "Transaction succeeded";
                 status := 200 |} Mock.empty _). reflexivity.
  - eapply (Hstep 1 (Mock.start Mock.flaky)).
    + reflexivity.
    + discriminate.
    + split; [lia |]. right. exists 500. split; [reflexivity | lia].
Defined.

(** A successful lookup against the scripted gateway. *)
Lemma getRefundStatus_paymentId_empty_witness :
  RefundResponse.paymentId
    (PeachPaymentsGateway.mapStatusToRefundResponse
       (Mock.statusResponse "000.000.000" "Transaction succeeded"))
  = "".
Proof.
  apply (proj2 (proj2 getRefundStatus_paymentId_empty) Mock.gateway "refund-123"
           (Mock.start Mock.steady)
           (mkState Mock.empty
              [HttpRequest "GET" "/payments/refund-123?entityId=test-entity-123"])).
  reflexivity.
Defined.

(** A full refund and a refund of 50.00 EUR. *)
Lemma mapToRefundRequest_amount_witness :
  (PeachRefundRequest.amount
     (PeachPaymentsGateway.mapToRefundRequest Mock.gateway (Mock.refundRequest None))
   = "0.00"
   /\ PeachRefundRequest.currency
        (PeachPaymentsGateway.mapToRefundRequest Mock.gateway (Mock.refundRequest None))
      = "ZAR")
  /\ Z.abs 5000 < 10 ^ 23
  /\ PeachRefundRequest.amount
       (PeachPaymentsGateway.mapToRefundRequest Mock.gateway
          (Mock.refundRequest
             (Some {| Amount.value := 5000; Amount.currency := Currency.EUR |})))
     = "50.00"
  /\ PeachRefundRequest.currency
       (PeachPaymentsGateway.mapToRefundRequest Mock.gateway
          (Mock.refundRequest
             (Some {| Amount.value := 5000; Amount.currency := Currency.EUR |})))
     = "EUR"
  /\ two_decimals
       (PeachRefundRequest.amount
          (PeachPaymentsGateway.mapToRefundRequest Mock.gateway
             (Mock.refundRequest
                (Some {| Amount.value := 5000; Amount.currency := Currency.EUR |})))).
Proof.
  split.
  - apply (mapToRefundRequest_amount Mock.gateway (Mock.refundRequest None)). reflexivity.
  - destruct (mapToRefundRequest_amount Mock.gateway
                (Mock.refundRequest
                   (Some {| Amount.value := 5000; Amount.currency := Currency.EUR |})))
      as [_ Hsome].
    destruct (Hsome {| Amount.value := 5000; Amount.currency := Currency.EUR |})
      as (Hamount & Hcurrency & Htwo); [reflexivity | discriminate |].
    split; [reflexivity |]. split; [exact Hamount |]. split; [exact Hcurrency |].
    apply Htwo. reflexivity.
Defined.

(** The example of the specification: 100.00 ZAR by card, answered with
    [000.000.000]. *)
Lemma roundtrip_success_witness :
  let request := Mock.validPaymentRequest PaymentMethod.CARD in
  let response :=
    PeachPaymentsGateway.mapToPaymentResponse
      (Mock.paymentResponse "000.000.000" "Transaction succeeded") request in
  PaymentResponse.amount response = PaymentRequest.amount request
  /\ PaymentResponse.paymentMethod response = PaymentMethod.CARD
  /\ PaymentResponse.status response = COMPLETED.
Proof.
  intros request response.
  destruct (roundtrip_success Mock.gateway request (Mock.start Mock.empty))
    as (wire & s' & _ & Hback).
  apply (Hback (Mock.paymentResponse "000.000.000" "Transaction succeeded")).
  in_list.
Defined.

(** The example of the specification: [000.000.000] gives no failure reason,
    [000.400.010] gives the description. *)
Lemma failureReason_iff_failed_witness :
  PaymentResponse.failureReason
    (PeachPaymentsGateway.mapToPaymentResponse
       (Mock.paymentResponse "000.000.000" "Transaction succeeded")
       (Mock.validPaymentRequest PaymentMethod.CARD))
  = None
  /\ PaymentResponse.failureReason
       (PeachPaymentsGateway.mapToPaymentResponse
          (Mock.paymentResponse "000.400.010" "Invalid card number")
          (Mock.validPaymentRequest PaymentMethod.CARD))
     = Some "Invalid card number".
Proof.
  pose proof (proj1 failureReason_iff_failed) as Hmap.
  split.
  - apply (Hmap (Mock.paymentResponse "000.000.000" "Transaction succeeded")).
    discriminate.
  - apply (Hmap (Mock.paymentResponse "000.400.010" "Invalid card number")).
    reflexivity.
Defined.

(** * Further properties of the code *)

(** ** The transport: accounting of requests and sleeps *)

Lemma retry_events_length method url n k :
  length (retry_events method url n k) = (2 * k)%nat.
Proof. revert n. induction k as [| k IH]; intros n; simpl; [reflexivity |]. rewrite IH. lia. Qed.

Lemma retry_events_requests method url n k :
  length (List.filter is_HttpRequest (retry_events method url n k)) = k.
Proof.
  revert n. induction k as [| k IH]; intros n; [reflexivity |].
  simpl. now rewrite IH.
Qed.

Lemma retry_events_sleeps method url n k :
  length (sleeps (retry_events method url n k)) = k.
Proof.
  revert n. induction k as [| k IH]; intros n; [reflexivity |].
  simpl. unfold sleeps in *. simpl. now rewrite IH.
Qed.

Section Accounting.
Context {W T : Type}.
Variables (maxRetries : Z) (method url : string) (send : W -> AxiosOutcome T * W).

(** The exact trace of a call that starts at attempt [n]. *)
Lemma call_trace_shape (n : Z) (s : State W) :
  exists k : nat,
    (k <= Z.to_nat (maxRetries - n))%nat
    /\ trace (HttpClient.executeWithRetry maxRetries
                (HttpClient.request method url send) n s).2
       = trace s ++ retry_events method url n k ++ [HttpRequest method url].
Proof.
  remember (Z.to_nat (maxRetries - n)) as budget eqn:Hbudget.
  revert n s Hbudget. induction budget as [| budget IH]; intros n s Hbudget;
    destruct (send (world s)) as [[response | error] w'] eqn:Hsend.
  - rewrite (attempt_fulfilled maxRetries method url send n s response w' Hsend).
    exists 0%nat. split; [lia | reflexivity].
  - rewrite (attempt_rejected maxRetries method url send n s error w' Hsend).
    assert (Hlt : (n <? maxRetries) = false) by (apply Z.ltb_ge; lia).
    rewrite Hlt. exists 0%nat. split; [lia | reflexivity].
  - rewrite (attempt_fulfilled maxRetries method url send n s response w' Hsend).
    exists 0%nat. split; [lia | reflexivity].
  - rewrite (attempt_rejected maxRetries method url send n s error w' Hsend).
    destruct (_ && _) eqn:Hretry; [| exists 0%nat; split; [lia | reflexivity]].
    apply andb_prop in Hretry as [Hlt _]. apply Z.ltb_lt in Hlt.
    destruct (IH (n + 1) (slept method url n s w') ltac:(lia)) as (k & Hk & Htrace).
    exists (S k). split; [lia |]. rewrite Htrace. simpl.
    rewrite <- app_assoc. reflexivity.
Qed.

(** Whatever a call throws went through the response interceptor. *)
Lemma call_failure_intercepted (n : Z) (s s' : State W) (failure : Thrown) :
  HttpClient.executeWithRetry maxRetries (HttpClient.request method url send) n s
  = (inl failure, s') ->
  exists error : AxiosError, failure = HttpClient.responseInterceptor error.
Proof.
  remember (Z.to_nat (maxRetries - n)) as budget eqn:Hbudget.
  revert n s Hbudget. induction budget as [| budget IH]; intros n s Hbudget;
    destruct (send (world s)) as [[response | error] w'] eqn:Hsend.
  - rewrite (attempt_fulfilled maxRetries method url send n s response w' Hsend).
    discriminate.
  - rewrite (attempt_rejected maxRetries method url send n s error w' Hsend).
    assert (Hlt : (n <? maxRetries) = false) by (apply Z.ltb_ge; lia).
    rewrite Hlt. simpl. intros [= <- _]. eauto.
  - rewrite (attempt_fulfilled maxRetries method url send n s response w' Hsend).
    discriminate.
  - rewrite (attempt_rejected maxRetries method url send n s error w' Hsend).
    destruct (_ && _) eqn:Hretry; [| intros [= <- _]; eauto].
    apply andb_prop in Hretry as [Hlt _]. apply Z.ltb_lt in Hlt.
    apply IH. lia.
Qed.

End Accounting.

(** X1.  A call through the transport leaves, after the trace it found,
    [k] pairs of a request and the sleep of its attempt followed by one last
    request, with [k] at most the budget left; from attempt 1 that is at most
    [max 1 maxRetries] requests, one more than there are sleeps. *)
Theorem transport_requests_bounded {W T} (maxRetries : Z) (method url : string)
    (send : W -> AxiosOutcome T * W) (s : State W) :
  exists (k : nat) (added : list Event),
    trace (HttpClient.executeWithRetry maxRetries
             (HttpClient.request method url send) 1 s).2
    = trace s ++ added
    /\ added = retry_events method url 1 k ++ [HttpRequest method url]
    /\ length (List.filter is_HttpRequest added) = S k
    /\ length (sleeps added) = k
    /\ Z.of_nat (S k) <= Z.max 1 maxRetries.
Proof.
  destruct (call_trace_shape maxRetries method url send 1 s) as (k & Hk & Htrace).
  exists k, (retry_events method url 1 k ++ [HttpRequest method url]).
  split; [exact Htrace |]. split; [reflexivity |]. split; [| split].
  - rewrite List.filter_app, length_app, retry_events_requests. simpl. lia.
  - unfold sleeps. rewrite omap_app, length_app. fold (sleeps (retry_events method url 1 k)).
    rewrite retry_events_sleeps. simpl. lia.
  - lia.
Qed.

(** X2.  Whatever a call through the transport throws is a [NetworkError]
    built by the response interceptor: it carries the HTTP status when a
    response came back and none otherwise. *)
Theorem transport_throws_NetworkError {W T} (maxRetries : Z) (method url : string)
    (send : W -> AxiosOutcome T * W) (n : Z) (s s' : State W) (failure : Thrown) :
  HttpClient.executeWithRetry maxRetries (HttpClient.request method url send) n s
  = (inl failure, s') ->
  instanceofNetworkError failure = true
  /\ exists error : AxiosError,
       failure = HttpClient.responseInterceptor error
       /\ statusCode_of failure = status_of error.
Proof.
  intros Hcall.
  destruct (call_failure_intercepted maxRetries method url send n s s' failure Hcall)
    as [error ->].
  destruct (responseInterceptor_statusCode error) as [Hstatus Hnet].
  split; [exact Hnet |]. exists error. split; [reflexivity | exact Hstatus].
Qed.

Lemma transport_throws_NetworkError_witness :
  instanceofNetworkError
    (NetworkError "HTTP 404: Request failed" (Some 404) (Some "") None) = true.
Proof.
  apply (transport_throws_NetworkError 3 "GET" "/payments/x"
           (axios_get_status (HttpClient.client (PeachPaymentsGateway.httpClient Mock.gateway))
              "/payments/x")
           1 (Mock.start Mock.missing)
           (mkState Mock.empty [HttpRequest "GET" "/payments/x"])).
  reflexivity.
Defined.

Lemma shouldRetry_no_status_or_5xx (error : AxiosError) :
  status_of error = None \/ (exists sc, status_of error = Some sc /\ 500 <= sc) ->
  HttpClient.shouldRetry (HttpClient.responseInterceptor error) = true.
Proof.
  intros Hstatus. rewrite shouldRetry_responseInterceptor.
  destruct Hstatus as [-> | (sc & -> & Hsc)]; [reflexivity |].
  apply orb_true_iff. right. now apply Z.leb_le.
Qed.

Lemma call_exhausts {W T} (maxRetries : Z) (method url : string)
    (send : W -> AxiosOutcome T * W) :
  (forall w, exists error w',
      send w = (Rejected error, w')
      /\ (status_of error = None \/ exists sc, status_of error = Some sc /\ 500 <= sc)) ->
  forall (n : Z) (s : State W),
  let retries := Z.to_nat (maxRetries - n) in
  let before_last := after_requests send retries (world s) in
  exists error : AxiosError,
    (send before_last).1 = Rejected error
    /\ HttpClient.executeWithRetry maxRetries (HttpClient.request method url send) n s
       = (inl (HttpClient.responseInterceptor error),
          mkState (send before_last).2
            (trace s ++ retry_events method url n retries ++ [HttpRequest method url])).
Proof.
  intros Hdown n s. cbv zeta.
  remember (Z.to_nat (maxRetries - n)) as budget eqn:Hbudget.
  revert n s Hbudget. induction budget as [| budget IH]; intros n s Hbudget;
    destruct (Hdown (world s)) as (error & w' & Hsend & Hstatus);
    rewrite (attempt_rejected maxRetries method url send n s error w' Hsend);
    rewrite (shouldRetry_no_status_or_5xx error Hstatus), andb_true_r.
  - assert (Hlt : (n <? maxRetries) = false) by (apply Z.ltb_ge; lia).
    rewrite Hlt. exists error. cbn [after_requests]. rewrite Hsend.
    split; reflexivity.
  - assert (Hlt : (n <? maxRetries) = true) by (apply Z.ltb_lt; lia).
    rewrite Hlt.
    destruct (IH (n + 1) (slept method url n s w') ltac:(lia)) as (last & Hlast & Hcall).
    exists last. cbn [after_requests]. rewrite Hsend.
    split; [exact Hlast |]. rewrite Hcall. cbn [slept trace world retry_events snd].
    rewrite <- app_assoc. reflexivity.
Qed.

(** X3.  With an integer retry budget: when the gateway answers every request
    with no response or with a status of at least 500, a call through the
    transport sends exactly [max 1 maxRetries] requests, with the sleeps of
    attempts 1, 2, ... between them, and throws the [NetworkError] that the
    response interceptor builds from the rejection of the last of these
    requests, leaving the world as that request left it. *)
Theorem transport_exhausts_budget {W T} (maxRetries : Z) (method url : string)
    (send : W -> AxiosOutcome T * W) (s : State W) :
  (forall w, exists error w',
      send w = (Rejected error, w')
      /\ (status_of error = None \/ exists sc, status_of error = Some sc /\ 500 <= sc)) ->
  let retries := Z.to_nat (maxRetries - 1) in
  let before_last := after_requests send retries (world s) in
  let events := retry_events method url 1 retries ++ [HttpRequest method url] in
  exists error : AxiosError,
    (send before_last).1 = Rejected error
    /\ HttpClient.executeWithRetry maxRetries (HttpClient.request method url send) 1 s
       = (inl (HttpClient.responseInterceptor error),
          mkState (send before_last).2 (trace s ++ events))
    /\ Z.of_nat (length (List.filter is_HttpRequest events)) = Z.max 1 maxRetries.
Proof.
  intros Hdown. cbv zeta.
  destruct (call_exhausts maxRetries method url send Hdown 1 s) as (error & Hlast & Hcall).
  exists error. split; [exact Hlast |]. split; [exact Hcall |].
  rewrite List.filter_app, length_app, retry_events_requests. simpl. lia.
Qed.

(** A gateway that is down, against a budget of 3: the third request is the
    last, and its timeout is what the call throws. *)
Lemma transport_exhausts_budget_witness :
  exists error : AxiosError,
    Mock.no_response (T := unit) = Rejected error
    /\ HttpClient.executeWithRetry (T := unit) 3
         (HttpClient.request "GET" "/payments/x" (fun w => (Mock.no_response, w))) 1
         (mkState tt [])
       = (inl (HttpClient.responseInterceptor error),
          mkState tt
            [ HttpRequest "GET" "/payments/x"; Sleep 1000;
              HttpRequest "GET" "/payments/x"; Sleep 2000;
              HttpRequest "GET" "/payments/x" ]).
Proof.
  destruct (transport_exhausts_budget (T := unit) 3 "GET" "/payments/x"
              (fun w : unit => (Mock.no_response, w)) (mkState tt []))
    as (error & Hlast & Hcall & _).
  - intros w. eexists _, w. split; [reflexivity | left; reflexivity].
  - exists error. split; [exact Hlast | exact Hcall].
Defined.

(** ** The transport: backoff *)

Lemma pow2_ge_16 k : 4 <= k -> 16 <= 2 ^ k.
Proof.
  intros Hk. change 16 with (2 ^ 4). apply Z.pow_le_mono_r; lia.
Qed.

(** X4.  From attempt 1 on, the delay before a retry is between 1000 and
    10000 milliseconds, never decreases from one attempt to the next, doubles
    over the attempts 1 to 4 (1000, 2000, 4000, 8000) and is 10000 from
    attempt 5 on. *)
Theorem calculateRetryDelay_bounds (n : Z) :
  1 <= n ->
  1000 <= HttpClient.calculateRetryDelay n <= 10000
  /\ (n <= 4 -> HttpClient.calculateRetryDelay n = 1000 * 2 ^ (n - 1))
  /\ (n < 4 ->
      HttpClient.calculateRetryDelay (n + 1) = 2 * HttpClient.calculateRetryDelay n)
  /\ (5 <= n -> HttpClient.calculateRetryDelay n = 10000)
  /\ (forall m, n <= m ->
      HttpClient.calculateRetryDelay n <= HttpClient.calculateRetryDelay m).
Proof.
  intros Hn. unfold HttpClient.calculateRetryDelay.
  assert (Hpos : 1 <= 2 ^ (n - 1)).
  { change 1 with (2 ^ 0) at 1. apply Z.pow_le_mono_r; lia. }
  assert (Hsmall : n <= 4 -> 2 ^ (n - 1) <= 8).
  { intros Hle. change 8 with (2 ^ 3). apply Z.pow_le_mono_r; lia. }
  split; [lia |]. split; [intros Hle; specialize (Hsmall Hle); lia |].
  split; [| split].
  - intros Hlt. replace (n + 1 - 1) with (Z.succ (n - 1)) by lia.
    rewrite Z.pow_succ_r by lia.
    assert (2 ^ (n - 1) <= 4).
    { change 4 with (2 ^ 2). apply Z.pow_le_mono_r; lia. }
    lia.
  - intros Hge. pose proof (pow2_ge_16 (n - 1) ltac:(lia)). lia.
  - intros m Hm.
    assert (2 ^ (n - 1) <= 2 ^ (m - 1)) by (apply Z.pow_le_mono_r; lia).
    lia.
Qed.

Lemma calculateRetryDelay_bounds_witness :
  HttpClient.calculateRetryDelay 3 = 1000 * 2 ^ (3 - 1)
  /\ HttpClient.calculateRetryDelay 7 = 10000.
Proof.
  split.
  - apply (calculateRetryDelay_bounds 3); lia.
  - apply (calculateRetryDelay_bounds 7); lia.
Defined.

(** ** The transport: construction *)

(** X5.  [new HttpClient(config)] always succeeds, sends nothing and
    leaves the world alone.  A retry count or a timeout that is missing or 0
    becomes 3, or 30000, and any other is kept; a header of the configuration
    overrides the default of the same name, and [Content-Type] and
    [User-Agent] are present in any case. *)
Theorem HttpClient_new_defaults {W} (config : HttpClient.HttpClientConfig) (s : State W) :
  exists this : HttpClient.t,
    HttpClient.new config s
    = (inr this,
       mkState (world s)
         (trace s ++ [AxiosCreate (ax_baseURL (HttpClient.client this))
                        (ax_timeout (HttpClient.client this))
                        (ax_headers (HttpClient.client this))]))
    /\ ax_baseURL (HttpClient.client this) = HttpClient.baseURL config
    /\ (HttpClient.cfg_retries config = None \/ HttpClient.cfg_retries config = Some 0 ->
        HttpClient.retries this = 3)
    /\ (forall r, HttpClient.cfg_retries config = Some r -> r <> 0 ->
        HttpClient.retries this = r)
    /\ (HttpClient.cfg_timeout config = None \/ HttpClient.cfg_timeout config = Some 0 ->
        ax_timeout (HttpClient.client this) = 30000)
    /\ (forall t, HttpClient.cfg_timeout config = Some t -> t <> 0 ->
        ax_timeout (HttpClient.client this) = t)
    /\ (forall key v, HttpClient.cfg_headers config !! key = Some v ->
        ax_headers (HttpClient.client this) !! key = Some v)
    /\ is_Some (ax_headers (HttpClient.client this) !! "Content-Type")
    /\ is_Some (ax_headers (HttpClient.client this) !! "User-Agent")
    /\ (forall key, HttpClient.cfg_headers config !! key = None ->
        ax_headers (HttpClient.client this) !! key
        = ({[ "Content-Type" := "application/json"; "User-Agent" := "@paylens/sdk" ]}
             : gmap string string) !! key).
Proof.
  exists {| HttpClient.client :=
              {| ax_baseURL := HttpClient.baseURL config;
                 ax_timeout := or_elseZ (HttpClient.cfg_timeout config) 30000;
                 ax_headers :=
                   HttpClient.cfg_headers config
                     ∪ {[ "Content-Type" := "application/json";
                          "User-Agent" := "@paylens/sdk" ]} |};
            HttpClient.retries := or_elseZ (HttpClient.cfg_retries config) 3 |}.
  split; [reflexivity |]. simpl.
  split; [reflexivity |].
  split; [intros [-> | ->]; reflexivity |].
  split; [intros r -> Hr; simpl; apply Z.eqb_neq in Hr; now rewrite Hr |].
  split; [intros [-> | ->]; reflexivity |].
  split; [intros t -> Ht; simpl; apply Z.eqb_neq in Ht; now rewrite Ht |].
  split; [intros key v Hkey; now apply lookup_union_Some_l |].
  assert (Hdefault : forall key,
             HttpClient.cfg_headers config !! key = None ->
             (HttpClient.cfg_headers config
                ∪ {[ "Content-Type" := "application/json"; "User-Agent" := "@paylens/sdk" ]})
               !! key
             = ({[ "Content-Type" := "application/json"; "User-Agent" := "@paylens/sdk" ]}
                  : gmap string string) !! key).
  { intros key Hkey. rewrite lookup_union_r by exact Hkey. reflexivity. }
  split; [| split; [| exact Hdefault]].
  - destruct (HttpClient.cfg_headers config !! "Content-Type") as [v |] eqn:Hkey.
    + exists v. now apply lookup_union_Some_l.
    + rewrite (Hdefault _ Hkey). eexists. reflexivity.
  - destruct (HttpClient.cfg_headers config !! "User-Agent") as [v |] eqn:Hkey.
    + exists v. now apply lookup_union_Some_l.
    + rewrite (Hdefault _ Hkey). eexists. reflexivity.
Qed.

(** A retry count of 0 does not switch retries off, and a header of the
    configuration wins. *)
Lemma HttpClient_new_defaults_witness :
  let config :=
    {| HttpClient.baseURL := Some "https://example.com";
       HttpClient.cfg_timeout := Some 5000;
       HttpClient.cfg_retries := Some 0;
       HttpClient.cfg_headers := {[ "Content-Type" := "text/plain" ]} |} in
  exists this : HttpClient.t,
    (HttpClient.new config (Mock.start Mock.empty)).1 = inr this
    /\ HttpClient.retries this = 3
    /\ ax_timeout (HttpClient.client this) = 5000
    /\ ax_headers (HttpClient.client this) !! "Content-Type" = Some "text/plain".
Proof.
  intros config.
  destruct (HttpClient_new_defaults config (Mock.start Mock.empty))
    as (this & Hnew & _ & Hzero & _ & _ & Htimeout & Hheader & _).
  exists this. split; [now rewrite Hnew |].
  split; [apply Hzero; right; reflexivity |].
  split; [apply Htimeout; [reflexivity | discriminate] |].
  apply Hheader. reflexivity.
Defined.

(** ** The adapter: what the constructor establishes *)

Lemma success_true_app l1 l2 :
  success (l1 ++ l2) = true <-> success l1 = true /\ success l2 = true.
Proof. rewrite success_app. apply andb_true_iff. Qed.

(** What the schema accepts. *)
Lemma PeachPaymentsConfigSchema_accepts `{Platform} (c : PeachPaymentsConfig.t) :
  success (PeachPaymentsConfigSchema c) = true ->
  PeachPaymentsConfig.entityId c <> ""
  /\ PeachPaymentsConfig.username c <> ""
  /\ PeachPaymentsConfig.password c <> ""
  /\ (exists e, PeachPaymentsConfig.environment c = Some e /\ In e PeachEnvironment.values)
  /\ (forall t, PeachPaymentsConfig.timeout c = Some t -> 0 < t)
  /\ (forall r, PeachPaymentsConfig.retries c = Some r -> 0 < r)
  /\ (forall u, PeachPaymentsConfig.apiUrl c = Some u -> zod_url u = true).
Proof.
  unfold PeachPaymentsConfigSchema. rewrite !success_true_app, !success_min1.
  intros (Hid & Huser & Hpass & Henv & Htimeout & Hretries & Hurl).
  apply negb_true_iff, String.eqb_neq in Hid, Huser, Hpass.
  repeat (split; [assumption |]).
  split; [| split; [| split]].
  - destruct (PeachPaymentsConfig.environment c) as [e |]; [| discriminate].
    destruct (includes PeachEnvironment.values e) eqn:Hin; [| discriminate].
    exists e. split; [reflexivity | now apply includes_In].
  - intros t Ht. rewrite Ht in Htimeout. simpl in Htimeout.
    destruct (0 <? t) eqn:Hpos; [now apply Z.ltb_lt | discriminate].
  - intros r Hr. rewrite Hr in Hretries. simpl in Hretries.
    destruct (0 <? r) eqn:Hpos; [now apply Z.ltb_lt | discriminate].
  - intros u Hu. rewrite Hu in Hurl. simpl in Hurl.
    destruct (zod_url u); [reflexivity | discriminate].
Qed.

(** Everything a successful construction determines. *)
Lemma new_inversion `{Platform} {W} (config : PeachPaymentsConfig.t)
    (gateway : PeachPaymentsGateway.t) (s s2 : State W) :
  PeachPaymentsGateway.new config s = (inr gateway, s2) ->
  exists (normalized : PeachPaymentsConfig.t) (s1 : State W),
    PeachPaymentsGateway.normalizeConfig config s = (inr normalized, s1)
    /\ success (PeachPaymentsConfigSchema normalized) = true
    /\ PeachPaymentsGateway.peachConfig gateway = normalized
    /\ HttpClient.client (PeachPaymentsGateway.httpClient gateway)
       = {| ax_baseURL := PeachPaymentsGateway.getApiUrlForConfig normalized;
            ax_timeout := or_elseZ (PeachPaymentsConfig.timeout normalized) 30000;
            ax_headers :=
              {[ "Authorization" :=
                   "Basic " +:+ PeachPaymentsGateway.createAuthHeader normalized ]}
                ∪ {[ "Content-Type" := "application/json";
                     "User-Agent" := "@paylens/sdk" ]} |}
    /\ HttpClient.retries (PeachPaymentsGateway.httpClient gateway)
       = or_elseZ (PeachPaymentsConfig.retries normalized) 3
    /\ PeachPaymentsGateway.config gateway
       = {| PaymentGatewayConfig.apiUrl := PeachPaymentsGateway.getApiUrlForConfig normalized;
            PaymentGatewayConfig.sandbox :=
              bool_decide (PeachPaymentsConfig.environment normalized
                           = Some PeachEnvironment.SANDBOX);
            PaymentGatewayConfig.timeout := PeachPaymentsConfig.timeout normalized;
            PaymentGatewayConfig.retries := PeachPaymentsConfig.retries normalized |}
    /\ s2 = mkState (world s1)
              (trace s1
                 ++ [AxiosCreate (ax_baseURL (HttpClient.client
                                                (PeachPaymentsGateway.httpClient gateway)))
                       (ax_timeout (HttpClient.client
                                      (PeachPaymentsGateway.httpClient gateway)))
                       (ax_headers (HttpClient.client
                                      (PeachPaymentsGateway.httpClient gateway)))]).
Proof.
  intros Hnew.
  destruct (normalizeConfig_returns config s) as (normalized & s1 & Hnorm & _).
  exists normalized, s1. split; [exact Hnorm |].
  unfold PeachPaymentsGateway.new in Hnew. unfold mbind at 1 in Hnew.
  unfold M_bind in Hnew. rewrite Hnorm in Hnew.
  destruct (success (PeachPaymentsConfigSchema normalized)); [| discriminate].
  simpl in Hnew. injection Hnew as <- <-. simpl. auto 10.
Qed.

Lemma getApiUrlForConfig_defined `{Platform} (c : PeachPaymentsConfig.t) :
  (exists e, PeachPaymentsConfig.environment c = Some e /\ In e PeachEnvironment.values) ->
  exists url, url <> "" /\ PeachPaymentsGateway.getApiUrlForConfig c = Some url.
Proof.
  intros (e & He & Hin). unfold PeachPaymentsGateway.getApiUrlForConfig.
  destruct (PeachPaymentsConfig.apiUrl c) as [u |] eqn:Hu; simpl.
  - destruct (String.eqb_spec u "") as [-> | Hne]; simpl.
    + rewrite He. destruct Hin as [<- | [<- | []]]; eexists; (split; [| reflexivity]);
        discriminate.
    + exists u. split; [exact Hne | reflexivity].
  - rewrite He. destruct Hin as [<- | [<- | []]]; eexists; (split; [| reflexivity]);
      discriminate.
Qed.

(** X6.  An adapter that the constructor built passes [validateConfig],
    has a defined, non-empty endpoint, the same in its base configuration and
    in its Transport, a positive retry budget and a positive timeout; its
    base configuration says sandbox exactly when its environment is
    [SANDBOX]. *)
Theorem constructed_adapter_valid `{Platform} {W} (config : PeachPaymentsConfig.t)
    (gateway : PeachPaymentsGateway.t) (s s' : State W) :
  PeachPaymentsGateway.new config s = (inr gateway, s') ->
  PeachPaymentsGateway.validateConfig gateway = true
  /\ (exists url,
        url <> ""
        /\ ax_baseURL (HttpClient.client (PeachPaymentsGateway.httpClient gateway)) = Some url
        /\ PaymentGatewayConfig.apiUrl (PeachPaymentsGateway.config gateway) = Some url)
  /\ 0 < HttpClient.retries (PeachPaymentsGateway.httpClient gateway)
  /\ 0 < ax_timeout (HttpClient.client (PeachPaymentsGateway.httpClient gateway))
  /\ (PaymentGatewayConfig.sandbox (PeachPaymentsGateway.config gateway) = true
      <-> PeachPaymentsConfig.environment (PeachPaymentsGateway.peachConfig gateway)
          = Some PeachEnvironment.SANDBOX).
Proof.
  intros Hnew.
  destruct (new_inversion config gateway s s' Hnew)
    as (normalized & s1 & _ & Hschema & Hcfg & Hclient & Hretries & Hbase & _).
  destruct (PeachPaymentsConfigSchema_accepts normalized Hschema)
    as (_ & _ & _ & Henv & Htimeout & Hbudget & _).
  split; [unfold PeachPaymentsGateway.validateConfig; now rewrite Hcfg |].
  split; [| split; [| split]].
  - destruct (getApiUrlForConfig_defined normalized Henv) as (url & Hne & Hurl).
    exists url. rewrite Hclient, Hbase. simpl. auto.
  - rewrite Hretries.
    destruct (PeachPaymentsConfig.retries normalized) as [r |] eqn:Hr; simpl; [| lia].
    specialize (Hbudget r eq_refl). destruct (r =? 0); lia.
  - rewrite Hclient. simpl.
    destruct (PeachPaymentsConfig.timeout normalized) as [t |] eqn:Ht; simpl; [| lia].
    specialize (Htimeout t eq_refl). destruct (t =? 0); lia.
  - rewrite Hbase, Hcfg. simpl. apply bool_decide_eq_true.
Qed.

Lemma constructed_adapter_valid_witness :
  PeachPaymentsGateway.validateConfig Mock.gateway = true
  /\ 0 < HttpClient.retries (PeachPaymentsGateway.httpClient Mock.gateway).
Proof.
  destruct (constructed_adapter_valid Mock.validConfig Mock.gateway
              (Mock.start Mock.empty)
              (PeachPaymentsGateway.new Mock.validConfig (Mock.start Mock.empty)).2)
    as (Hvalid & _ & Hretries & _); [reflexivity |].
  split; [exact Hvalid | exact Hretries].
Defined.

(** Normalization keeps the legacy fields, and leaves a configuration with an
    environment as it is. *)
Lemma normalizeConfig_keeps {W} (config normalized : PeachPaymentsConfig.t)
    (s s1 : State W) :
  PeachPaymentsGateway.normalizeConfig config s = (inr normalized, s1) ->
  PeachPaymentsConfig.sandbox normalized = PeachPaymentsConfig.sandbox config
  /\ PeachPaymentsConfig.apiUrl normalized = PeachPaymentsConfig.apiUrl config
  /\ PeachPaymentsConfig.username normalized = PeachPaymentsConfig.username config
  /\ PeachPaymentsConfig.password normalized = PeachPaymentsConfig.password config
  /\ world s1 = world s
  /\ (s1 = s \/ trace s1 = trace s ++ [legacy_warning])
  /\ (truthy (PeachPaymentsConfig.environment config) = true -> normalized = config).
Proof.
  destruct (PeachPaymentsGateway.is_legacy config) eqn:Hlegacy.
  - rewrite (normalizeConfig_legacy config s Hlegacy). intros [= <- <-]. simpl.
    repeat (split; [reflexivity |]). split; [now right |].
    intros Henv. unfold PeachPaymentsGateway.is_legacy in Hlegacy.
    rewrite Henv, andb_false_r in Hlegacy. discriminate.
  - rewrite (normalizeConfig_modern config s Hlegacy). intros [= <- <-].
    repeat (split; [reflexivity |]). split; [now left | reflexivity].
Qed.

(** X7.  Building an adapter sends no request and leaves the world alone;
    the Transport it builds carries the header [Authorization: Basic] followed
    by the base64 of [username:password], and the JSON content type. *)
Theorem constructed_adapter_transport `{Platform} {W} (config : PeachPaymentsConfig.t)
    (gateway : PeachPaymentsGateway.t) (s s' : State W) :
  PeachPaymentsGateway.new config s = (inr gateway, s') ->
  let client := HttpClient.client (PeachPaymentsGateway.httpClient gateway) in
  world s' = world s
  /\ List.filter is_HttpRequest (trace s') = List.filter is_HttpRequest (trace s)
  /\ List.filter is_AxiosCreate (trace s')
     = List.filter is_AxiosCreate (trace s)
         ++ [AxiosCreate (ax_baseURL client) (ax_timeout client) (ax_headers client)]
  /\ ax_headers client !! "Authorization"
     = Some ("Basic " +:+ base64 (PeachPaymentsConfig.username config +:+ ":"
                                    +:+ PeachPaymentsConfig.password config))
  /\ ax_headers client !! "Content-Type" = Some "application/json"
  /\ ax_headers client !! "User-Agent" = Some "@paylens/sdk".
Proof.
  intros Hnew client. subst client.
  destruct (new_inversion config gateway s s' Hnew)
    as (normalized & s1 & Hnorm & _ & _ & Hclient & _ & _ & ->).
  destruct (normalizeConfig_keeps config normalized s s1 Hnorm)
    as (_ & _ & Huser & Hpass & Hworld & Htrace & _).
  split; [exact Hworld |]. simpl.
  rewrite !List.filter_app. simpl.
  assert (Hreq : List.filter is_HttpRequest (trace s1) = List.filter is_HttpRequest (trace s)
                 /\ List.filter is_AxiosCreate (trace s1)
                    = List.filter is_AxiosCreate (trace s)).
  { destruct Htrace as [-> | ->]; [auto |].
    rewrite !List.filter_app. simpl. now rewrite !app_nil_r. }
  destruct Hreq as [-> ->].
  split; [now rewrite app_nil_r |]. split; [reflexivity |].
  rewrite Hclient. simpl.
  split; [| split].
  - apply lookup_union_Some_l. rewrite lookup_singleton_eq.
    unfold PeachPaymentsGateway.createAuthHeader. now rewrite Huser, Hpass.
  - rewrite lookup_union_r by (apply lookup_singleton_ne; discriminate). reflexivity.
  - rewrite lookup_union_r by (apply lookup_singleton_ne; discriminate). reflexivity.
Qed.

Lemma constructed_adapter_transport_witness :
  ax_headers (HttpClient.client (PeachPaymentsGateway.httpClient Mock.gateway))
    !! "Authorization"
  = Some "Basic test-user:test-password".
Proof.
  destruct (constructed_adapter_transport Mock.validConfig Mock.gateway
              (Mock.start Mock.empty)
              (PeachPaymentsGateway.new Mock.validConfig (Mock.start Mock.empty)).2)
    as (_ & _ & _ & Hauth & _); [reflexivity |].
  exact Hauth.
Defined.

(** X8.  The constructor of the adapter throws exactly when the schema
    rejects the normalized configuration; what it throws is a
    [ValidationError] without field or cause, and up to the throw it built no
    Transport and left the world alone. *)
Theorem adapter_constructor_failure `{Platform} {W} (config : PeachPaymentsConfig.t)
    (s : State W) :
  exists (normalized : PeachPaymentsConfig.t) (s1 : State W),
    PeachPaymentsGateway.normalizeConfig config s = (inr normalized, s1)
    /\ ((exists gateway s2, PeachPaymentsGateway.new config s = (inr gateway, s2))
        <-> success (PeachPaymentsConfigSchema normalized) = true)
    /\ (forall (thrown : Thrown) (s' : State W),
          PeachPaymentsGateway.new config s = (inl thrown, s') ->
          thrown = ValidationError
                     ("Invalid Peach Payments configuration: "
                        +:+ zod_message (PeachPaymentsConfigSchema normalized))
                     None None
          /\ success (PeachPaymentsConfigSchema normalized) = false
          /\ world s' = world s
          /\ no_transport_built s s').
Proof.
  destruct (normalizeConfig_returns config s)
    as (normalized & s1 & Hnorm & _ & _ & _ & _ & Hworld & Htrace).
  exists normalized, s1. split; [exact Hnorm |].
  destruct (success (PeachPaymentsConfigSchema normalized)) eqn:Hschema.
  - destruct (new_valid config normalized s s1 Hnorm Hschema) as (gateway & s2 & Hnew & _).
    split; [split; eauto |].
    intros thrown s' Hfail. rewrite Hnew in Hfail. discriminate.
  - pose proof (new_invalid config normalized s s1 Hnorm Hschema) as Hnew.
    split.
    + split; [| discriminate]. intros (gateway & s2 & Hok). rewrite Hnew in Hok. discriminate.
    + intros thrown s' Hfail. rewrite Hnew in Hfail. injection Hfail as <- <-. auto.
Qed.

(** A retry count of 0 is rejected. *)
Lemma adapter_constructor_failure_witness :
  let config :=
    {| PeachPaymentsConfig.entityId := "test-entity-123";
       PeachPaymentsConfig.username := "test-user";
       PeachPaymentsConfig.password := "test-password";
       PeachPaymentsConfig.environment := Some PeachEnvironment.PRODUCTION;
       PeachPaymentsConfig.timeout := None;
       PeachPaymentsConfig.retries := Some 0;
       PeachPaymentsConfig.apiUrl := None;
       PeachPaymentsConfig.sandbox := None |} in
  PeachPaymentsGateway.new config (Mock.start Mock.empty)
  = (inl (ValidationError "Invalid Peach Payments configuration: retries" None None),
     Mock.start Mock.empty).
Proof.
  intros config.
  destruct (adapter_constructor_failure config (Mock.start Mock.empty))
    as (normalized & s1 & Hnorm & _ & Hfail).
  injection Hnorm as <- <-.
  destruct (Hfail (ValidationError "Invalid Peach Payments configuration: retries" None None)
              (Mock.start Mock.empty)) as (_ & _ & _ & _); reflexivity.
Defined.

(** X9.  Without an [apiUrl], the endpoint of a constructed adapter is the
    entry of the URL table for its environment: the test URL for [SANDBOX],
    the live URL for [PRODUCTION]. *)
Theorem modern_config_endpoint `{Platform} {W} (config : PeachPaymentsConfig.t)
    (gateway : PeachPaymentsGateway.t) (s s' : State W) :
  PeachPaymentsGateway.new config s = (inr gateway, s') ->
  truthy (PeachPaymentsConfig.apiUrl config) = false ->
  let endpoint := ax_baseURL (HttpClient.client (PeachPaymentsGateway.httpClient gateway)) in
  PeachPaymentsConfig.environment (PeachPaymentsGateway.peachConfig gateway)
  = PeachPaymentsConfig.environment config
  /\ ((PeachPaymentsConfig.environment config = Some PeachEnvironment.SANDBOX
       /\ endpoint = Some "https://testapi-v2.peachpayments.com")
      \/ (PeachPaymentsConfig.environment config = Some PeachEnvironment.PRODUCTION
          /\ endpoint = Some "https://api-v2.peachpayments.com")).
Proof.
  intros Hnew Hurl endpoint. subst endpoint.
  destruct (new_inversion config gateway s s' Hnew)
    as (normalized & s1 & Hnorm & Hschema & Hcfg & Hclient & _).
  assert (Hlegacy : PeachPaymentsGateway.is_legacy config = false).
  { unfold PeachPaymentsGateway.is_legacy. now rewrite Hurl. }
  rewrite (normalizeConfig_modern config s Hlegacy) in Hnorm. injection Hnorm as <- <-.
  destruct (PeachPaymentsConfigSchema_accepts config Hschema)
    as (_ & _ & _ & (e & He & Hin) & _).
  rewrite Hcfg, Hclient. simpl. split; [reflexivity |].
  unfold PeachPaymentsGateway.getApiUrlForConfig. rewrite Hurl, He.
  destruct Hin as [<- | [<- | []]]; [left | right]; split; reflexivity.
Qed.

Lemma modern_config_endpoint_witness :
  ax_baseURL (HttpClient.client (PeachPaymentsGateway.httpClient Mock.gateway))
  = Some "https://testapi-v2.peachpayments.com".
Proof.
  destruct (modern_config_endpoint Mock.validConfig Mock.gateway
              (Mock.start Mock.empty)
              (PeachPaymentsGateway.new Mock.validConfig (Mock.start Mock.empty)).2)
    as (_ & [[_ Hsandbox] | [Hprod _]]); [reflexivity | reflexivity | | discriminate].
  exact Hsandbox.
Defined.

(** X10.  Normalization is idempotent: a normalized configuration is left
    as it is, without a second warning.  A configuration that has an
    environment is never changed, whatever its legacy fields say. *)
Theorem normalizeConfig_idempotent {W} (config : PeachPaymentsConfig.t) (s : State W) :
  exists (normalized : PeachPaymentsConfig.t) (s1 : State W),
    PeachPaymentsGateway.normalizeConfig config s = (inr normalized, s1)
    /\ PeachPaymentsGateway.normalizeConfig normalized s1 = (inr normalized, s1)
    /\ (truthy (PeachPaymentsConfig.environment config) = true ->
        normalized = config /\ s1 = s).
Proof.
  destruct (PeachPaymentsGateway.is_legacy config) eqn:Hlegacy.
  - eexists _, _. split; [now apply normalizeConfig_legacy |]. split.
    + apply normalizeConfig_modern. unfold PeachPaymentsGateway.is_legacy. simpl.
      destruct (default false (PeachPaymentsConfig.sandbox config)); simpl;
        now rewrite andb_false_r.
    + intros Henv. unfold PeachPaymentsGateway.is_legacy in Hlegacy.
      rewrite Henv, andb_false_r in Hlegacy. discriminate.
  - exists config, s. split; [now apply normalizeConfig_modern |].
    split; [now apply normalizeConfig_modern | auto].
Qed.

(** An environment that is given wins over a contradicting [sandbox] flag. *)
Lemma normalizeConfig_idempotent_witness :
  let config :=
    {| PeachPaymentsConfig.entityId := "test-entity-123";
       PeachPaymentsConfig.username := "test-user";
       PeachPaymentsConfig.password := "test-password";
       PeachPaymentsConfig.environment := Some PeachEnvironment.PRODUCTION;
       PeachPaymentsConfig.timeout := None;
       PeachPaymentsConfig.retries := None;
       PeachPaymentsConfig.apiUrl := Some "https://legacy.example.com";
       PeachPaymentsConfig.sandbox := Some true |} in
  PeachPaymentsGateway.normalizeConfig config (Mock.start Mock.empty)
  = (inr config, Mock.start Mock.empty).
Proof.
  intros config.
  destruct (normalizeConfig_idempotent config (Mock.start Mock.empty))
    as (normalized & s1 & Hnorm & _ & Hkeep).
  destruct Hkeep as [-> ->]; [reflexivity | exact Hnorm].
Defined.

(** ** The adapter: mappings *)

Lemma mapPaymentStatus_range code :
  In (PeachPaymentsGateway.mapPaymentStatus code) adapter_statuses.
Proof.
  unfold PeachPaymentsGateway.mapPaymentStatus, adapter_statuses.
  destruct (includes SUCCESS_CODES code); [in_list |].
  destruct (includes PENDING_CODES code); [in_list |].
  destruct (includes REJECTED_CODES code); [in_list |].
  destruct (includes ERROR_CODES code); in_list.
Qed.

(** X11.  The adapter reports no status but [PENDING], [PROCESSING],
    [COMPLETED] and [FAILED]: neither a payment nor a refund response of any
    of its four mappings is ever [CANCELLED], [REFUNDED] or
    [PARTIALLY_REFUNDED], whatever the gateway answered. *)
Theorem adapter_status_range `{Platform} :
  (forall code, In (PeachPaymentsGateway.mapPaymentStatus code) adapter_statuses)
  /\ (forall r q, In (PaymentResponse.status (PeachPaymentsGateway.mapToPaymentResponse r q))
                     adapter_statuses)
  /\ (forall r, In (PaymentResponse.status (PeachPaymentsGateway.mapStatusToPaymentResponse r))
                   adapter_statuses)
  /\ (forall r q, In (RefundResponse.status (PeachPaymentsGateway.mapToRefundResponse r q))
                     adapter_statuses)
  /\ (forall r, In (RefundResponse.status (PeachPaymentsGateway.mapStatusToRefundResponse r))
                   adapter_statuses)
  /\ ~ In CANCELLED adapter_statuses
  /\ ~ In REFUNDED adapter_statuses
  /\ ~ In PARTIALLY_REFUNDED adapter_statuses.
Proof.
  split; [exact mapPaymentStatus_range |].
  repeat (split; [intros; apply mapPaymentStatus_range |]).
  unfold adapter_statuses. simpl. intuition discriminate.
Qed.

(** X12.  The payment method read off a payment brand is always one of the
    methods the adapter supports, and is [card] when the brand is missing or
    empty; the transaction type sent for a method is ["DD"] for [eft] and
    ["DB"] for every other method, supported or not. *)
Theorem brand_and_type_mapping :
  (forall brand : option string,
     In (PeachPaymentsGateway.mapPaymentBrandToMethod brand)
        PeachPaymentsGateway.supportedMethods)
  /\ PeachPaymentsGateway.mapPaymentBrandToMethod None = PaymentMethod.CARD
  /\ PeachPaymentsGateway.mapPaymentBrandToMethod (Some "") = PaymentMethod.CARD
  /\ (forall method : string,
        (method = PaymentMethod.EFT /\ PeachPaymentsGateway.getPaymentType method = "DD")
        \/ (method <> PaymentMethod.EFT /\ PeachPaymentsGateway.getPaymentType method = "DB")).
Proof.
  split; [| split; [reflexivity | split; [reflexivity |]]].
  - intros brand. unfold PeachPaymentsGateway.mapPaymentBrandToMethod,
      PeachPaymentsGateway.supportedMethods.
    destruct (negb (truthy brand)); [in_list |].
    destruct (_ || _); [in_list |].
    destruct (_ || _); [in_list |].
    destruct (_ || _); in_list.
  - intros method. unfold PeachPaymentsGateway.getPaymentType.
    destruct (String.eqb_spec method PaymentMethod.CARD) as [-> | _];
      [right; split; [discriminate | reflexivity] |].
    destruct (String.eqb_spec method PaymentMethod.EFT) as [-> | Hne];
      [left; split; reflexivity |].
    right. split; [exact Hne |].
    destruct (String.eqb method PaymentMethod.MOBILE_WALLET); reflexivity.
Qed.

Lemma is_Some_bind_Some {A B} (o : option A) (f : A -> B) :
  is_Some (x ← o; Some (f x)) <-> is_Some o.
Proof. destruct o; simpl; split; intros [y Hy]; (discriminate || eauto). Qed.

(** What the mapping of a payment request determines. *)
Lemma mapToPaymentRequest_inversion `{Platform} {W} `{Runtime W}
    (this : PeachPaymentsGateway.t) (request : PaymentRequest.t)
    (wire : PeachPaymentRequest.t) (s s' : State W) :
  PeachPaymentsGateway.mapToPaymentRequest this request s = (inr wire, s') ->
  PeachPaymentRequest.testMode wire = PeachPaymentsGateway.testMode this
  /\ PeachPaymentRequest.entityId wire
     = PeachPaymentsConfig.entityId (PeachPaymentsGateway.peachConfig this)
  /\ (is_Some (PeachPaymentRequest.customer wire) <-> is_Some (PaymentRequest.customer request))
  /\ (is_Some (PeachPaymentRequest.billing wire)
      <-> is_Some (PaymentRequest.billingAddress request))
  /\ (is_Some (PeachPaymentRequest.card wire) <-> is_Some (PaymentRequest.cardDetails request))
  /\ PeachPaymentRequest.card wire
     = (c ← PaymentRequest.cardDetails request;
        Some {| PeachCard.number := CardDetails.number c;
                PeachCard.holder := or_else (CardDetails.holderName c) "";
                PeachCard.expiryMonth := CardDetails.expiryMonth c;
                PeachCard.expiryYear := CardDetails.expiryYear c;
                PeachCard.cvv := CardDetails.cvv c |})
  /\ PeachPaymentRequest.shopperResultUrl wire
     = (if truthy (PaymentRequest.returnUrl request)
        then PaymentRequest.returnUrl request else None)
  /\ PeachPaymentRequest.notificationUrl wire
     = (if truthy (PaymentRequest.webhookUrl request)
        then PaymentRequest.webhookUrl request else None)
  /\ (truthy (PaymentRequest.reference request) = true ->
      PeachPaymentRequest.merchantTransactionId wire = PaymentRequest.reference request
      /\ s' = s)
  /\ (truthy (PaymentRequest.reference request) = false ->
      PeachPaymentRequest.merchantTransactionId wire
      = Some ("peachpayments-" +:+ string_of_Z (Date_now (world s)).1 +:+ "-"
                +:+ String.substring 2 6
                      (Math_random_toString36 (Date_now (world s)).2).1)
      /\ s' = mkState (Math_random_toString36 (Date_now (world s)).2).2 (trace s)).
Proof.
  unfold PeachPaymentsGateway.mapToPaymentRequest. run.
  destruct (truthy (PaymentRequest.reference request)) eqn:Href.
  - intros [= <- <-]. simpl.
    do 2 (split; [reflexivity |]). do 3 (split; [apply is_Some_bind_Some |]).
    do 3 (split; [reflexivity |]).
    split; [| discriminate].
    intros _. split; [| reflexivity].
    destruct (PaymentRequest.reference request); [reflexivity | discriminate].
  - unfold BasePaymentGateway.generateReference.
    destruct (Date_now (world s)) as [timestamp w1] eqn:Hnow.
    destruct (Math_random_toString36 w1) as [r w2] eqn:Hrandom.
    intros [= <- <-]. simpl.
    do 2 (split; [reflexivity |]). do 3 (split; [apply is_Some_bind_Some |]).
    do 3 (split; [reflexivity |]).
    split; [discriminate |].
    intros _. rewrite Hrandom. split; reflexivity.
Qed.

Lemma substring_length_le (n m : nat) (s : string) :
  (String.length (String.substring n m s) <= m)%nat.
Proof.
  revert n m. induction s as [| c s IH]; intros n m.
  - destruct n, m; simpl; lia.
  - destruct n as [| n]; simpl.
    + destruct m as [| m]; simpl; [lia |]. specialize (IH 0%nat m). lia.
    + apply IH.
Qed.

(** X13.  Mapping a payment request always yields a wire request and adds
    no event.  A non-empty [reference] becomes the [merchantTransactionId] as it
    is, and neither the clock nor the random generator is consulted; a missing
    or empty one is replaced by ["peachpayments-"], the clock's milliseconds, a
    dash and at most six characters of the random number in base 36. *)
Theorem reference_policy `{Platform} {W} `{Runtime W}
    (this : PeachPaymentsGateway.t) (request : PaymentRequest.t) (s : State W) :
  exists (wire : PeachPaymentRequest.t) (s' : State W),
    PeachPaymentsGateway.mapToPaymentRequest this request s = (inr wire, s')
    /\ trace s' = trace s
    /\ (forall ref, PaymentRequest.reference request = Some ref -> ref <> "" ->
        PeachPaymentRequest.merchantTransactionId wire = Some ref /\ s' = s)
    /\ (PaymentRequest.reference request = None
        \/ PaymentRequest.reference request = Some "" ->
        exists suffix,
          PeachPaymentRequest.merchantTransactionId wire
          = Some ("peachpayments-" +:+ string_of_Z (Date_now (world s)).1 +:+ "-"
                    +:+ suffix)
          /\ suffix
             = String.substring 2 6 (Math_random_toString36 (Date_now (world s)).2).1
          /\ (String.length suffix <= 6)%nat
          /\ world s' = (Math_random_toString36 (Date_now (world s)).2).2).
Proof.
  destruct (mapToPaymentRequest_returns this request s) as (wire & s' & Hmap & _ & _ & _ & Htrace).
  exists wire, s'. split; [exact Hmap |]. split; [exact Htrace |].
  destruct (mapToPaymentRequest_inversion this request wire s s' Hmap)
    as (_ & _ & _ & _ & _ & _ & _ & _ & Hgiven & Hgenerated).
  split.
  - intros ref Href Hne. rewrite <- Href. apply Hgiven. rewrite Href. simpl.
    apply String.eqb_neq in Hne. now rewrite Hne.
  - intros Hmissing.
    assert (Hfalsy : truthy (PaymentRequest.reference request) = false)
      by (destruct Hmissing as [-> | ->]; reflexivity).
    destruct (Hgenerated Hfalsy) as [Hid ->].
    eexists. split; [exact Hid |]. split; [reflexivity |].
    split; [apply substring_length_le | reflexivity].
Qed.

Lemma reference_policy_witness :
  exists (wire : PeachPaymentRequest.t) (s' : State Mock.World),
    PeachPaymentsGateway.mapToPaymentRequest Mock.gateway
      (Mock.validPaymentRequest PaymentMethod.CARD) (Mock.start Mock.empty)
    = (inr wire, s')
    /\ exists suffix,
         PeachPaymentRequest.merchantTransactionId wire
         = Some ("peachpayments-" +:+ string_of_Z 1700000000000 +:+ "-" +:+ suffix)
         /\ suffix = "4fzyo8".
Proof.
  destruct (reference_policy Mock.gateway (Mock.validPaymentRequest PaymentMethod.CARD)
              (Mock.start Mock.empty))
    as (wire & s' & Hmap & _ & _ & Hgenerated).
  exists wire, s'. split; [exact Hmap |].
  destruct Hgenerated as (suffix & Hid & Hsuffix & _); [left; reflexivity |].
  exists suffix. split; [exact Hid | exact Hsuffix].
Defined.

(** X14.  The wire request carries a customer, a billing address and a
    card exactly when the canonical request has them, and a result URL and a
    notification URL exactly when the canonical request has non-empty ones; a
    card without holder name is sent with an empty holder. *)
Theorem optional_substructures `{Platform} {W} `{Runtime W}
    (this : PeachPaymentsGateway.t) (request : PaymentRequest.t)
    (wire : PeachPaymentRequest.t) (s s' : State W) :
  PeachPaymentsGateway.mapToPaymentRequest this request s = (inr wire, s') ->
  (is_Some (PeachPaymentRequest.customer wire) <-> is_Some (PaymentRequest.customer request))
  /\ (is_Some (PeachPaymentRequest.billing wire)
      <-> is_Some (PaymentRequest.billingAddress request))
  /\ (is_Some (PeachPaymentRequest.card wire) <-> is_Some (PaymentRequest.cardDetails request))
  /\ (forall url, PeachPaymentRequest.shopperResultUrl wire = Some url
                  <-> PaymentRequest.returnUrl request = Some url /\ url <> "")
  /\ (forall url, PeachPaymentRequest.notificationUrl wire = Some url
                  <-> PaymentRequest.webhookUrl request = Some url /\ url <> "")
  /\ (forall c wired, PaymentRequest.cardDetails request = Some c ->
        PeachPaymentRequest.card wire = Some wired ->
        PeachCard.number wired = CardDetails.number c
        /\ PeachCard.cvv wired = CardDetails.cvv c
        /\ (CardDetails.holderName c = None -> PeachCard.holder wired = "")).
Proof.
  intros Hmap.
  destruct (mapToPaymentRequest_inversion this request wire s s' Hmap)
    as (_ & _ & Hcustomer & Hbilling & Hcard & Hcardv & Hreturn & Hnotify & _).
  assert (Hurl : forall (field : option string) (url : string),
             (if truthy field then field else None) = Some url
             <-> field = Some url /\ url <> "").
  { intros [u |] url; simpl.
    - destruct (String.eqb_spec u "") as [-> | Hne]; simpl.
      + split; [discriminate | intros [[= <-] Hne]; congruence].
      + split; [intros [= <-]; auto | intros [[= <-] _]; reflexivity].
    - split; [discriminate | intros [? _]; discriminate]. }
  split; [exact Hcustomer |]. split; [exact Hbilling |]. split; [exact Hcard |].
  split; [intros url; rewrite Hreturn; apply Hurl |].
  split; [intros url; rewrite Hnotify; apply Hurl |].
  intros c wired Hc Hwired. rewrite Hcardv, Hc in Hwired. simpl in Hwired.
  injection Hwired as <-. simpl. split; [reflexivity |]. split; [reflexivity |].
  now intros ->.
Qed.

Lemma optional_substructures_witness :
  exists (wire : PeachPaymentRequest.t) (s' : State Mock.World),
    PeachPaymentsGateway.mapToPaymentRequest Mock.gateway
      (Mock.validPaymentRequest PaymentMethod.CARD) (Mock.start Mock.empty)
    = (inr wire, s')
    /\ is_Some (PeachPaymentRequest.card wire)
    /\ ~ is_Some (PeachPaymentRequest.billing wire).
Proof.
  destruct (mapToPaymentRequest_returns Mock.gateway
              (Mock.validPaymentRequest PaymentMethod.CARD) (Mock.start Mock.empty))
    as (wire & s' & Hmap & _).
  exists wire, s'. split; [exact Hmap |].
  destruct (optional_substructures Mock.gateway (Mock.validPaymentRequest PaymentMethod.CARD)
              wire (Mock.start Mock.empty) s' Hmap)
    as (_ & Hbilling & Hcard & _).
  split.
  - apply Hcard. simpl. eauto.
  - intros Hsome. apply Hbilling in Hsome. simpl in Hsome. now apply is_Some_None in Hsome.
Defined.

(** X15.  Wire requests of a constructed adapter carry the test mode
    ["EXTERNAL"] exactly when the configuration has the legacy flag
    [sandbox: true]; with the environment [SANDBOX] and no legacy flag they
    carry none. *)
Theorem testMode_follows_legacy_flag `{Platform} {W} `{Runtime W}
    (config : PeachPaymentsConfig.t) (gateway : PeachPaymentsGateway.t)
    (s0 s1 : State W) :
  PeachPaymentsGateway.new config s0 = (inr gateway, s1) ->
  let expected :=
    if default false (PeachPaymentsConfig.sandbox config) then Some "EXTERNAL" else None in
  (forall request : RefundRequest.t,
     PeachRefundRequest.testMode (PeachPaymentsGateway.mapToRefundRequest gateway request)
     = expected)
  /\ (forall (request : PaymentRequest.t) (wire : PeachPaymentRequest.t) (s s' : State W),
        PeachPaymentsGateway.mapToPaymentRequest gateway request s = (inr wire, s') ->
        PeachPaymentRequest.testMode wire = expected)
  /\ (expected = Some "EXTERNAL" <-> PeachPaymentsConfig.sandbox config = Some true)
  /\ (PeachPaymentsConfig.sandbox config = None -> expected = None).
Proof.
  intros Hnew expected.
  destruct (new_inversion config gateway s0 s1 Hnew)
    as (normalized & s' & Hnorm & _ & Hcfg & _).
  destruct (normalizeConfig_keeps config normalized s0 s' Hnorm) as (Hsandbox & _).
  assert (Hmode : PeachPaymentsGateway.testMode gateway = expected).
  { unfold PeachPaymentsGateway.testMode, expected. now rewrite Hcfg, Hsandbox. }
  split; [intros request; exact Hmode |].
  split.
  - intros request wire s s'' Hmap.
    destruct (mapToPaymentRequest_inversion gateway request wire s s'' Hmap) as (Htest & _).
    now rewrite Htest.
  - unfold expected.
    destruct (PeachPaymentsConfig.sandbox config) as [[] |]; simpl;
      split; try split; (reflexivity || discriminate).
Qed.

(** The adapter of the valid configuration: environment [SANDBOX], no flag. *)
Lemma testMode_follows_legacy_flag_witness :
  PeachRefundRequest.testMode
    (PeachPaymentsGateway.mapToRefundRequest Mock.gateway (Mock.refundRequest None))
  = None.
Proof.
  destruct (testMode_follows_legacy_flag Mock.validConfig Mock.gateway
              (Mock.start Mock.empty)
              (PeachPaymentsGateway.new Mock.validConfig (Mock.start Mock.empty)).2)
    as (Hrefund & _); [reflexivity |].
  exact (Hrefund (Mock.refundRequest None)).
Defined.

(** ** The adapter: failures and answers *)

Lemma responseInterceptor_is_Error (error : AxiosError) :
  let failure := HttpClient.responseInterceptor error in
  instanceofNetworkError failure = true
  /\ instanceofValidationError failure = false
  /\ message_or_unknown failure = message_of failure
  /\ cause_of failure = Some failure.
Proof.
  unfold HttpClient.responseInterceptor.
  destruct (ae_response error); [simpl; auto |].
  destruct (ae_request error); simpl; auto.
Qed.

Lemma get_failure_intercepted {W T} (this : HttpClient.t) (url : string)
    (send : AxiosInstance -> string -> W -> AxiosOutcome T * W)
    (s s' : State W) (failure : Thrown) :
  HttpClient.get this url send s = (inl failure, s') ->
  exists error, failure = HttpClient.responseInterceptor error.
Proof. apply call_failure_intercepted. Qed.

Lemma post_failure_intercepted {W T D} (this : HttpClient.t) (url : string) (body : D)
    (send : AxiosInstance -> string -> D -> W -> AxiosOutcome T * W)
    (s s' : State W) (failure : Thrown) :
  HttpClient.post this url body send s = (inl failure, s') ->
  exists error, failure = HttpClient.responseInterceptor error.
Proof. apply call_failure_intercepted. Qed.

(** X16.  Whatever the payment operations of the adapter throw is a
    [PaymentError] whose cause is the [NetworkError] of the transport and
    whose message quotes it; [getPaymentStatus] adds the payment id,
    [processPayment] none.  No gateway code is attached, and no
    [ValidationError] leaves [processPayment]. *)
Theorem payment_failures_wrapped `{Platform} {W} `{Runtime W}
    (this : PeachPaymentsGateway.t) :
  (forall (request : PaymentRequest.t) (s s' : State W) (thrown : Thrown),
     PeachPaymentsGateway.processPayment this request s = (inl thrown, s') ->
     exists cause,
       instanceofNetworkError cause = true
       /\ thrown = PaymentError ("Payment processing failed: " +:+ message_of cause)
                     None None (Some cause))
  /\ (forall (paymentId : string) (s s' : State W) (thrown : Thrown),
        PeachPaymentsGateway.getPaymentStatus this paymentId s = (inl thrown, s') ->
        exists cause,
          instanceofNetworkError cause = true
          /\ thrown = PaymentError ("Failed to get payment status: " +:+ message_of cause)
                        (Some paymentId) None (Some cause)).
Proof.
  split.
  - intros request s s' thrown.
    destruct (mapToPaymentRequest_returns this request s) as (wire & s1 & Hmap & _).
    unfold PeachPaymentsGateway.processPayment. run. rewrite Hmap.
    destruct (HttpClient.post _ _ _ _ s1) as [[failure | response] s2] eqn:Hpost;
      [| discriminate].
    destruct (post_failure_intercepted _ _ _ _ _ _ _ Hpost) as [error ->].
    destruct (responseInterceptor_is_Error error) as (Hnet & Hval & Hmsg & Hcause).
    rewrite Hval, Hmsg, Hcause. intros [= <- _]. eauto.
  - intros paymentId s s' thrown.
    unfold PeachPaymentsGateway.getPaymentStatus. run.
    destruct (HttpClient.get _ _ _ s) as [[failure | response] s2] eqn:Hget;
      [| discriminate].
    destruct (get_failure_intercepted _ _ _ _ _ _ Hget) as [error ->].
    destruct (responseInterceptor_is_Error error) as (Hnet & _ & Hmsg & Hcause).
    rewrite Hmsg, Hcause. intros [= <- _]. eauto.
Qed.

(** The gateway answers the status request with 404. *)
Lemma payment_failures_wrapped_witness :
  exists cause,
    instanceofNetworkError cause = true
    /\ (PeachPaymentsGateway.getPaymentStatus Mock.gateway "payment-123"
          (Mock.start Mock.missing)).1
       = inl (PaymentError ("Failed to get payment status: " +:+ message_of cause)
                (Some "payment-123") None (Some cause)).
Proof.
  destruct (proj2 (payment_failures_wrapped Mock.gateway) "payment-123"
              (Mock.start Mock.missing)
              (PeachPaymentsGateway.getPaymentStatus Mock.gateway "payment-123"
                 (Mock.start Mock.missing)).2
              (PaymentError "Failed to get payment status: HTTP 404: Request failed"
                 (Some "payment-123") None
                 (Some (NetworkError "HTTP 404: Request failed" (Some 404) (Some "") None))))
    as (cause & Hnet & Hthrown); [reflexivity |].
  exists cause. split; [exact Hnet |]. rewrite <- Hthrown. reflexivity.
Defined.

(** X17.  Whatever the refund operations of the adapter throw is a
    [RefundError] whose cause is the [NetworkError] of the transport:
    [processRefund] attaches the payment id of the request and no refund id,
    [getRefundStatus] the refund id and no payment id. *)
Theorem refund_failures_wrapped `{Platform} {W} `{Runtime W}
    (this : PeachPaymentsGateway.t) :
  (forall (request : RefundRequest.t) (s s' : State W) (thrown : Thrown),
     PeachPaymentsGateway.processRefund this request s = (inl thrown, s') ->
     exists cause,
       instanceofNetworkError cause = true
       /\ thrown = RefundError ("Refund processing failed: " +:+ message_of cause)
                     (Some (RefundRequest.paymentId request)) None None (Some cause))
  /\ (forall (refundId : string) (s s' : State W) (thrown : Thrown),
        PeachPaymentsGateway.getRefundStatus this refundId s = (inl thrown, s') ->
        exists cause,
          instanceofNetworkError cause = true
          /\ thrown = RefundError ("Failed to get refund status: " +:+ message_of cause)
                        None (Some refundId) None (Some cause)).
Proof.
  split.
  - intros request s s' thrown.
    unfold PeachPaymentsGateway.processRefund. run.
    destruct (HttpClient.post _ _ _ _ s) as [[failure | response] s2] eqn:Hpost;
      [| discriminate].
    destruct (post_failure_intercepted _ _ _ _ _ _ _ Hpost) as [error ->].
    destruct (responseInterceptor_is_Error error) as (Hnet & _ & Hmsg & Hcause).
    rewrite Hmsg, Hcause. intros [= <- _]. eauto.
  - intros refundId s s' thrown.
    unfold PeachPaymentsGateway.getRefundStatus. run.
    destruct (HttpClient.get _ _ _ s) as [[failure | response] s2] eqn:Hget;
      [| discriminate].
    destruct (get_failure_intercepted _ _ _ _ _ _ Hget) as [error ->].
    destruct (responseInterceptor_is_Error error) as (Hnet & _ & Hmsg & Hcause).
    rewrite Hmsg, Hcause. intros [= <- _]. eauto.
Qed.

(** The gateway is down: the refund is refused after three requests. *)
Lemma refund_failures_wrapped_witness :
  exists cause,
    instanceofNetworkError cause = true
    /\ (PeachPaymentsGateway.processRefund Mock.gateway (Mock.refundRequest None)
          (Mock.start Mock.empty)).1
       = inl (RefundError ("Refund processing failed: " +:+ message_of cause)
                (Some (RefundRequest.paymentId (Mock.refundRequest None))) None None
                (Some cause)).
Proof.
  destruct (proj1 (refund_failures_wrapped Mock.gateway) (Mock.refundRequest None)
              (Mock.start Mock.empty)
              (PeachPaymentsGateway.processRefund Mock.gateway (Mock.refundRequest None)
                 (Mock.start Mock.empty)).2
              (RefundError "Refund processing failed: No response received from server"
                 (Some "payment-123") None None
                 (Some (NetworkError "No response received from server" None None
                          (Some (JsError "timeout of 30000ms exceeded"))))))
    as (cause & Hnet & Hthrown); [reflexivity |].
  exists cause. split; [exact Hnet |]. rewrite <- Hthrown. reflexivity.
Defined.

(** X18.  [processPayment] of the adapter returns exactly when the
    transport returned an answer of the gateway, and then returns the mapping
    of that answer: an answer with a rejected or an error code is not thrown
    but returned, with status [FAILED] and the gateway's description as
    failure reason. *)
Theorem declined_payment_is_returned `{Platform} {W} `{Runtime W}
    (this : PeachPaymentsGateway.t) (request : PaymentRequest.t)
    (wire : PeachPaymentRequest.t) (s s1 : State W) :
  PeachPaymentsGateway.mapToPaymentRequest this request s = (inr wire, s1) ->
  forall (response : PaymentResponse.t) (s' : State W),
    PeachPaymentsGateway.processPayment this request s = (inr response, s')
    <-> exists peachResponse : PeachPaymentResponse.t,
          HttpClient.post (PeachPaymentsGateway.httpClient this) "/payments" wire
            axios_post_payment s1
          = (inr peachResponse, s')
          /\ response = PeachPaymentsGateway.mapToPaymentResponse peachResponse request
          /\ PaymentResponse.id response = PeachPaymentResponse.id peachResponse
          /\ (In (PeachResult.code (PeachPaymentResponse.result peachResponse))
                REJECTED_CODES
              \/ In (PeachResult.code (PeachPaymentResponse.result peachResponse))
                   ERROR_CODES ->
              PaymentResponse.status response = FAILED
              /\ PaymentResponse.failureReason response
                 = Some (PeachResult.description (PeachPaymentResponse.result peachResponse))).
Proof.
  intros Hmap response s'.
  unfold PeachPaymentsGateway.processPayment. run. rewrite Hmap.
  destruct (HttpClient.post _ _ _ _ s1) as [[failure | peachResponse] s2] eqn:Hpost.
  - split.
    + destruct (instanceofValidationError failure); discriminate.
    + intros (r & [=] & _).
  - split.
    + intros [= <- <-]. exists peachResponse. split; [reflexivity |].
      split; [reflexivity |]. split; [reflexivity |].
      intros Hcode. apply mapPaymentStatus_failed_iff in Hcode. simpl.
      rewrite Hcode. split; reflexivity.
    + intros (r & [= <- <-] & -> & _). reflexivity.
Qed.

(** The card is declined: the answer [000.400.010] comes back as a response. *)
Lemma declined_payment_is_returned_witness :
  let request := Mock.validPaymentRequest PaymentMethod.CARD in
  let declined :=
    {| Mock.payments := [ Mock.ok (Mock.paymentResponse "000.400.010" "Invalid card number") ];
       Mock.statuses := []; Mock.refunds := []; Mock.clock := 1700000000000 |} in
  (PeachPaymentsGateway.processPayment Mock.gateway request (Mock.start declined)).1
  = inr (PeachPaymentsGateway.mapToPaymentResponse
           (Mock.paymentResponse "000.400.010" "Invalid card number") request)
  /\ PaymentResponse.failureReason
       (PeachPaymentsGateway.mapToPaymentResponse
          (Mock.paymentResponse "000.400.010" "Invalid card number") request)
     = Some "Invalid card number".
Proof.
  intros request declined.
  destruct (mapToPaymentRequest_returns Mock.gateway request (Mock.start declined))
    as (wire & s1 & Hmap & _).
  destruct (declined_payment_is_returned Mock.gateway request wire (Mock.start declined) s1
              Hmap
              (PeachPaymentsGateway.mapToPaymentResponse
                 (Mock.paymentResponse "000.400.010" "Invalid card number") request)
              (PeachPaymentsGateway.processPayment Mock.gateway request
                 (Mock.start declined)).2)
    as [Hreturned _].
  destruct Hreturned as (peachResponse & _ & Hresponse & _ & Hfailed); [reflexivity |].
  split; [reflexivity |].
  pose proof (f_equal PaymentResponse.metadata Hresponse) as Hmeta.
  simpl in Hmeta. injection Hmeta as <-.
  apply Hfailed. left. in_list.
Defined.

Lemma call_sent_only {W T} (maxRetries : Z) (method url : string)
    (send : W -> AxiosOutcome T * W) (s : State W) :
  sent_only method url maxRetries s
    (HttpClient.executeWithRetry maxRetries (HttpClient.request method url send) 1 s).2.
Proof.
  destruct (call_trace_shape maxRetries method url send 1 s) as (k & Hk & Htrace).
  exists k. split; [lia | exact Htrace].
Qed.

(** X19.  With an integer retry count [retries] in the transport of the
    adapter: each operation of the adapter sends requests of one kind only,
    at least one and at most [max 1 retries] of them: [processPayment] posts to
    [/payments], [processRefund] posts to [/payments/] followed by the payment
    id, and both status lookups get [/payments/] followed by the id and the
    query [?entityId=] with the entity id of the configuration. *)
Theorem adapter_requests `{Platform} {W} `{Runtime W} (this : PeachPaymentsGateway.t) :
  let budget := HttpClient.retries (PeachPaymentsGateway.httpClient this) in
  let entity := PeachPaymentsConfig.entityId (PeachPaymentsGateway.peachConfig this) in
  (forall (request : PaymentRequest.t) (s : State W),
     sent_only "POST" "/payments" budget s
       (PeachPaymentsGateway.processPayment this request s).2)
  /\ (forall (paymentId : string) (s : State W),
        sent_only "GET" ("/payments/" +:+ paymentId +:+ "?entityId=" +:+ entity) budget s
          (PeachPaymentsGateway.getPaymentStatus this paymentId s).2)
  /\ (forall (request : RefundRequest.t) (s : State W),
        sent_only "POST" ("/payments/" +:+ RefundRequest.paymentId request) budget s
          (PeachPaymentsGateway.processRefund this request s).2)
  /\ (forall (refundId : string) (s : State W),
        sent_only "GET" ("/payments/" +:+ refundId +:+ "?entityId=" +:+ entity) budget s
          (PeachPaymentsGateway.getRefundStatus this refundId s).2).
Proof.
  intros budget entity. split; [| split; [| split]].
  - intros request s.
    destruct (mapToPaymentRequest_returns this request s)
      as (wire & s1 & Hmap & _ & _ & _ & Htrace).
    pose proof (call_sent_only budget "POST" "/payments"
                  (axios_post_payment (HttpClient.client (PeachPaymentsGateway.httpClient this))
                     "/payments" wire) s1) as Hsent.
    unfold PeachPaymentsGateway.processPayment. run. rewrite Hmap.
    unfold HttpClient.post. fold budget.
    destruct (HttpClient.executeWithRetry _ _ _ s1) as [[failure | response] s2]; simpl in *.
    + unfold sent_only in *. rewrite <- Htrace.
      destruct (instanceofValidationError failure); exact Hsent.
    + unfold sent_only in *. rewrite <- Htrace. exact Hsent.
  - intros paymentId s.
    pose proof (call_sent_only budget "GET"
                  ("/payments/" +:+ paymentId +:+ "?entityId=" +:+ entity)
                  (axios_get_status (HttpClient.client (PeachPaymentsGateway.httpClient this))
                     ("/payments/" +:+ paymentId +:+ "?entityId=" +:+ entity)) s) as Hsent.
    unfold PeachPaymentsGateway.getPaymentStatus. run. unfold HttpClient.get.
    fold entity. fold budget.
    destruct (HttpClient.executeWithRetry _ _ _ s) as [[failure | response] s2]; exact Hsent.
  - intros request s.
    pose proof (call_sent_only budget "POST"
                  ("/payments/" +:+ RefundRequest.paymentId request)
                  (axios_post_refund (HttpClient.client (PeachPaymentsGateway.httpClient this))
                     ("/payments/" +:+ RefundRequest.paymentId request)
                     (PeachPaymentsGateway.mapToRefundRequest this request)) s) as Hsent.
    unfold PeachPaymentsGateway.processRefund. run. unfold HttpClient.post.
    fold budget.
    destruct (HttpClient.executeWithRetry _ _ _ s) as [[failure | response] s2]; exact Hsent.
  - intros refundId s.
    pose proof (call_sent_only budget "GET"
                  ("/payments/" +:+ refundId +:+ "?entityId=" +:+ entity)
                  (axios_get_status (HttpClient.client (PeachPaymentsGateway.httpClient this))
                     ("/payments/" +:+ refundId +:+ "?entityId=" +:+ entity)) s) as Hsent.
    unfold PeachPaymentsGateway.getRefundStatus. run. unfold HttpClient.get.
    fold entity. fold budget.
    destruct (HttpClient.executeWithRetry _ _ _ s) as [[failure | response] s2]; exact Hsent.
Qed.

(** X20.  [processRefund] of the adapter returns exactly when the transport
    returned an answer of the gateway; the response then has the payment id,
    the reason and the reference of the request, the id and the currency of the
    answer, and the amount parsed from the answer, not the amount asked for. *)
Theorem refund_response_fields `{Platform} {W} `{Runtime W}
    (this : PeachPaymentsGateway.t) (request : RefundRequest.t) (s s' : State W)
    (response : RefundResponse.t) :
  PeachPaymentsGateway.processRefund this request s = (inr response, s')
  <-> exists peachResponse : PeachRefundResponse.t,
        HttpClient.post (PeachPaymentsGateway.httpClient this)
          ("/payments/" +:+ RefundRequest.paymentId request)
          (PeachPaymentsGateway.mapToRefundRequest this request) axios_post_refund s
        = (inr peachResponse, s')
        /\ response = PeachPaymentsGateway.mapToRefundResponse peachResponse request
        /\ RefundResponse.paymentId response = RefundRequest.paymentId request
        /\ RefundResponse.reason response = RefundRequest.reason request
        /\ RefundResponse.reference response = RefundRequest.reference request
        /\ RefundResponse.id response = PeachRefundResponse.id peachResponse
        /\ RefundResponse.gatewayReference response
           = Some (PeachRefundResponse.id peachResponse)
        /\ RefundResponse.amount response
           = {| Amount.value := parseFloat (PeachRefundResponse.amount peachResponse);
                Amount.currency := PeachRefundResponse.currency peachResponse |}.
Proof.
  unfold PeachPaymentsGateway.processRefund. run.
  destruct (HttpClient.post _ _ _ _ s) as [[failure | peachResponse] s2] eqn:Hpost.
  - split; [discriminate | intros (r & [=] & _)].
  - split.
    + intros [= <- <-]. exists peachResponse. simpl. auto 10.
    + intros (r & [= <- <-] & -> & _). reflexivity.
Qed.

(** A refund of 50.00 ZAR that the gateway accepts. *)
Lemma refund_response_fields_witness :
  let accepted :=
    {| PeachRefundResponse.id := "refund-123";
       PeachRefundResponse.paymentType := "RF";
       PeachRefundResponse.amount := "50.00";
       PeachRefundResponse.currency := "ZAR";
       PeachRefundResponse.result :=
         {| PeachResult.code := "000.000.000";
            PeachResult.description := "Transaction succeeded" |};
       PeachRefundResponse.timestamp := "2024-01-01 00:00:00+0000" |} in
  let request :=
    Mock.refundRequest (Some {| Amount.value := 5000; Amount.currency := Currency.ZAR |}) in
  let w :=
    {| Mock.payments := []; Mock.statuses := []; Mock.refunds := [Mock.ok accepted];
       Mock.clock := 1700000000000 |} in
  exists response : RefundResponse.t,
    (PeachPaymentsGateway.processRefund Mock.gateway request (Mock.start w)).1 = inr response
    /\ RefundResponse.paymentId response = "payment-123"
    /\ RefundResponse.id response = "refund-123".
Proof.
  intros accepted request w.
  assert (Hrefund :
    PeachPaymentsGateway.processRefund Mock.gateway request (Mock.start w)
    = (inr (PeachPaymentsGateway.mapToRefundResponse accepted request),
       mkState Mock.empty [HttpRequest "POST" "/payments/payment-123"])).
  { apply (proj2 (refund_response_fields Mock.gateway request (Mock.start w)
                    (mkState Mock.empty [HttpRequest "POST" "/payments/payment-123"])
                    (PeachPaymentsGateway.mapToRefundResponse accepted request))).
    exists accepted. split; [reflexivity |]. simpl. auto 10. }
  eexists. split; [now rewrite Hrefund |]. split; reflexivity.
Defined.

(** ** The orchestrator: routing *)

Lemma getGateway_named `{Platform} {W} `{Runtime W}
    (this : PayLens.t W) (gatewayName : string) (s : State W) :
  gatewayName <> "" ->
  PayLens.getGateway this (Some gatewayName) s
  = match PayLens.gateways this !! gatewayName with
    | Some gateway => (inr gateway, s)
    | None =>
        (inl (ConfigurationError
                ("Gateway " +:+ gatewayName +:+ " not found. Available gateways: "
                   +:+ String.concat ", " (PayLens.getAvailableGateways this))
                None None),
         s)
    end.
Proof.
  intros Hne. unfold PayLens.getGateway. simpl.
  apply String.eqb_neq in Hne. rewrite Hne. simpl. rewrite Hne. simpl.
  destruct (PayLens.gateways this !! gatewayName); reflexivity.
Qed.

Lemma getGateway_default `{Platform} {W} `{Runtime W}
    (this : PayLens.t W) (gatewayName : option string) (s : State W) :
  gatewayName = None \/ gatewayName = Some "" ->
  PayLens.getGateway this gatewayName s
  = match PayLens.defaultGateway this with
    | Some name =>
        if String.eqb name ""
        then (inl (ConfigurationError "No gateway specified and no default gateway set"
                     None None), s)
        else PayLens.getGateway this (Some name) s
    | None =>
        (inl (ConfigurationError "No gateway specified and no default gateway set"
                None None), s)
    end.
Proof.
  intros Hname.
  assert (Hfalsy : truthy gatewayName = false) by (destruct Hname as [-> | ->]; reflexivity).
  unfold PayLens.getGateway. rewrite Hfalsy.
  destruct (PayLens.defaultGateway this) as [name |]; simpl; [| reflexivity].
  destruct (String.eqb name "") eqn:Hempty; simpl; [reflexivity |].
  rewrite ?Hempty. simpl. rewrite ?Hempty. reflexivity.
Qed.

(** X21.  The orchestrator routes a call to the gateway registered under
    the given name; a missing or empty name means the default gateway.  An
    unregistered name is a [ConfigurationError], and so is no name when no
    default is set.  Routing changes nothing. *)
Theorem gateway_routing `{Platform} {W} `{Runtime W} (this : PayLens.t W) (s : State W) :
  (forall name gateway, name <> "" ->
     PayLens.gateways this !! name = Some gateway ->
     PayLens.getGateway this (Some name) s = (inr gateway, s))
  /\ (forall name, name <> "" ->
        PayLens.gateways this !! name = None ->
        exists message,
          PayLens.getGateway this (Some name) s
          = (inl (ConfigurationError message None None), s))
  /\ PayLens.getGateway this (Some "") s = PayLens.getGateway this None s
  /\ (forall name, name <> "" ->
        PayLens.defaultGateway this = Some name ->
        PayLens.getGateway this None s = PayLens.getGateway this (Some name) s)
  /\ (PayLens.defaultGateway this = None \/ PayLens.defaultGateway this = Some "" ->
      PayLens.getGateway this None s
      = (inl (ConfigurationError "No gateway specified and no default gateway set"
                None None),
         s))
  /\ (forall name, (PayLens.getGateway this name s).2 = s).
Proof.
  split; [| split; [| split; [| split; [| split]]]].
  - intros name gateway Hne Hlookup. rewrite (getGateway_named this name s Hne).
    now rewrite Hlookup.
  - intros name Hne Hlookup. rewrite (getGateway_named this name s Hne).
    rewrite Hlookup. eauto.
  - rewrite (getGateway_default this (Some "") s) by auto.
    rewrite (getGateway_default this None s) by auto. reflexivity.
  - intros name Hne Hdefault. rewrite (getGateway_default this None s) by auto.
    rewrite Hdefault. apply String.eqb_neq in Hne. now rewrite Hne.
  - intros Hdefault. rewrite (getGateway_default this None s) by auto.
    destruct Hdefault as [-> | ->]; reflexivity.
  - intros name. apply getGateway_pure.
Qed.

Lemma gateway_routing_witness :
  PayLens.getGateway Mock.payLens None (Mock.start Mock.empty)
  = PayLens.getGateway Mock.payLens (Some "peach") (Mock.start Mock.empty)
  /\ exists message,
       PayLens.getGateway Mock.payLens (Some "payfast") (Mock.start Mock.empty)
       = (inl (ConfigurationError message None None), Mock.start Mock.empty).
Proof.
  destruct (gateway_routing Mock.payLens (Mock.start Mock.empty))
    as (_ & Hunknown & _ & Hdefault & _).
  split.
  - apply Hdefault; [discriminate | reflexivity].
  - apply (Hunknown "payfast"); [discriminate | reflexivity].
Defined.

(** X22.  [setDefaultGateway] succeeds exactly for a registered name, and
    then changes nothing but the default: the registry is the same and a call
    without a name is routed to the gateway of that name.  For an unregistered
    name it throws a [ConfigurationError]. *)
Theorem setDefaultGateway_spec `{Platform} {W} `{Runtime W}
    (this : PayLens.t W) (name : string) (s : State W) :
  (forall gateway, PayLens.gateways this !! name = Some gateway ->
     exists this' : PayLens.t W,
       PayLens.setDefaultGateway this name s = (inr this', s)
       /\ PayLens.gateways this' = PayLens.gateways this
       /\ PayLens.defaultGateway this' = Some name
       /\ (name <> "" -> PayLens.getGateway this' None s = (inr gateway, s)))
  /\ (PayLens.gateways this !! name = None ->
      PayLens.setDefaultGateway this name s
      = (inl (ConfigurationError ("Gateway " +:+ name +:+ " not found") None None), s)).
Proof.
  unfold PayLens.setDefaultGateway, PayLens.isGatewayAvailable. split.
  - intros gateway Hlookup.
    rewrite bool_decide_eq_true_2 by (rewrite Hlookup; eauto). simpl.
    eexists. split; [reflexivity |]. simpl. split; [reflexivity |].
    split; [reflexivity |]. intros Hne.
    rewrite (getGateway_default _ None s) by auto. simpl.
    apply String.eqb_neq in Hne. rewrite Hne.
    rewrite (getGateway_named _ name s) by (now apply String.eqb_neq).
    simpl. now rewrite Hlookup.
  - intros Hlookup.
    rewrite bool_decide_eq_false_2 by (rewrite Hlookup; apply is_Some_None). reflexivity.
Qed.

Lemma setDefaultGateway_spec_witness :
  (exists this' : PayLens.t Mock.World,
     PayLens.setDefaultGateway Mock.payLens "peach" (Mock.start Mock.empty)
     = (inr this', Mock.start Mock.empty)
     /\ PayLens.gateways this' = PayLens.gateways Mock.payLens)
  /\ PayLens.setDefaultGateway Mock.payLens "nonexistent" (Mock.start Mock.empty)
     = (inl (ConfigurationError "Gateway nonexistent not found" None None),
        Mock.start Mock.empty).
Proof.
  split.
  - destruct (proj1 (setDefaultGateway_spec Mock.payLens "peach" (Mock.start Mock.empty))
                (PeachPaymentsGateway.as_gateway Mock.gateway))
      as (this' & Hset & Hregistry & _); [reflexivity |].
    exists this'. split; [exact Hset | exact Hregistry].
  - apply (proj2 (setDefaultGateway_spec Mock.payLens "nonexistent" (Mock.start Mock.empty))).
    reflexivity.
Defined.

(** X23.  The four ways to ask the orchestrator about a name agree:
    [isGatewayAvailable] is true, the name is in [getAvailableGateways],
    [getGatewayInfo] returns and [setDefaultGateway] returns, all exactly when
    the name is registered; [getGatewayInfo] then gives the name and the
    supported methods of that gateway, and [getAvailableGateways] lists no name
    twice. *)
Theorem registry_queries_agree `{Platform} {W} `{Runtime W}
    (this : PayLens.t W) (name : string) (s : State W) :
  (PayLens.isGatewayAvailable this name = true
   <-> is_Some (PayLens.gateways this !! name))
  /\ (In name (PayLens.getAvailableGateways this)
      <-> is_Some (PayLens.gateways this !! name))
  /\ ((exists info, PayLens.getGatewayInfo this name s = (inr info, s))
      <-> is_Some (PayLens.gateways this !! name))
  /\ ((exists this', PayLens.setDefaultGateway this name s = (inr this', s))
      <-> is_Some (PayLens.gateways this !! name))
  /\ (forall gateway, PayLens.gateways this !! name = Some gateway ->
        PayLens.getGatewayInfo this name s
        = (inr (PaymentGateway.name gateway, PaymentGateway.supportedMethods gateway), s))
  /\ (PayLens.gateways this !! name = None ->
      PayLens.getGatewayInfo this name s
      = (inl (ConfigurationError ("Gateway " +:+ name +:+ " not found") None None), s))
  /\ NoDup (PayLens.getAvailableGateways this).
Proof.
  split; [apply isGatewayAvailable_spec |]. split; [| split; [| split; [| split; [| split]]]].
  - unfold PayLens.getAvailableGateways. rewrite <- list_elem_of_In.
    rewrite list_elem_of_fmap. split.
    + intros ([key gateway] & -> & Hin). apply elem_of_map_to_list in Hin.
      simpl. rewrite Hin. eauto.
    + intros [gateway Hlookup]. exists (name, gateway). split; [reflexivity |].
      now apply elem_of_map_to_list.
  - unfold PayLens.getGatewayInfo.
    destruct (PayLens.gateways this !! name) as [gateway |]; split.
    + eauto.
    + intros _. eexists. reflexivity.
    + intros [info Hinfo]. discriminate.
    + intros Hsome. now apply is_Some_None in Hsome.
  - unfold PayLens.setDefaultGateway, PayLens.isGatewayAvailable.
    destruct (PayLens.gateways this !! name) as [gateway |] eqn:Hlookup; split.
    + eauto.
    + intros _. rewrite bool_decide_eq_true_2 by eauto. eexists. reflexivity.
    + rewrite bool_decide_eq_false_2 by apply is_Some_None. intros [this' Hset]. discriminate.
    + intros Hsome. now apply is_Some_None in Hsome.
  - intros gateway Hlookup. unfold PayLens.getGatewayInfo. now rewrite Hlookup.
  - intros Hlookup. unfold PayLens.getGatewayInfo. now rewrite Hlookup.
  - unfold PayLens.getAvailableGateways. apply NoDup_fst_map_to_list.
Qed.

Lemma registry_queries_agree_witness :
  PayLens.getGatewayInfo Mock.payLens "peach" (Mock.start Mock.empty)
  = (inr ("PeachPayments", ["card"; "eft"; "mobile_wallet"]), Mock.start Mock.empty)
  /\ PayLens.getGatewayInfo Mock.payLens "nonexistent" (Mock.start Mock.empty)
     = (inl (ConfigurationError "Gateway nonexistent not found" None None),
        Mock.start Mock.empty).
Proof.
  destruct (registry_queries_agree Mock.payLens "peach" (Mock.start Mock.empty))
    as (_ & _ & _ & _ & Hinfo & _).
  destruct (registry_queries_agree Mock.payLens "nonexistent" (Mock.start Mock.empty))
    as (_ & _ & _ & _ & _ & Hnone & _).
  split.
  - apply (Hinfo (PeachPaymentsGateway.as_gateway Mock.gateway)). reflexivity.
  - apply Hnone. reflexivity.
Defined.

(** ** The orchestrator: validation and delegation *)

(** X24.  A status lookup through the orchestrator with an id that is
    empty or made of white space only throws a [ValidationError] and touches
    nothing, whether a gateway can be resolved or not; with any other id of
    ASCII characters it is the lookup of the resolved gateway, with the id as
    given. *)
Theorem blank_id_rejected `{Platform} {W} `{Runtime W}
    (this : PayLens.t W) (id : string) (gatewayName : option string) (s : State W) :
  (blank id = true ->
   PayLens.getPaymentStatus this id gatewayName s
   = (inl (ValidationError "Payment ID is required" None None), s)
   /\ PayLens.getRefundStatus this id gatewayName s
      = (inl (ValidationError "Refund ID is required" None None), s))
  /\ (forall gateway,
        ascii_only id = true -> blank id = false ->
        PayLens.getGateway this gatewayName s = (inr gateway, s) ->
        PayLens.getPaymentStatus this id gatewayName s
        = PaymentGateway.getPaymentStatus gateway id s
        /\ PayLens.getRefundStatus this id gatewayName s
           = PaymentGateway.getRefundStatus gateway id s).
Proof.
  unfold PayLens.getPaymentStatus, PayLens.getRefundStatus. split.
  - intros ->. split; reflexivity.
  - intros gateway _ -> Hresolve. run. rewrite Hresolve. split; reflexivity.
Qed.

Lemma blank_id_rejected_witness :
  PayLens.getPaymentStatus Mock.payLens "  " None (Mock.start Mock.steady)
  = (inl (ValidationError "Payment ID is required" None None), Mock.start Mock.steady)
  /\ PayLens.getRefundStatus Mock.payLens "refund-123" (Some "peach") (Mock.start Mock.steady)
     = PeachPaymentsGateway.getRefundStatus Mock.gateway "refund-123" (Mock.start Mock.steady).
Proof.
  split.
  - apply (blank_id_rejected Mock.payLens "  " None (Mock.start Mock.steady)). reflexivity.
  - apply (proj2 (blank_id_rejected Mock.payLens "refund-123" (Some "peach")
                    (Mock.start Mock.steady))
             (PeachPaymentsGateway.as_gateway Mock.gateway)); reflexivity.
Defined.

(** X25.  [processPayment] of the orchestrator validates before it routes:
    a request the schema rejects throws a [ValidationError] and touches
    nothing, even when the gateway name is unknown.  A valid request for an
    unresolvable gateway throws what the routing throws, and a valid request
    for a method the resolved gateway supports is handed to that gateway
    unchanged. *)
Theorem processPayment_order `{Platform} {W} `{Runtime W}
    (this : PayLens.t W) (request : PaymentRequest.t) (gatewayName : option string)
    (s : State W) :
  (success (PaymentRequestSchema request) = false ->
   PayLens.processPayment this request gatewayName s
   = (inl (ValidationError
             ("Invalid payment request: " +:+ zod_message (PaymentRequestSchema request))
             None None),
      s))
  /\ (forall thrown s',
        success (PaymentRequestSchema request) = true ->
        PayLens.getGateway this gatewayName s = (inl thrown, s') ->
        PayLens.processPayment this request gatewayName s = (inl thrown, s))
  /\ (forall gateway s',
        success (PaymentRequestSchema request) = true ->
        PayLens.getGateway this gatewayName s = (inr gateway, s') ->
        PaymentGateway.supportsPaymentMethod gateway (PaymentRequest.paymentMethod request)
        = true ->
        PayLens.processPayment this request gatewayName s
        = PaymentGateway.processPayment gateway request s).
Proof.
  unfold PayLens.processPayment. split; [| split].
  - intros ->. reflexivity.
  - intros thrown s' -> Hresolve.
    pose proof (getGateway_pure this gatewayName s) as Hpure.
    rewrite Hresolve in Hpure. simpl in Hpure. subst s'.
    run. now rewrite Hresolve.
  - intros gateway s' -> Hresolve Hsupported.
    pose proof (getGateway_pure this gatewayName s) as Hpure.
    rewrite Hresolve in Hpure. simpl in Hpure. subst s'.
    run. now rewrite Hresolve, Hsupported.
Qed.

(** A request without customer, for a gateway that does not exist; and a valid
    card payment. *)
Lemma processPayment_order_witness :
  let invalid :=
    {| PaymentRequest.amount := {| Amount.value := -10000; Amount.currency := Currency.ZAR |};
       PaymentRequest.customer := None;
       PaymentRequest.paymentMethod := PaymentMethod.CARD;
       PaymentRequest.reference := None;
       PaymentRequest.description := None;
       PaymentRequest.billingAddress := None;
       PaymentRequest.cardDetails := None;
       PaymentRequest.returnUrl := None;
       PaymentRequest.webhookUrl := None |} in
  PayLens.processPayment Mock.payLens invalid (Some "nonexistent") (Mock.start Mock.empty)
  = (inl (ValidationError "Invalid payment request: value, customer" None None),
     Mock.start Mock.empty)
  /\ PayLens.processPayment Mock.payLens (Mock.validPaymentRequest PaymentMethod.CARD) None
       (Mock.start Mock.empty)
     = PeachPaymentsGateway.processPayment Mock.gateway
         (Mock.validPaymentRequest PaymentMethod.CARD) (Mock.start Mock.empty).
Proof.
  intros invalid. split.
  - rewrite (proj1 (processPayment_order Mock.payLens invalid (Some "nonexistent")
                      (Mock.start Mock.empty))) by reflexivity.
    reflexivity.
  - destruct (processPayment_order Mock.payLens (Mock.validPaymentRequest PaymentMethod.CARD)
                None (Mock.start Mock.empty)) as (_ & _ & Hdelegate).
    apply (Hdelegate (PeachPaymentsGateway.as_gateway Mock.gateway) (Mock.start Mock.empty));
      reflexivity.
Defined.

(** X26.  [processRefund] of the orchestrator rejects, before it routes, a
    request with an empty payment id, a non-positive amount or a currency
    outside the enum, with a [ValidationError] and without touching anything;
    every other request is handed to the resolved gateway without a check of
    capabilities. *)
Theorem processRefund_validation `{Platform} {W} `{Runtime W}
    (this : PayLens.t W) (request : RefundRequest.t) (gatewayName : option string)
    (s : State W) :
  (RefundRequest.paymentId request = ""
   \/ (exists a, RefundRequest.amount request = Some a
                 /\ (Amount.value a <= 0 \/ ~ In (Amount.currency a) Currency.values)) ->
   success (RefundRequestSchema request) = false)
  /\ (success (RefundRequestSchema request) = false ->
      PayLens.processRefund this request gatewayName s
      = (inl (ValidationError
                ("Invalid refund request: " +:+ zod_message (RefundRequestSchema request))
                None None),
         s))
  /\ (forall gateway s',
        success (RefundRequestSchema request) = true ->
        PayLens.getGateway this gatewayName s = (inr gateway, s') ->
        PayLens.processRefund this request gatewayName s
        = PaymentGateway.processRefund gateway request s).
Proof.
  assert (Haccepts :
    success (RefundRequestSchema request) = true
    <-> RefundRequest.paymentId request <> ""
        /\ forall a, RefundRequest.amount request = Some a ->
                     0 < Amount.value a /\ In (Amount.currency a) Currency.values).
  { unfold RefundRequestSchema. rewrite success_true_app, success_min1.
    rewrite negb_true_iff, String.eqb_neq.
    apply and_iff_compat_l.
    destruct (RefundRequest.amount request) as [a |]; simpl.
    + unfold AmountObjectSchema. rewrite success_true_app. split.
      * intros [Hvalue Hcurrency] a' [= <-]. split.
        -- destruct (0 <? Amount.value a) eqn:Hpos; [now apply Z.ltb_lt | discriminate].
        -- destruct (includes Currency.values (Amount.currency a)) eqn:Hin;
             [| discriminate].
           exact (proj1 (includes_In Currency.values (Amount.currency a)) Hin).
      * intros Hall. destruct (Hall a eq_refl) as [Hpos Hin].
        apply Z.ltb_lt in Hpos.
        apply (proj2 (includes_In Currency.values (Amount.currency a))) in Hin.
        now rewrite Hpos, Hin.
    + split; [intros _ a' [=] | reflexivity]. }
  split; [| split].
  - intros Hbad.
    destruct (success (RefundRequestSchema request)); [| reflexivity].
    destruct (proj1 Haccepts eq_refl) as [Hid Hamount].
    destruct Hbad as [Hempty | (a & Ha & Hbad)]; [contradiction |].
    destruct (Hamount a Ha) as [Hpos Hin]. destruct Hbad as [Hle | Hout]; [lia | contradiction].
  - unfold PayLens.processRefund. intros ->. reflexivity.
  - intros gateway s' Hvalid Hresolve. unfold PayLens.processRefund. rewrite Hvalid.
    pose proof (getGateway_pure this gatewayName s) as Hpure.
    rewrite Hresolve in Hpure. simpl in Hpure. subst s'.
    run. now rewrite Hresolve.
Qed.

(** The invalid refund request of the unit tests: no payment id, a negative
    amount. *)
Lemma processRefund_validation_witness :
  let invalid :=
    {| RefundRequest.paymentId := "";
       RefundRequest.amount := Some {| Amount.value := -5000; Amount.currency := Currency.ZAR |};
       RefundRequest.reason := None;
       RefundRequest.reference := None |} in
  PayLens.processRefund Mock.payLens invalid None (Mock.start Mock.empty)
  = (inl (ValidationError "Invalid refund request: paymentId, value" None None),
     Mock.start Mock.empty)
  /\ PayLens.processRefund Mock.payLens (Mock.refundRequest None) None (Mock.start Mock.empty)
     = PeachPaymentsGateway.processRefund Mock.gateway (Mock.refundRequest None)
         (Mock.start Mock.empty).
Proof.
  intros invalid. split.
  - destruct (processRefund_validation Mock.payLens invalid None (Mock.start Mock.empty))
      as (Hrejected & Hthrown & _).
    rewrite Hthrown; [reflexivity |].
    apply Hrejected. left. reflexivity.
  - destruct (processRefund_validation Mock.payLens (Mock.refundRequest None) None
                (Mock.start Mock.empty)) as (_ & _ & Hdelegate).
    apply (Hdelegate (PeachPaymentsGateway.as_gateway Mock.gateway) (Mock.start Mock.empty));
      reflexivity.
Defined.

(** ** The orchestrator the constructor builds *)

Lemma PayLens_new_inversion `{Platform} {W} `{Runtime W}
    (config : PayLens.PayLensConfig) (this : PayLens.t W) (s0 s1 : State W) :
  PayLens.new config s0 = (inr this, s1) ->
  exists (peachConfig : PeachPaymentsConfig.t) (adapter : PeachPaymentsGateway.t),
    PayLens.peachPayments config = Some peachConfig
    /\ PeachPaymentsGateway.new peachConfig s0 = (inr adapter, s1)
    /\ this = {| PayLens.gateways := {[ "peach" := PeachPaymentsGateway.as_gateway adapter ]};
                 PayLens.defaultGateway := Some "peach" |}.
Proof.
  intros Hnew.
  destruct (PayLens.peachPayments config) as [peachConfig |] eqn:Hcfg.
  - destruct (PeachPaymentsGateway.new peachConfig s0) as [[error | adapter] s2] eqn:Hadapter.
    + rewrite (new_adapter_failure config peachConfig error s0 s2 Hcfg Hadapter) in Hnew.
      discriminate.
    + rewrite (new_single_gateway config peachConfig adapter s0 s2 Hcfg Hadapter) in Hnew.
      injection Hnew as <- <-. eauto.
  - rewrite (new_without_config config s0 Hcfg) in Hnew. discriminate.
Qed.

Lemma constructed_getGateway `{Platform} {W} `{Runtime W}
    (adapter : PeachPaymentsGateway.t) (gatewayName : option string) (s : State W) :
  routes_to_peach gatewayName ->
  PayLens.getGateway
    {| PayLens.gateways := {[ "peach" := PeachPaymentsGateway.as_gateway adapter ]};
       PayLens.defaultGateway := Some "peach" |} gatewayName s
  = (inr (PeachPaymentsGateway.as_gateway adapter), s).
Proof.
  intros [-> | [-> | ->]]; unfold PayLens.getGateway; simpl;
    rewrite lookup_singleton_eq; reflexivity.
Qed.

(** X27.  An orchestrator that the constructor built has the one gateway
    of the Peach adapter: a call without a name, with an empty name or with the
    name ["peach"] is the adapter's operation on the same arguments, provided
    the request is valid and, for a payment, its method is [card], [eft] or
    [mobile_wallet]; any other name is a [ConfigurationError] that lists
    ["peach"] as the available gateway. *)
Theorem constructed_orchestrator_delegates `{Platform} {W} `{Runtime W}
    (config : PayLens.PayLensConfig) (this : PayLens.t W) (s0 s1 : State W) :
  PayLens.new config s0 = (inr this, s1) ->
  exists (peachConfig : PeachPaymentsConfig.t) (adapter : PeachPaymentsGateway.t),
    PayLens.peachPayments config = Some peachConfig
    /\ PeachPaymentsGateway.new peachConfig s0 = (inr adapter, s1)
    /\ (forall request gatewayName s,
          routes_to_peach gatewayName ->
          success (PaymentRequestSchema request) = true ->
          In (PaymentRequest.paymentMethod request) PeachPaymentsGateway.supportedMethods ->
          PayLens.processPayment this request gatewayName s
          = PeachPaymentsGateway.processPayment adapter request s)
    /\ (forall request gatewayName s,
          routes_to_peach gatewayName ->
          success (RefundRequestSchema request) = true ->
          PayLens.processRefund this request gatewayName s
          = PeachPaymentsGateway.processRefund adapter request s)
    /\ (forall id gatewayName s,
          routes_to_peach gatewayName ->
          ascii_only id = true -> blank id = false ->
          PayLens.getPaymentStatus this id gatewayName s
          = PeachPaymentsGateway.getPaymentStatus adapter id s
          /\ PayLens.getRefundStatus this id gatewayName s
             = PeachPaymentsGateway.getRefundStatus adapter id s)
    /\ (forall name s,
          name <> "" -> name <> "peach" ->
          PayLens.getGateway this (Some name) s
          = (inl (ConfigurationError
                    ("Gateway " +:+ name +:+ " not found. Available gateways: peach")
                    None None),
             s))
    /\ (forall s,
          PayLens.getGatewayInfo this "peach" s
          = (inr ("PeachPayments",
                  [PaymentMethod.CARD; PaymentMethod.EFT; PaymentMethod.MOBILE_WALLET]), s)).
Proof.
  intros Hnew.
  destruct (PayLens_new_inversion config this s0 s1 Hnew)
    as (peachConfig & adapter & Hcfg & Hadapter & ->).
  exists peachConfig, adapter. split; [exact Hcfg |]. split; [exact Hadapter |].
  split; [| split; [| split; [| split]]].
  - intros request gatewayName s Hroute Hvalid Hmethod.
    apply supportsPaymentMethod_In in Hmethod.
    unfold PayLens.processPayment. rewrite Hvalid.
    unfold mbind, M_bind. cbn [negb].
    rewrite (constructed_getGateway adapter gatewayName s Hroute).
    cbn [PaymentGateway.supportsPaymentMethod PeachPaymentsGateway.as_gateway
         PaymentGateway.processPayment negb].
    now rewrite Hmethod.
  - intros request gatewayName s Hroute Hvalid.
    unfold PayLens.processRefund. rewrite Hvalid. run.
    now rewrite (constructed_getGateway adapter gatewayName s Hroute).
  - intros id gatewayName s Hroute _ Hblank.
    unfold PayLens.getPaymentStatus, PayLens.getRefundStatus. rewrite Hblank. run.
    rewrite (constructed_getGateway adapter gatewayName s Hroute). split; reflexivity.
  - intros name s Hne Hother. rewrite (getGateway_named _ name s Hne). simpl.
    rewrite lookup_singleton_ne by congruence.
    unfold PayLens.getAvailableGateways. simpl. rewrite map_to_list_singleton. reflexivity.
  - intros s. unfold PayLens.getGatewayInfo. simpl. rewrite lookup_singleton_eq. reflexivity.
Qed.

Lemma constructed_orchestrator_delegates_witness :
  let config := {| PayLens.peachPayments := Some Mock.validConfig |} in
  exists adapter : PeachPaymentsGateway.t,
    PayLens.processPayment Mock.payLens (Mock.validPaymentRequest PaymentMethod.EFT)
      (Some "peach") (Mock.start Mock.empty)
    = PeachPaymentsGateway.processPayment adapter (Mock.validPaymentRequest PaymentMethod.EFT)
        (Mock.start Mock.empty)
    /\ PayLens.getGateway Mock.payLens (Some "PeachPayments") (Mock.start Mock.empty)
       = (inl (ConfigurationError
                 "Gateway PeachPayments not found. Available gateways: peach" None None),
          Mock.start Mock.empty).
Proof.
  intros config.
  destruct (constructed_orchestrator_delegates config Mock.payLens (Mock.start Mock.empty)
              (PayLens.new config (Mock.start Mock.empty)).2)
    as (peachConfig & adapter & _ & _ & Hpay & _ & _ & Hunknown & _); [reflexivity |].
  exists adapter. split.
  - apply Hpay; [right; right; reflexivity | reflexivity | in_list].
  - apply (Hunknown "PeachPayments"); discriminate.
Defined.

Lemma adapter_new_effects `{Platform} {W} (config : PeachPaymentsConfig.t) (s : State W) :
  let outcome := PeachPaymentsGateway.new config s in
  world outcome.2 = world s
  /\ List.filter is_HttpRequest (trace outcome.2) = List.filter is_HttpRequest (trace s)
  /\ (forall thrown, outcome.1 = inl thrown ->
      instanceofValidationError thrown = true /\ no_transport_built s outcome.2).
Proof.
  destruct (normalizeConfig_returns config s)
    as (normalized & s1 & Hnorm & _ & _ & _ & _ & Hworld & Hbuilt).
  destruct (normalizeConfig_keeps config normalized s s1 Hnorm)
    as (_ & _ & _ & _ & _ & Htrace & _).
  assert (Hreq : List.filter is_HttpRequest (trace s1) = List.filter is_HttpRequest (trace s)).
  { destruct Htrace as [-> | ->]; [reflexivity |].
    rewrite List.filter_app. simpl. now rewrite app_nil_r. }
  destruct (success (PeachPaymentsConfigSchema normalized)) eqn:Hschema.
  - destruct (new_valid config normalized s s1 Hnorm Hschema) as (gateway & s2 & Hnew & _).
    destruct (new_inversion config gateway s s2 Hnew)
      as (n' & s1' & Hnorm' & _ & _ & _ & _ & _ & Hs2).
    rewrite Hnorm in Hnorm'. injection Hnorm' as <- <-.
    simpl. rewrite Hnew. simpl. rewrite Hs2. simpl.
    split; [exact Hworld |]. split.
    + rewrite List.filter_app. simpl. now rewrite app_nil_r.
    + intros thrown [=].
  - simpl. rewrite (new_invalid config normalized s s1 Hnorm Hschema). simpl.
    split; [exact Hworld |]. split; [exact Hreq |].
    intros thrown [= <-]. split; [reflexivity | exact Hbuilt].
Qed.

(** X28.  Constructing the orchestrator, whether it succeeds or throws,
    sends no request and leaves the world alone.  What it throws is a
    [ConfigurationError], and then no Transport has been built; when the
    adapter's constructor is the one that threw, the cause is its
    [ValidationError]. *)
Theorem orchestrator_construction_effects `{Platform} {W} `{Runtime W}
    (config : PayLens.PayLensConfig) (s : State W) :
  let outcome := PayLens.new config s in
  world outcome.2 = world s
  /\ List.filter is_HttpRequest (trace outcome.2) = List.filter is_HttpRequest (trace s)
  /\ (forall thrown, outcome.1 = inl thrown ->
      instanceofConfigurationError thrown = true
      /\ no_transport_built s outcome.2
      /\ (is_Some (PayLens.peachPayments config) ->
          exists message cause,
            thrown = ConfigurationError message (Some "peachPayments") (Some cause)
            /\ instanceofValidationError cause = true)).
Proof.
  destruct (PayLens.peachPayments config) as [peachConfig |] eqn:Hcfg.
  - pose proof (adapter_new_effects peachConfig s) as (Hworld & Hreq & Hthrown).
    destruct (PeachPaymentsGateway.new peachConfig s) as [[error | adapter] s1] eqn:Hadapter.
    + simpl in *. rewrite (new_adapter_failure config peachConfig error s s1 Hcfg Hadapter).
      simpl. split; [exact Hworld |]. split; [exact Hreq |].
      destruct (Hthrown error eq_refl) as [Hvalidation Hbuilt].
      intros thrown [= <-]. split; [reflexivity |]. split; [exact Hbuilt |].
      intros _. destruct error; try discriminate. simpl. eauto.
    + simpl in *. rewrite (new_single_gateway config peachConfig adapter s s1 Hcfg Hadapter).
      simpl. split; [exact Hworld |]. split; [exact Hreq |]. intros thrown [=].
  - simpl. rewrite (new_without_config config s Hcfg). simpl.
    split; [reflexivity |]. split; [reflexivity |].
    intros thrown [= <-]. split; [reflexivity |]. split.
    + exists []. split; [now rewrite app_nil_r | constructor].
    + intros Hsome. now apply is_Some_None in Hsome.
Qed.

Lemma orchestrator_construction_effects_witness :
  exists message cause,
    (PayLens.new {| PayLens.peachPayments := Some Mock.invalidConfig |}
       (Mock.start Mock.flaky)).1
    = inl (ConfigurationError message (Some "peachPayments") (Some cause))
    /\ instanceofValidationError cause = true.
Proof.
  destruct (orchestrator_construction_effects
              {| PayLens.peachPayments := Some Mock.invalidConfig |} (Mock.start Mock.flaky))
    as (_ & _ & Hthrown).
  edestruct Hthrown as (_ & _ & Hcause); [reflexivity |].
  destruct Hcause as (message & cause & Heq & Hvalidation); [simpl; eauto |].
  exists message, cause. split; [| exact Hvalidation].
  rewrite <- Heq. reflexivity.
Defined.
